(** * OPD Token Allocation Engine: allocation and reallocation core

    A shallow embedding of the engine's Python sources
    ([config.py], [app/core], [app/models], [app/utils/data_store.py],
    [app/services], and the service wiring of [app/api/routes.py]),
    followed by the properties of the engine stated against it.

    Conventions of the embedding.
    - A Python [dict] whose key is always the stored object's [id]
      ([DataStore.doctors], [.time_slots], [.tokens], [.patients]) is an
      insertion-ordered list of records looked up by the [id] field;
      [d[k] = v] replaces the entry in place or appends it.  Mutating an
      object held by reference is writing the changed record back under
      its id.
    - [datetime.now()], the day it falls on and the identifiers derived
      from it are read from an explicit [Env] handed to each operation.
    - A raised exception is the [Raise] result; the store is returned
      next to it, since Python keeps every mutation made before the
      [raise]. *)

From Stdlib Require Import List String Ascii ZArith Bool Lia.
From Stdlib Require Import Sorting.Sorted Sorting.Permutation.
Import ListNotations.
Local Open Scope string_scope.
Local Open Scope Z_scope.

Set Implicit Arguments.

(** ** Insertion-ordered dictionaries keyed by a field *)

Section Dict.
Variable A : Type.
Variable key : A -> string.

Fixpoint dict_get (k : string) (d : list A) : option A :=
  match d with
  | [] => None
  | x :: d' => if String.eqb (key x) k then Some x else dict_get k d'
  end.

(** [d[key v] = v] *)
Fixpoint dict_set (v : A) (d : list A) : list A :=
  match d with
  | [] => [v]
  | x :: d' => if String.eqb (key x) (key v) then v :: d' else x :: dict_set v d'
  end.

Definition dict_mem (k : string) (d : list A) : bool :=
  match dict_get k d with Some _ => true | None => false end.
End Dict.

(** ** [config.py] *)

Module Config.
Definition PRIORITY_LEVELS : list (string * Z) :=
  [ ("EMERGENCY", 1); ("PAID_PRIORITY", 2); ("FOLLOW_UP", 3);
    ("ONLINE_BOOKING", 4); ("WALK_IN", 5) ].

Definition TOKEN_SOURCES : list string :=
  [ "EMERGENCY"; "PAID_PRIORITY"; "FOLLOW_UP"; "ONLINE_BOOKING"; "WALK_IN" ].

Definition AVERAGE_CONSULTATION_MINUTES : Z := 5.
End Config.

(** ** [app/core/priority_manager.py] *)

Module PriorityManager.
(** [Config.PRIORITY_LEVELS.get(source, 999)] *)
Definition get_priority_for_source (source : string) : Z :=
  match dict_get fst source Config.PRIORITY_LEVELS with
  | Some (_, p) => p
  | None => 999
  end.

(** [new_priority < existing_priority] *)
Definition should_demote (existing_priority new_priority : Z) : bool :=
  new_priority <? existing_priority.

(** [source in Config.TOKEN_SOURCES] *)
Definition validate_source (source : string) : bool :=
  existsb (String.eqb source) Config.TOKEN_SOURCES.

(** The sort key [(x[1], x[2])] of a tuple [(token_id, priority,
    timestamp)], compared as Python compares tuples. *)
Definition tuple_leb (a b : string * Z * Z) : bool :=
  (snd (fst a) <? snd (fst b))
  || ((snd (fst a) =? snd (fst b)) && (snd a <=? snd b)).

Fixpoint insert_tuple (x : string * Z * Z) (l : list (string * Z * Z))
  : list (string * Z * Z) :=
  match l with
  | [] => [x]
  | y :: l' => if tuple_leb x y then x :: l else y :: insert_tuple x l'
  end.

(** [sorted(tokens, key=lambda x: (x[1], x[2]))]: a stable sort. *)
Definition sort_by_priority (tokens : list (string * Z * Z))
  : list (string * Z * Z) :=
  fold_right insert_tuple [] tokens.

Definition compare_priority (priority1 priority2 : Z) : Z :=
  if priority1 <? priority2 then -1
  else if priority2 <? priority1 then 1
  else 0.
End PriorityManager.

(** ** [app/core/queue_manager.py] *)

(** One waitlist entry: the dict with keys ['token_id'], ['priority'],
    ['timestamp']. *)
Record Entry := mkEntry {
  e_token_id : string;
  e_priority : Z;
  e_timestamp : Z
}.

(** Tuple comparison [(priority, timestamp) <= (priority', timestamp')]. *)
Definition key_leb (a b : Entry) : bool :=
  (e_priority a <? e_priority b)
  || ((e_priority a =? e_priority b) && (e_timestamp a <=? e_timestamp b)).

Definition key_le (a b : Entry) : Prop := key_leb a b = true.

(** [list.sort(key=...)] is a stable sort; the stable insertion sort
    below computes the same list. *)
Fixpoint insert_sorted (x : Entry) (l : list Entry) : list Entry :=
  match l with
  | [] => [x]
  | y :: l' => if key_leb x y then x :: l else y :: insert_sorted x l'
  end.

Definition sort_entries (l : list Entry) : list Entry :=
  fold_right insert_sorted [] l.

(** [for idx, item in enumerate(l): if item['token_id'] == token_id:
    return idx + 1]; [None] when the loop falls through. *)
Fixpoint find_position (token_id : string) (l : list Entry) : option Z :=
  match l with
  | [] => None
  | y :: l' =>
      if String.eqb (e_token_id y) token_id then Some 1
      else option_map Z.succ (find_position token_id l')
  end.

(** [QueueManager.waitlists]: slot id -> entries. *)
Definition QueueManager : Type := list (string * list Entry).

Module Queue.
(** [QueueManager()] *)
Definition init : QueueManager := [].

Definition waitlist_of (qm : QueueManager) (slot_id : string) : option (list Entry) :=
  option_map snd (dict_get fst slot_id qm).

Definition set_waitlist (slot_id : string) (l : list Entry) (qm : QueueManager)
  : QueueManager :=
  dict_set fst (slot_id, l) qm.

Definition _sort_waitlist (qm : QueueManager) (slot_id : string) : QueueManager :=
  match waitlist_of qm slot_id with
  | Some l => set_waitlist slot_id (sort_entries l) qm
  | None => qm
  end.

(** Returns the 1-indexed position and the updated manager. *)
Definition add_to_waitlist (qm : QueueManager) (slot_id token_id : string)
           (priority now : Z) : Z * QueueManager :=
  let qm1 := if dict_mem fst slot_id qm then qm else set_waitlist slot_id [] qm in
  let entry := mkEntry token_id priority now in
  let cur := match waitlist_of qm1 slot_id with Some l => l | None => [] end in
  let qm2 := set_waitlist slot_id (cur ++ [entry]) qm1 in
  let qm3 := _sort_waitlist qm2 slot_id in
  let final := match waitlist_of qm3 slot_id with Some l => l | None => [] end in
  match find_position token_id final with
  | Some p => (p, qm3)
  | None => (Z.of_nat (List.length final), qm3)
  end.

Definition remove_from_waitlist (qm : QueueManager) (slot_id token_id : string)
  : bool * QueueManager :=
  match waitlist_of qm slot_id with
  | None => (false, qm)
  | Some l =>
      (true,
       set_waitlist slot_id
         (filter (fun item => negb (String.eqb (e_token_id item) token_id)) l) qm)
  end.

Definition get_next_from_waitlist (qm : QueueManager) (slot_id : string)
  : option string :=
  match waitlist_of qm slot_id with
  | None | Some [] => None
  | Some (next_entry :: _) => Some (e_token_id next_entry)
  end.

Definition get_waitlist_position (qm : QueueManager) (slot_id token_id : string)
  : option Z :=
  match waitlist_of qm slot_id with
  | None => None
  | Some l => find_position token_id l
  end.

Definition get_waitlist_size (qm : QueueManager) (slot_id : string) : Z :=
  match waitlist_of qm slot_id with
  | None => 0
  | Some l => Z.of_nat (List.length l)
  end.

(** [enumerate(l)] counted from [idx]. *)
Fixpoint enumerate_from (idx : Z) (l : list Entry) : list (Z * Entry) :=
  match l with
  | [] => []
  | e :: l' => (idx, e) :: enumerate_from (idx + 1) l'
  end.

(** The dicts with keys ['token_id'], ['priority'], ['position'], as
    triples. *)
Definition get_waitlist_info (qm : QueueManager) (slot_id : string)
  : list (string * Z * Z) :=
  match waitlist_of qm slot_id with
  | None => []
  | Some l =>
      map (fun ie => (e_token_id (snd ie), e_priority (snd ie), fst ie + 1))
          (enumerate_from 0 l)
  end.
End Queue.

(** ** [app/models] *)

Module Patient.
Record t := mk {
  id : string;
  name : string;
  phone : string;
  age : Z;
  gender : string;
  medical_record_number : string;
  created_at : Z
}.
End Patient.

Module Doctor.
Record t := mk {
  id : string;
  name : string;
  specialization : string;
  active : bool;
  slots : list string   (* the ids of the slot objects appended by [add_slot] *)
}.

Definition add_slot (d : t) (slot_id : string) : t :=
  mk (id d) (name d) (specialization d) (active d) (slots d ++ [slot_id]).
End Doctor.

Module TimeSlot.
Record t := mk {
  id : string;
  doctor_id : string;
  start_time : string;
  end_time : string;
  date : string;
  max_capacity : Z;
  allocated_count : Z;
  tokens : list string;     (* confirmed token ids *)
  waitlist : list string;   (* waitlisted token ids *)
  created_at : Z
}.

(** [TimeSlot(doctor_id, start_time, end_time, date, max_capacity, slot_id)] *)
Definition new (slot_id doctor_id start_time end_time date : string)
           (max_capacity now : Z) : t :=
  mk slot_id doctor_id start_time end_time date max_capacity 0 [] [] now.

Definition available_count (s : t) : Z := max_capacity s - allocated_count s.

Definition is_full (s : t) : bool := max_capacity s <=? allocated_count s.

Definition mem (x : string) (l : list string) : bool := existsb (String.eqb x) l.

(** [list.remove(x)]: drops the first occurrence. *)
Fixpoint remove_first (x : string) (l : list string) : list string :=
  match l with
  | [] => []
  | y :: l' => if String.eqb y x then l' else y :: remove_first x l'
  end.

Definition with_tokens (s : t) (toks : list string) (count : Z) : t :=
  mk (id s) (doctor_id s) (start_time s) (end_time s) (date s) (max_capacity s)
     count toks (waitlist s) (created_at s).

Definition with_waitlist (s : t) (wl : list string) : t :=
  mk (id s) (doctor_id s) (start_time s) (end_time s) (date s) (max_capacity s)
     (allocated_count s) (tokens s) wl (created_at s).

Definition add_token (s : t) (token_id : string) : bool * t :=
  if allocated_count s <? max_capacity s
  then (true, with_tokens s (tokens s ++ [token_id]) (allocated_count s + 1))
  else (false, s).

Definition remove_token (s : t) (token_id : string) : bool * t :=
  if mem token_id (tokens s)
  then (true, with_tokens s (remove_first token_id (tokens s)) (allocated_count s - 1))
  else (false, s).

Definition add_to_waitlist (s : t) (token_id : string) : bool * t :=
  if mem token_id (waitlist s)
  then (false, s)
  else (true, with_waitlist s (waitlist s ++ [token_id])).

Definition remove_from_waitlist (s : t) (token_id : string) : bool * t :=
  if mem token_id (waitlist s)
  then (true, with_waitlist s (remove_first token_id (waitlist s)))
  else (false, s).
End TimeSlot.

Inductive Status := CONFIRMED | WAITLISTED | CANCELLED | NO_SHOW | COMPLETED.

Definition status_str (s : Status) : string :=
  match s with
  | CONFIRMED => "CONFIRMED"
  | WAITLISTED => "WAITLISTED"
  | CANCELLED => "CANCELLED"
  | NO_SHOW => "NO_SHOW"
  | COMPLETED => "COMPLETED"
  end.

Definition Status_eqb (a b : Status) : bool :=
  match a, b with
  | CONFIRMED, CONFIRMED | WAITLISTED, WAITLISTED | CANCELLED, CANCELLED
  | NO_SHOW, NO_SHOW | COMPLETED, COMPLETED => true
  | _, _ => false
  end.

(** ** Results and errors *)

(** The exceptions the engine raises.  The first five are the
    [ValueError]s the services raise themselves, told apart by their
    message; the last four come from the Python runtime. *)
Inductive Error :=
| InvalidSource       (* "Invalid source type: ..." *)
| DoctorNotFound      (* "Doctor not found: ..." *)
| SlotNotFound        (* "Time slot not found: ..." and "Slot not found: ..." *)
| TokenNotFound       (* "Token not found: ..." *)
| InvalidTransition   (* "Cannot cancel token with status: ...",
                         "Only confirmed tokens can be ...",
                         "Can only demote confirmed tokens. ..." *)
| BadStartTime        (* the [ValueError] of [calculate_estimated_time]:
                         the start time is not [hour:minute] *)
| EstimateOverflow    (* the [OverflowError] of [calculate_estimated_time]:
                         the estimated moment is not a [datetime] *)
| EmptyMax            (* [max()] of an empty sequence *)
| NoneAttribute.      (* [.priority] of [None] *)

Inductive result (A : Type) :=
| Ok (a : A)
| Raise (e : Error).
Arguments Raise {A} e.

(** ** Clock-face arithmetic used by [Token.calculate_estimated_time] *)

(** [str.split(':')] *)
Fixpoint split_colon_aux (acc : string) (s : string) : list string :=
  match s with
  | EmptyString => [acc]
  | String c s' =>
      if Ascii.eqb c ":"%char then acc :: split_colon_aux "" s'
      else split_colon_aux (acc ++ String c "") s'
  end.

Definition split_colon (s : string) : list string := split_colon_aux "" s.

Definition digit_char (d : Z) : ascii := ascii_of_nat (48 + Z.to_nat d).

(** [strftime('%H:%M')] of the time of day [mins] minutes after midnight. *)
Definition fmt_hhmm (mins : Z) : string :=
  let h := mins / 60 in
  let m := mins mod 60 in
  String (digit_char (h / 10)) (String (digit_char (h mod 10))
    (String ":"%char
      (String (digit_char (m / 10)) (String (digit_char (m mod 10)) "")))).

(** [base_time + timedelta(minutes=(position - 1) * AVERAGE_CONSULTATION_MINUTES)]
    where [base_time] is today at [hour:minute], counted in minutes from
    today's midnight. *)
Definition estimated_offset (hour minute position : Z) : Z :=
  hour * 60 + minute + (position - 1) * Config.AVERAGE_CONSULTATION_MINUTES.

(** The day that moment falls on, as [date.toordinal()] counts days
    (1 is 0001-01-01), [today] being the ordinal of [datetime.now()]. *)
Definition estimated_day (today hour minute position : Z) : Z :=
  today + estimated_offset hour minute position / 1440.

(** Its time of day, in minutes after midnight. *)
Definition estimated_minutes (hour minute position : Z) : Z :=
  estimated_offset hour minute position mod 1440.

(** [date.max.toordinal()], the day 9999-12-31. *)
Definition MAXORDINAL : Z := 3652059.

(** The days a [datetime] can fall on: [datetime + timedelta] raises
    [OverflowError] when the sum leaves them. *)
Definition in_date_range (day : Z) : bool := (1 <=? day) && (day <=? MAXORDINAL).

Module Token.
Record t := mk {
  id : string;
  token_number : option Z;
  patient_id : string;
  doctor_id : string;
  slot_id : string;
  source : string;
  priority : Z;
  status : Status;
  estimated_time : option string;
  created_at : Z;
  updated_at : Z;
  notes : list (Z * string)
}.

(** [Token(patient_id, doctor_id, slot_id, source, priority, status,
    token_number)] with the generated id. *)
Definition new (token_id patient_id doctor_id slot_id source : string)
           (priority : Z) (status : Status) (token_number : option Z)
           (now : Z) : t :=
  mk token_id token_number patient_id doctor_id slot_id source priority status
     None now now [].

Definition add_note (tk : t) (note : string) (now : Z) : t :=
  mk (id tk) (token_number tk) (patient_id tk) (doctor_id tk) (slot_id tk)
     (source tk) (priority tk) (status tk) (estimated_time tk)
     (created_at tk) (updated_at tk) (notes tk ++ [(now, note)]).

Definition update_status (tk : t) (new_status : Status) (note : string)
           (now : Z) : t :=
  let event_note :=
    if String.eqb note ""
    then "Status changed: " ++ status_str (status tk) ++ " -> "
           ++ status_str new_status
    else note in
  add_note
    (mk (id tk) (token_number tk) (patient_id tk) (doctor_id tk) (slot_id tk)
        (source tk) (priority tk) new_status (estimated_time tk)
        (created_at tk) now (notes tk))
    event_note now.

Definition set_token_number (tk : t) (n : option Z) : t :=
  mk (id tk) n (patient_id tk) (doctor_id tk) (slot_id tk)
     (source tk) (priority tk) (status tk) (estimated_time tk)
     (created_at tk) (updated_at tk) (notes tk).

Definition set_estimated_time (tk : t) (e : option string) : t :=
  mk (id tk) (token_number tk) (patient_id tk) (doctor_id tk) (slot_id tk)
     (source tk) (priority tk) (status tk) e
     (created_at tk) (updated_at tk) (notes tk).

(** [hour, minute = map(int, slot_start_time.split(':'))] followed by
    [datetime.now().replace(hour=hour, minute=minute, ...)].  [py_int]
    stands for Python's [int] on a [str] ([None] where it raises);
    [replace] raises unless [0 <= hour < 24] and [0 <= minute < 60].
    [None] is the raised [ValueError]. *)
Definition parse_start_time (py_int : string -> option Z)
           (slot_start_time : string) : option (Z * Z) :=
  match split_colon slot_start_time with
  | [hs; ms] =>
      match py_int hs, py_int ms with
      | Some hour, Some minute =>
          if (0 <=? hour) && (hour <? 24) && (0 <=? minute) && (minute <? 60)
          then Some (hour, minute)
          else None
      | _, _ => None
      end
  | _ => None
  end.

(** [today] is the day [datetime.now()] reads.  The start time is read
    first; the addition then raises [OverflowError] when the estimated
    moment falls before 0001-01-01 or after 9999-12-31, and otherwise
    [strftime('%H:%M')] gives its time of day. *)
Definition calculate_estimated_time (py_int : string -> option Z) (today : Z)
           (tk : t) (slot_start_time : string) (position_in_queue : Z)
  : result t :=
  match parse_start_time py_int slot_start_time with
  | Some (hour, minute) =>
      if in_date_range (estimated_day today hour minute position_in_queue)
      then
        Ok (set_estimated_time tk
              (Some (fmt_hhmm (estimated_minutes hour minute position_in_queue))))
      else Raise EstimateOverflow
  | None => Raise BadStartTime
  end.
End Token.

(** ** [app/utils/data_store.py] *)

Record DataStore := mkStore {
  doctors : list Doctor.t;
  time_slots : list TimeSlot.t;
  tokens : list Token.t;
  patients : list Patient.t
}.

Module Db.
(** [DataStore._initialize] *)
Definition empty : DataStore := mkStore [] [] [] [].

Definition get_doctor (db : DataStore) (doctor_id : string) : option Doctor.t :=
  dict_get Doctor.id doctor_id (doctors db).

Definition add_doctor (db : DataStore) (d : Doctor.t) : DataStore :=
  mkStore (dict_set Doctor.id d (doctors db)) (time_slots db) (tokens db)
          (patients db).

Definition get_time_slot (db : DataStore) (slot_id : string) : option TimeSlot.t :=
  dict_get TimeSlot.id slot_id (time_slots db).

(** Writes a slot object under its id: [time_slots[slot.id] = slot], also
    the effect of mutating a slot reached through the store. *)
Definition put_time_slot (db : DataStore) (s : TimeSlot.t) : DataStore :=
  mkStore (doctors db) (dict_set TimeSlot.id s (time_slots db)) (tokens db)
          (patients db).

Definition add_time_slot (db : DataStore) (s : TimeSlot.t) : DataStore :=
  let db1 := put_time_slot db s in
  match get_doctor db1 (TimeSlot.doctor_id s) with
  | Some d => add_doctor db1 (Doctor.add_slot d (TimeSlot.id s))
  | None => db1
  end.

Definition find_slot_by_time (db : DataStore) (doctor_id date start_time : string)
  : option TimeSlot.t :=
  find (fun slot =>
          String.eqb (TimeSlot.doctor_id slot) doctor_id
          && String.eqb (TimeSlot.date slot) date
          && String.eqb (TimeSlot.start_time slot) start_time)
       (time_slots db).

Definition get_token (db : DataStore) (token_id : string) : option Token.t :=
  dict_get Token.id token_id (tokens db).

(** [tokens[token.id] = token], also the effect of mutating a token
    reached through the store. *)
Definition add_token (db : DataStore) (tk : Token.t) : DataStore :=
  mkStore (doctors db) (time_slots db) (dict_set Token.id tk (tokens db))
          (patients db).

Definition get_patient (db : DataStore) (patient_id : string) : option Patient.t :=
  dict_get Patient.id patient_id (patients db).

Definition add_patient (db : DataStore) (p : Patient.t) : DataStore :=
  mkStore (doctors db) (time_slots db) (tokens db)
          (dict_set Patient.id p (patients db)).

Definition find_patient_by_phone (db : DataStore) (phone : string)
  : option Patient.t :=
  find (fun p => String.eqb (Patient.phone p) phone) (patients db).

Definition get_all_doctors (db : DataStore) : list Doctor.t := doctors db.

(** [date] is the optional argument; [if date:] skips the filter for
    [None] and for the empty string. *)
Definition get_slots_by_doctor (db : DataStore) (doctor_id : string)
           (date : option string) : list TimeSlot.t :=
  let slots :=
    filter (fun slot => String.eqb (TimeSlot.doctor_id slot) doctor_id)
           (time_slots db) in
  match date with
  | None => slots
  | Some dt =>
      if String.eqb dt "" then slots
      else filter (fun slot => String.eqb (TimeSlot.date slot) dt) slots
  end.

Definition get_tokens_by_slot (db : DataStore) (slot_id : string) : list Token.t :=
  filter (fun token => String.eqb (Token.slot_id token) slot_id) (tokens db).

Definition get_tokens_by_patient (db : DataStore) (patient_id : string)
  : list Token.t :=
  filter (fun token => String.eqb (Token.patient_id token) patient_id) (tokens db).

(** [clear_all] re-runs [_initialize]. *)
Definition clear_all (db : DataStore) : DataStore := empty.

(** The dict [get_stats] returns. *)
Record Stats := mkStats {
  total_doctors : Z;
  total_slots : Z;
  total_tokens : Z;
  total_patients : Z;
  confirmed_tokens : Z;
  waitlisted_tokens : Z;
  cancelled_tokens : Z;
  no_show_tokens : Z
}.

Definition count_status (db : DataStore) (st : Status) : Z :=
  Z.of_nat (List.length
              (filter (fun t => Status_eqb (Token.status t) st) (tokens db))).

Definition get_stats (db : DataStore) : Stats :=
  mkStats (Z.of_nat (List.length (doctors db)))
          (Z.of_nat (List.length (time_slots db)))
          (Z.of_nat (List.length (tokens db)))
          (Z.of_nat (List.length (patients db)))
          (count_status db CONFIRMED)
          (count_status db WAITLISTED)
          (count_status db CANCELLED)
          (count_status db NO_SHOW).
End Db.

(** ** The environment and the messages *)

(** What one call reads from the clock: [datetime.now()] as a time
    stamp, the day it falls on as [date.toordinal()] counts days, and the
    ids [Patient()] and [Token()] generate from it. *)
Record Env := mkEnv {
  now : Z;
  today : Z;
  new_patient_id : string;
  new_token_id : string
}.

(** The [patient_data] dict of a request. *)
Record PatientData := mkPatientData {
  pd_name : string;
  pd_phone : string;
  pd_age : Z;
  pd_gender : string
}.

(** The status message returned next to the token. *)
Inductive AllocMsg :=
| MsgConfirmed                                   (* "CONFIRMED" *)
| MsgWaitlisted (position : Z)                   (* "WAITLISTED (Position: p)" *)
| MsgEmergencyConfirmed                          (* "EMERGENCY - CONFIRMED" *)
| MsgEmergencyDemoted (demoted_token_id : string)
                               (* "EMERGENCY - CONFIRMED (Demoted token id)" *)
| MsgEmergencyWaitlisted (position : Z).   (* "EMERGENCY - WAITLISTED (Position: p)" *)

(** The result dicts of the reallocation service. *)
Record CancelResult := mkCancelResult {
  cancelled_token_id : string;
  cancel_promoted_token_id : option string
}.

Record NoShowResult := mkNoShowResult {
  no_show_token_id : string;
  no_show_promoted_token_id : option string
}.

Record DemoteResult := mkDemoteResult {
  demoted_token_id : string;
  new_waitlist_position : Z
}.

(** ** [app/services] *)

Section Services.
(** Python's [int] applied to a [str]; [None] where it raises. *)
Variable py_int : string -> option Z.

(** *** [reallocation_service.py] *)

Definition _promote_from_waitlist (qm : QueueManager) (db : DataStore)
           (slot_id : string) (env : Env)
  : result (option string) * DataStore * QueueManager :=
  match Queue.get_next_from_waitlist qm slot_id with
  | None => (Ok None, db, qm)
  | Some next_token_id =>
      if String.eqb next_token_id "" then (Ok None, db, qm)
      else
        match Db.get_token db next_token_id, Db.get_time_slot db slot_id with
        | Some token, Some slot =>
            let slot1 := snd (TimeSlot.remove_from_waitlist slot (Token.id token)) in
            let qm1 := snd (Queue.remove_from_waitlist qm slot_id (Token.id token)) in
            let slot2 := snd (TimeSlot.add_token slot1 (Token.id token)) in
            let db1 := Db.put_time_slot db slot2 in
            let token1 :=
              Token.set_token_number token (Some (TimeSlot.allocated_count slot2)) in
            match Token.calculate_estimated_time py_int (today env) token1
                    (TimeSlot.start_time slot2) (TimeSlot.allocated_count slot2) with
            | Raise e => (Raise e, Db.add_token db1 token1, qm1)
            | Ok token2 =>
                let token3 :=
                  Token.update_status token2 CONFIRMED "Promoted from waitlist"
                                      (now env) in
                (Ok (Some (Token.id token)), Db.add_token db1 token3, qm1)
            end
        | _, _ => (Ok None, db, qm)
        end
  end.

Definition cancel_token (qm : QueueManager) (db : DataStore)
           (token_id : string) (env : Env)
  : result CancelResult * DataStore * QueueManager :=
  match Db.get_token db token_id with
  | None => (Raise TokenNotFound, db, qm)
  | Some token =>
      match Token.status token with
      | CANCELLED | COMPLETED | NO_SHOW => (Raise InvalidTransition, db, qm)
      | st =>
          match Db.get_time_slot db (Token.slot_id token) with
          | None => (Raise SlotNotFound, db, qm)
          | Some slot =>
              match st with
              | CONFIRMED =>
                  let db1 :=
                    Db.put_time_slot db (snd (TimeSlot.remove_token slot token_id)) in
                  let db2 :=
                    Db.add_token db1
                      (Token.update_status token CANCELLED
                         "Token cancelled by patient/admin" (now env)) in
                  match _promote_from_waitlist qm db2 (TimeSlot.id slot) env with
                  | (Ok promoted, db3, qm3) =>
                      (Ok (mkCancelResult token_id promoted), db3, qm3)
                  | (Raise e, db3, qm3) => (Raise e, db3, qm3)
                  end
              | WAITLISTED =>
                  let db1 :=
                    Db.put_time_slot db
                      (snd (TimeSlot.remove_from_waitlist slot token_id)) in
                  let qm1 :=
                    snd (Queue.remove_from_waitlist qm (TimeSlot.id slot) token_id) in
                  let db2 :=
                    Db.add_token db1
                      (Token.update_status token CANCELLED
                         "Waitlisted token cancelled" (now env)) in
                  (Ok (mkCancelResult token_id None), db2, qm1)
              | _ => (Ok (mkCancelResult token_id None), db, qm)
              end
          end
      end
  end.

Definition mark_no_show (qm : QueueManager) (db : DataStore)
           (token_id : string) (env : Env)
  : result NoShowResult * DataStore * QueueManager :=
  match Db.get_token db token_id with
  | None => (Raise TokenNotFound, db, qm)
  | Some token =>
      if negb (Status_eqb (Token.status token) CONFIRMED)
      then (Raise InvalidTransition, db, qm)
      else
        match Db.get_time_slot db (Token.slot_id token) with
        | None => (Raise SlotNotFound, db, qm)
        | Some slot =>
            let db1 :=
              Db.put_time_slot db (snd (TimeSlot.remove_token slot token_id)) in
            let db2 :=
              Db.add_token db1
                (Token.update_status token NO_SHOW "Patient did not arrive"
                                     (now env)) in
            match _promote_from_waitlist qm db2 (TimeSlot.id slot) env with
            | (Ok promoted, db3, qm3) =>
                (Ok (mkNoShowResult token_id promoted), db3, qm3)
            | (Raise e, db3, qm3) => (Raise e, db3, qm3)
            end
        end
  end.

Definition demote_token (qm : QueueManager) (db : DataStore)
           (token_id : string) (env : Env)
  : result DemoteResult * DataStore * QueueManager :=
  match Db.get_token db token_id with
  | None => (Raise TokenNotFound, db, qm)
  | Some token =>
      if negb (Status_eqb (Token.status token) CONFIRMED)
      then (Raise InvalidTransition, db, qm)
      else
        match Db.get_time_slot db (Token.slot_id token) with
        | None => (Raise SlotNotFound, db, qm)
        | Some slot =>
            let slot1 := snd (TimeSlot.remove_token slot token_id) in
            let slot2 := snd (TimeSlot.add_to_waitlist slot1 token_id) in
            let db1 := Db.put_time_slot db slot2 in
            let '(position, qm1) :=
              Queue.add_to_waitlist qm (TimeSlot.id slot) token_id
                                    (Token.priority token) (now env) in
            let token1 :=
              Token.update_status token WAITLISTED
                "Demoted to accommodate higher priority token" (now env) in
            let token2 := Token.set_token_number token1 None in
            let token3 := Token.set_estimated_time token2 None in
            (Ok (mkDemoteResult token_id position), Db.add_token db1 token3, qm1)
        end
  end.

Definition complete_token (qm : QueueManager) (db : DataStore)
           (token_id : string) (env : Env)
  : result string * DataStore * QueueManager :=
  match Db.get_token db token_id with
  | None => (Raise TokenNotFound, db, qm)
  | Some token =>
      if negb (Status_eqb (Token.status token) CONFIRMED)
      then (Raise InvalidTransition, db, qm)
      else
        (Ok token_id,
         Db.add_token db
           (Token.update_status token COMPLETED "Consultation completed" (now env)),
         qm)
  end.

(** *** [allocation_service.py] *)

(** [db.find_patient_by_phone(...)], and [Patient(...)] with
    [db.add_patient] when the phone is unknown: the "get or create
    patient" block both allocation methods open with. *)
Definition get_or_create_patient (db : DataStore) (patient_data : PatientData)
           (env : Env) : Patient.t * DataStore :=
  match Db.find_patient_by_phone db (pd_phone patient_data) with
  | Some patient => (patient, db)
  | None =>
      let patient :=
        Patient.mk (new_patient_id env) (pd_name patient_data)
                   (pd_phone patient_data) (pd_age patient_data)
                   (pd_gender patient_data) ("MRN" ++ new_patient_id env)
                   (now env) in
      (patient, Db.add_patient db patient)
  end.

Definition _create_confirmed_token (patient_id doctor_id : string)
           (slot : TimeSlot.t) (source : string) (priority : Z) (env : Env)
  : result Token.t :=
  let token_number := TimeSlot.allocated_count slot + 1 in
  let token :=
    Token.new (new_token_id env) patient_id doctor_id (TimeSlot.id slot) source
              priority CONFIRMED (Some token_number) (now env) in
  match Token.calculate_estimated_time py_int (today env) token
          (TimeSlot.start_time slot) token_number with
  | Raise e => Raise e
  | Ok token1 =>
      Ok (Token.add_note token1 ("Token allocated from " ++ source) (now env))
  end.

Definition _create_waitlisted_token (patient_id doctor_id : string)
           (slot : TimeSlot.t) (source : string) (priority : Z) (env : Env)
  : Token.t :=
  let token :=
    Token.new (new_token_id env) patient_id doctor_id (TimeSlot.id slot) source
              priority WAITLISTED None (now env) in
  Token.add_note token ("Added to waitlist from " ++ source) (now env).

Definition allocate_token (qm : QueueManager) (db : DataStore)
           (patient_data : PatientData)
           (doctor_id date preferred_slot_time source : string) (env : Env)
  : result (Token.t * AllocMsg) * DataStore * QueueManager :=
  if negb (PriorityManager.validate_source source)
  then (Raise InvalidSource, db, qm)
  else
    match Db.get_doctor db doctor_id with
    | None => (Raise DoctorNotFound, db, qm)
    | Some _ =>
        let '(patient, db1) := get_or_create_patient db patient_data env in
        match Db.find_slot_by_time db1 doctor_id date preferred_slot_time with
        | None => (Raise SlotNotFound, db1, qm)
        | Some slot =>
            let priority := PriorityManager.get_priority_for_source source in
            if negb (TimeSlot.is_full slot)
            then
              match _create_confirmed_token (Patient.id patient) doctor_id slot
                      source priority env with
              | Raise e => (Raise e, db1, qm)
              | Ok token =>
                  let db2 :=
                    Db.put_time_slot db1
                      (snd (TimeSlot.add_token slot (Token.id token))) in
                  (Ok (token, MsgConfirmed), Db.add_token db2 token, qm)
              end
            else
              let token :=
                _create_waitlisted_token (Patient.id patient) doctor_id slot
                                         source priority env in
              let db2 :=
                Db.put_time_slot db1
                  (snd (TimeSlot.add_to_waitlist slot (Token.id token))) in
              let db3 := Db.add_token db2 token in
              let '(position, qm1) :=
                Queue.add_to_waitlist qm (TimeSlot.id slot) (Token.id token)
                                      priority (now env) in
              (Ok (token, MsgWaitlisted position), db3, qm1)
        end
    end.

(** [max(l, key=lambda t: t.priority)] on a non-empty list [best :: l]:
    the first token of greatest priority number. *)
Fixpoint max_by_priority (best : Token.t) (l : list Token.t) : Token.t :=
  match l with
  | [] => best
  | tk :: l' =>
      if Token.priority best <? Token.priority tk
      then max_by_priority tk l'
      else max_by_priority best l'
  end.

Fixpoint all_some (l : list (option Token.t)) : option (list Token.t) :=
  match l with
  | [] => Some []
  | None :: _ => None
  | Some x :: l' => option_map (cons x) (all_some l')
  end.

(** The slot object held by [allocate_emergency_token] across the call
    to [demote_token]: the store's slot under the same id (slots are
    never deleted, so the fall-back is not reached). *)
Definition reread_slot (db : DataStore) (slot : TimeSlot.t) : TimeSlot.t :=
  match Db.get_time_slot db (TimeSlot.id slot) with
  | Some s => s
  | None => slot
  end.

Definition allocate_emergency_token (qm : QueueManager) (db : DataStore)
           (patient_data : PatientData)
           (doctor_id date preferred_slot_time : string) (env : Env)
  : result (Token.t * AllocMsg) * DataStore * QueueManager :=
  let '(patient, db1) := get_or_create_patient db patient_data env in
  match Db.find_slot_by_time db1 doctor_id date preferred_slot_time with
  | None => (Raise SlotNotFound, db1, qm)
  | Some slot =>
      let emergency_priority :=
        PriorityManager.get_priority_for_source "EMERGENCY" in
      if negb (TimeSlot.is_full slot)
      then
        match _create_confirmed_token (Patient.id patient) doctor_id slot
                "EMERGENCY" emergency_priority env with
        | Raise e => (Raise e, db1, qm)
        | Ok token =>
            let db2 :=
              Db.put_time_slot db1
                (snd (TimeSlot.add_token slot (Token.id token))) in
            (Ok (token, MsgEmergencyConfirmed), Db.add_token db2 token, qm)
        end
      else
        match map (Db.get_token db1) (TimeSlot.tokens slot) with
        | [] => (Raise EmptyMax, db1, qm)
        | confirmed_tokens =>
            match all_some confirmed_tokens with
            | None | Some [] => (Raise NoneAttribute, db1, qm)
            | Some (first :: rest) =>
                let lowest_priority_token := max_by_priority first rest in
                if PriorityManager.should_demote
                     (Token.priority lowest_priority_token) emergency_priority
                then
                  (* [ReallocationService()]: a new service, with a new
                     [QueueManager], used for this one call *)
                  match demote_token Queue.init db1
                          (Token.id lowest_priority_token) env with
                  | (Raise e, db2, _) => (Raise e, db2, qm)
                  | (Ok _, db2, _) =>
                      let slot' := reread_slot db2 slot in
                      match _create_confirmed_token (Patient.id patient) doctor_id
                              slot' "EMERGENCY" emergency_priority env with
                      | Raise e => (Raise e, db2, qm)
                      | Ok token =>
                          let db3 :=
                            Db.put_time_slot db2
                              (snd (TimeSlot.add_token slot' (Token.id token))) in
                          (Ok (token,
                               MsgEmergencyDemoted (Token.id lowest_priority_token)),
                           Db.add_token db3 token, qm)
                      end
                  end
                else
                  let token :=
                    _create_waitlisted_token (Patient.id patient) doctor_id slot
                      "EMERGENCY" emergency_priority env in
                  let db2 :=
                    Db.put_time_slot db1
                      (snd (TimeSlot.add_to_waitlist slot (Token.id token))) in
                  let db3 := Db.add_token db2 token in
                  let '(position, qm1) :=
                    Queue.add_to_waitlist qm (TimeSlot.id slot) (Token.id token)
                                          emergency_priority (now env) in
                  (Ok (token, MsgEmergencyWaitlisted position), db3, qm1)
            end
        end
  end.
End Services.

(** ** The services as [app/api/routes.py] wires them

    [allocation_service = AllocationService()] and
    [reallocation_service = ReallocationService()] are two module-level
    objects; each constructor builds its own [QueueManager()].  Both
    work on the one [db]. *)

Record Engine := mkEngine {
  db : DataStore;
  allocation_queue : QueueManager;     (* [allocation_service.queue_manager] *)
  reallocation_queue : QueueManager    (* [reallocation_service.queue_manager] *)
}.

Inductive Request :=
| ReqAllocate (patient_data : PatientData)
              (doctor_id date preferred_slot_time source : string)
| ReqEmergency (patient_data : PatientData)
               (doctor_id date preferred_slot_time : string)
| ReqCancel (token_id : string)
| ReqNoShow (token_id : string)
| ReqComplete (token_id : string)
| ReqDemote (token_id : string)       (* [reallocation_service.demote_token] *)
| ReqPromote (slot_id : string).      (* [reallocation_service._promote_from_waitlist] *)

Inductive Response :=
| RespToken (tk : Token.t) (msg : AllocMsg)
| RespCancel (r : CancelResult)
| RespNoShow (r : NoShowResult)
| RespComplete (completed_token_id : string)
| RespDemote (r : DemoteResult)
| RespPromote (promoted : option string).

Definition map_result {A B} (f : A -> B) (r : result A) : result B :=
  match r with
  | Ok a => Ok (f a)
  | Raise e => Raise e
  end.

Section Api.
Variable py_int : string -> option Z.

Definition on_allocation {A} (f : A -> Response) (e : Engine)
           (out : result A * DataStore * QueueManager) : result Response * Engine :=
  let '(r, db', qm') := out in
  (map_result f r, mkEngine db' qm' (reallocation_queue e)).

Definition on_reallocation {A} (f : A -> Response) (e : Engine)
           (out : result A * DataStore * QueueManager) : result Response * Engine :=
  let '(r, db', qm') := out in
  (map_result f r, mkEngine db' (allocation_queue e) qm').

Definition handle (e : Engine) (req : Request) (env : Env)
  : result Response * Engine :=
  match req with
  | ReqAllocate pd d dt tm src =>
      on_allocation (fun '(tk, msg) => RespToken tk msg) e
        (allocate_token py_int (allocation_queue e) (db e) pd d dt tm src env)
  | ReqEmergency pd d dt tm =>
      on_allocation (fun '(tk, msg) => RespToken tk msg) e
        (allocate_emergency_token py_int (allocation_queue e) (db e) pd d dt tm env)
  | ReqCancel tid =>
      on_reallocation RespCancel e
        (cancel_token py_int (reallocation_queue e) (db e) tid env)
  | ReqNoShow tid =>
      on_reallocation RespNoShow e
        (mark_no_show py_int (reallocation_queue e) (db e) tid env)
  | ReqComplete tid =>
      on_reallocation RespComplete e
        (complete_token (reallocation_queue e) (db e) tid env)
  | ReqDemote tid =>
      on_reallocation RespDemote e
        (demote_token (reallocation_queue e) (db e) tid env)
  | ReqPromote sid =>
      on_reallocation RespPromote e
        (_promote_from_waitlist py_int (reallocation_queue e) (db e) sid env)
  end.

(** A run of requests, each with its own clock reading. *)
Fixpoint run (e : Engine) (reqs : list (Request * Env)) : Engine :=
  match reqs with
  | [] => e
  | (req, env) :: reqs' => run (snd (handle e req env)) reqs'
  end.
End Api.

(** ** A concrete reading of [int] for the worked scenarios

    On a non-empty string of ASCII digits Python's [int] returns the
    decimal value; that is the only case the scenarios below use. *)

Fixpoint decimal_digits (acc : Z) (s : string) : option Z :=
  match s with
  | EmptyString => Some acc
  | String c s' =>
      let n := Z.of_nat (nat_of_ascii c) in
      if (48 <=? n) && (n <=? 57) then decimal_digits (acc * 10 + (n - 48)) s'
      else None
  end.

Definition decimal_int (s : string) : option Z :=
  match s with
  | EmptyString => None
  | _ => decimal_digits 0 s
  end.

(** ** Worked scenario data *)

Module Scenario.
Definition doc : Doctor.t := Doctor.mk "DOC001" "Dr. Rajesh Kumar" "Cardiology" true [].

Definition slot (capacity : Z) : TimeSlot.t :=
  TimeSlot.new "SLOT1" "DOC001" "09:00" "10:00" "2026-01-29" capacity 0.

(** One doctor with one empty slot of the given capacity, and the two
    services as the routes module creates them. *)
Definition start (capacity : Z) : Engine :=
  mkEngine (Db.add_time_slot (Db.add_doctor Db.empty doc) (slot capacity))
           Queue.init Queue.init.

Definition patient (n : string) : PatientData :=
  mkPatientData ("Patient " ++ n) ("98765" ++ n) 40 "M".

(** The clock of the scenarios reads a moment of 2026-01-29, day 739645. *)
Definition env (t : Z) (n : string) : Env :=
  mkEnv t 739645 ("PAT" ++ n) ("TKN" ++ n).

Definition walk_in (n : string) : Request :=
  ReqAllocate (patient n) "DOC001" "2026-01-29" "09:00" "WALK_IN".

Definition emergency (n : string) : Request :=
  ReqEmergency (patient n) "DOC001" "2026-01-29" "09:00".
End Scenario.

(** ** Vocabulary of the statements *)

(** [pos] is the 1-indexed place of the first entry of [l] that carries
    [token_id]. *)
Definition is_position (l : list Entry) (token_id : string) (pos : Z) : Prop :=
  exists before e after,
    l = (before ++ e :: after)%list
    /\ e_token_id e = token_id
    /\ Forall (fun x => e_token_id x <> token_id) before
    /\ pos = Z.of_nat (List.length before) + 1.

(** The entries the manager holds for a slot ([[]] when it has none). *)
Definition entries_of (qm : QueueManager) (slot_id : string) : list Entry :=
  match Queue.waitlist_of qm slot_id with Some l => l | None => [] end.

(** Every waitlist the manager holds is in key order. *)
Definition all_sorted (qm : QueueManager) : Prop :=
  forall sid l, Queue.waitlist_of qm sid = Some l -> StronglySorted key_le l.

(** Operations on a [QueueManager], for arbitrary interleavings. *)
Inductive QueueOp :=
| Enqueue (slot_id token_id : string) (priority timestamp : Z)
| Remove (slot_id token_id : string).

Definition apply_queue_op (qm : QueueManager) (op : QueueOp) : QueueManager :=
  match op with
  | Enqueue sid tid p t => snd (Queue.add_to_waitlist qm sid tid p t)
  | Remove sid tid => snd (Queue.remove_from_waitlist qm sid tid)
  end.

(** The slot invariant: the counter agrees with the confirmed list, and
    the confirmed list fits the capacity. *)
Definition slot_ok (s : TimeSlot.t) : Prop :=
  TimeSlot.allocated_count s = Z.of_nat (List.length (TimeSlot.tokens s))
  /\ Z.of_nat (List.length (TimeSlot.tokens s)) <= TimeSlot.max_capacity s.

Definition slots_ok (d : DataStore) : Prop := Forall slot_ok (time_slots d).

(** The store part of what a service call returns. *)
Definition out_db {A} (out : result A * DataStore * QueueManager) : DataStore :=
  snd (fst out).

(** What a request answered with a token says about it: the chosen field
    of the token and the status message. *)
Definition answer {B} (f : Token.t -> B) (r : result Response * Engine)
  : option (B * AllocMsg) :=
  match fst r with
  | Ok (RespToken tk msg) => Some (f tk, msg)
  | _ => None
  end.

(** The token [demote_token] leaves behind. *)
Definition demoted (tk : Token.t) (env : Env) : Token.t :=
  Token.set_estimated_time
    (Token.set_token_number
       (Token.update_status tk WAITLISTED
          "Demoted to accommodate higher priority token" (now env))
       None)
    None.

(** The tuple [sort_by_priority] works on, for a queue entry. *)
Definition tuple_of_entry (e : Entry) : string * Z * Z :=
  (e_token_id e, e_priority e, e_timestamp e).

(** Tuples in ascending [(priority, timestamp)] order. *)
Definition tuple_le (a b : string * Z * Z) : Prop :=
  snd (fst a) < snd (fst b)
  \/ (snd (fst a) = snd (fst b) /\ snd a <= snd b).

(** Whether a string contains the character [':']. *)
Fixpoint has_colon (s : string) : bool :=
  match s with
  | EmptyString => false
  | String c s' => Ascii.eqb c ":"%char || has_colon s'
  end.

(** The check behind the clock-time round trip, for one minute of the day. *)
Definition clock_round_trip_ok (n : nat) : bool :=
  match Token.parse_start_time decimal_int (fmt_hhmm (Z.of_nat n)) with
  | Some (hh, mm) =>
      (hh =? Z.of_nat n / 60) && (mm =? Z.of_nat n mod 60)
      && (String.length (fmt_hhmm (Z.of_nat n)) =? 5)%nat
  | None => false
  end.

(** The fields of a slot that are set when it is created. *)
Definition slot_static (s : TimeSlot.t)
  : string * string * string * string * string * Z * Z :=
  (TimeSlot.id s, TimeSlot.doctor_id s, TimeSlot.start_time s, TimeSlot.end_time s,
   TimeSlot.date s, TimeSlot.max_capacity s, TimeSlot.created_at s).

(** Every dictionary of the store has one record per id. *)
Definition unique_ids (d : DataStore) : Prop :=
  NoDup (map Doctor.id (doctors d))
  /\ NoDup (map TimeSlot.id (time_slots d))
  /\ NoDup (map Token.id (tokens d))
  /\ NoDup (map Patient.id (patients d)).

(** The token [_promote_from_waitlist] leaves behind when it promotes
    [tk] to sequence number [n] on a slot starting at [h:m]. *)
Definition promoted (tk : Token.t) (n h m : Z) (env : Env) : Token.t :=
  Token.update_status
    (Token.set_estimated_time
       (Token.set_token_number tk (Some n))
       (Some (fmt_hhmm (estimated_minutes h m n))))
    CONFIRMED "Promoted from waitlist" (now env).

(** The moment [5 * (position - 1)] minutes after [h:m] of day [day]
    falls on a day a [datetime] can hold, 0001-01-01 to 9999-12-31. *)
Definition estimate_on_calendar (day h m position : Z) : Prop :=
  1 <= day + (h * 60 + m + (position - 1) * 5) / 1440 <= 3652059.

(** Every id a slot lists, confirmed or waiting, names a stored token. *)
Definition slot_refs (d : DataStore) (s : TimeSlot.t) : Prop :=
  forall k, In k (TimeSlot.tokens s) \/ In k (TimeSlot.waitlist s) ->
            Db.get_token d k <> None.

Definition refs_ok (d : DataStore) : Prop := Forall (slot_refs d) (time_slots d).

(** * Properties *)

(** ** Dictionary lookups after a write *)

Section DictFacts.
Variable A : Type.
Variable key : A -> string.
Local Abbreviation dict_get := (dict_get key).
Local Abbreviation dict_set := (dict_set key).

Lemma dict_get_key k d x : dict_get k d = Some x -> key x = k.
Proof.
  induction d as [|y d IH]; simpl; [discriminate|].
  destruct (String.eqb_spec (key y) k); [now intros [= <-] | exact IH].
Qed.

Lemma dict_get_In k d x : dict_get k d = Some x -> In x d.
Proof.
  induction d as [|y d IH]; simpl; [discriminate|].
  destruct (String.eqb (key y) k); [intros [= <-]; now left | right; auto].
Qed.

Lemma dict_get_set_same v d : dict_get (key v) (dict_set v d) = Some v.
Proof.
  induction d as [|y d IH]; simpl.
  - now rewrite String.eqb_refl.
  - destruct (String.eqb (key y) (key v)) eqn:E; simpl.
    + now rewrite String.eqb_refl.
    + now rewrite E.
Qed.

Lemma dict_get_set_other v d k :
  key v <> k -> dict_get k (dict_set v d) = dict_get k d.
Proof.
  intros N. induction d as [|y d IH]; simpl.
  - destruct (String.eqb_spec (key v) k); [contradiction | reflexivity].
  - destruct (String.eqb_spec (key y) (key v)) as [E|E]; simpl.
    + destruct (String.eqb_spec (key v) k); [contradiction|].
      destruct (String.eqb_spec (key y) k); [congruence | reflexivity].
    + destruct (String.eqb (key y) k); [reflexivity | exact IH].
Qed.

Lemma dict_set_In v d x : In x (dict_set v d) -> x = v \/ In x d.
Proof.
  induction d as [|y d IH]; simpl.
  - intros [<-|[]]; now left.
  - destruct (String.eqb (key y) (key v)); simpl.
    + intros [<-|H]; [now left | right; now right].
    + intros [<-|H]; [right; now left|].
      destruct (IH H); [now left | right; now right].
Qed.

Lemma dict_set_Forall (P : A -> Prop) v d :
  P v -> Forall P d -> Forall P (dict_set v d).
Proof.
  intros Hv Hd. apply Forall_forall. intros x Hx.
  destruct (dict_set_In _ _ _ Hx) as [->|H]; [assumption|].
  rewrite Forall_forall in Hd. now apply Hd.
Qed.

Lemma dict_set_In_new v d : In v (dict_set v d).
Proof.
  induction d as [|y d IH]; simpl; [now left|].
  destruct (String.eqb (key y) (key v)); simpl; [now left | now right].
Qed.
End DictFacts.

(** ** The waitlist queue *)

Lemma key_le_spec a b :
  key_le a b <->
  e_priority a < e_priority b
  \/ (e_priority a = e_priority b /\ e_timestamp a <= e_timestamp b).
Proof.
  unfold key_le, key_leb.
  rewrite orb_true_iff, andb_true_iff, Z.ltb_lt, Z.eqb_eq, Z.leb_le. tauto.
Qed.

Lemma key_le_total a b : key_leb a b = false -> key_le b a.
Proof.
  intros H. apply key_le_spec.
  assert (N : ~ key_le a b) by (unfold key_le; now rewrite H).
  rewrite key_le_spec in N. lia.
Qed.

Lemma key_le_trans a b c : key_le a b -> key_le b c -> key_le a c.
Proof. rewrite !key_le_spec. lia. Qed.

Lemma insert_sorted_In x l z : In z (insert_sorted x l) <-> z = x \/ In z l.
Proof.
  induction l as [|y l IH]; simpl.
  - intuition.
  - destruct (key_leb x y); simpl; [intuition | rewrite IH; intuition].
Qed.

Lemma sort_entries_In l z : In z (sort_entries l) <-> In z l.
Proof.
  induction l as [|y l IH]; simpl; [tauto|].
  rewrite insert_sorted_In, IH. intuition.
Qed.

Lemma insert_sorted_sorted x l :
  StronglySorted key_le l -> StronglySorted key_le (insert_sorted x l).
Proof.
  induction 1 as [|y l Hl IH Hy]; simpl.
  - constructor; constructor.
  - destruct (key_leb x y) eqn:E.
    + constructor; [now constructor|].
      constructor; [exact E|].
      eapply Forall_impl; [|exact Hy]. intros z Hz.
      eapply key_le_trans; [exact E | exact Hz].
    + constructor; [exact IH|].
      apply Forall_forall. intros z Hz. apply insert_sorted_In in Hz.
      destruct Hz as [->|Hz]; [now apply key_le_total|].
      rewrite Forall_forall in Hy. now apply Hy.
Qed.

Lemma sort_entries_sorted l : StronglySorted key_le (sort_entries l).
Proof.
  induction l as [|x l IH]; simpl; [constructor | now apply insert_sorted_sorted].
Qed.

Lemma filter_sorted (f : Entry -> bool) l :
  StronglySorted key_le l -> StronglySorted key_le (filter f l).
Proof.
  induction 1 as [|y l Hl IH Hy]; simpl; [constructor|].
  destruct (f y); [|exact IH].
  constructor; [exact IH|].
  apply Forall_forall. intros z Hz. apply filter_In in Hz.
  rewrite Forall_forall in Hy. now apply Hy.
Qed.

Lemma find_position_Some token_id l pos :
  find_position token_id l = Some pos -> is_position l token_id pos.
Proof.
  revert pos. induction l as [|y l IH]; simpl; intros pos; [discriminate|].
  destruct (String.eqb_spec (e_token_id y) token_id) as [E|E].
  - intros [= <-]. exists [], y, l. repeat split; auto.
  - destruct (find_position token_id l) as [p|]; simpl; [|discriminate].
    intros [= <-]. destruct (IH p eq_refl) as (b & e & a & -> & He & Hb & ->).
    exists (y :: b), e, a. repeat split; auto.
    simpl List.length. lia.
Qed.

Lemma find_position_In token_id l :
  (exists e, In e l /\ e_token_id e = token_id) ->
  exists pos, find_position token_id l = Some pos.
Proof.
  intros (e & Hin & He). induction l as [|y l IH]; simpl; [destruct Hin|].
  destruct (String.eqb_spec (e_token_id y) token_id) as [E|E]; [eauto|].
  destruct Hin as [->|Hin]; [contradiction|].
  destruct (IH Hin) as [p ->]. simpl. eauto.
Qed.

Module QueueFacts.
Import Queue.

Lemma waitlist_of_set_same sid l qm :
  waitlist_of (set_waitlist sid l qm) sid = Some l.
Proof.
  unfold waitlist_of, set_waitlist.
  pose proof (dict_get_set_same fst (sid, l) qm) as H. simpl in H.
  now rewrite H.
Qed.

Lemma waitlist_of_set_other sid l qm sid' :
  sid <> sid' -> waitlist_of (set_waitlist sid l qm) sid' = waitlist_of qm sid'.
Proof.
  intros N. unfold waitlist_of, set_waitlist.
  pose proof (@dict_get_set_other _ fst (sid, l) qm sid' N) as H.
  now rewrite H.
Qed.

Lemma add_to_waitlist_entries qm sid tid p t :
  waitlist_of (snd (add_to_waitlist qm sid tid p t)) sid
  = Some (sort_entries (entries_of qm sid ++ [mkEntry tid p t])).
Proof.
  unfold add_to_waitlist, _sort_waitlist, entries_of, dict_mem.
  assert (E : waitlist_of qm sid
              = option_map snd (dict_get fst sid qm)) by reflexivity.
  destruct (dict_get fst sid qm) as [[k l]|] eqn:G; simpl in E; rewrite E;
    rewrite ?waitlist_of_set_same;
    match goal with
    | |- context [find_position ?a ?b] => destruct (find_position a b)
    end; simpl; now rewrite waitlist_of_set_same.
Qed.

Lemma add_to_waitlist_other qm sid tid p t sid' :
  sid <> sid' ->
  waitlist_of (snd (add_to_waitlist qm sid tid p t)) sid' = waitlist_of qm sid'.
Proof.
  intros N. unfold add_to_waitlist, _sort_waitlist, dict_mem.
  assert (E : waitlist_of qm sid
              = option_map snd (dict_get fst sid qm)) by reflexivity.
  destruct (dict_get fst sid qm) as [[k l]|] eqn:G; simpl in E; rewrite ?E;
    rewrite ?waitlist_of_set_same;
    match goal with
    | |- context [find_position ?a ?b] => destruct (find_position a b)
    end; simpl; now rewrite !waitlist_of_set_other by assumption.
Qed.

Lemma add_to_waitlist_position qm sid tid p t :
  find_position tid (sort_entries (entries_of qm sid ++ [mkEntry tid p t]))
  = Some (fst (add_to_waitlist qm sid tid p t)).
Proof.
  destruct (@find_position_In tid
              (sort_entries (entries_of qm sid ++ [mkEntry tid p t])))
    as [pos Hpos].
  { exists (mkEntry tid p t). split; [|reflexivity].
    apply sort_entries_In, in_or_app. right. now left. }
  rewrite Hpos. f_equal.
  unfold add_to_waitlist, _sort_waitlist, entries_of, dict_mem in *.
  assert (E : waitlist_of qm sid
              = option_map snd (dict_get fst sid qm)) by reflexivity.
  destruct (dict_get fst sid qm) as [[k l]|] eqn:G; simpl in E; rewrite E in *;
    rewrite ?waitlist_of_set_same; rewrite ?waitlist_of_set_same;
    simpl in *; now rewrite Hpos.
Qed.

Lemma add_to_waitlist_sorted qm sid tid p t :
  all_sorted qm -> all_sorted (snd (add_to_waitlist qm sid tid p t)).
Proof.
  intros H sid' l. destruct (String.eqb_spec sid sid') as [<-|N].
  - rewrite add_to_waitlist_entries. intros [= <-]. apply sort_entries_sorted.
  - rewrite add_to_waitlist_other by assumption. apply H.
Qed.

Lemma remove_from_waitlist_sorted qm sid tid :
  all_sorted qm -> all_sorted (snd (remove_from_waitlist qm sid tid)).
Proof.
  intros H sid' l. unfold remove_from_waitlist.
  destruct (waitlist_of qm sid) as [l0|] eqn:G; simpl; [|apply H].
  destruct (String.eqb_spec sid sid') as [<-|N].
  - rewrite waitlist_of_set_same. intros [= <-].
    apply filter_sorted. now apply (H sid).
  - rewrite waitlist_of_set_other by assumption. apply H.
Qed.

Lemma init_sorted : all_sorted init.
Proof. intros sid l. discriminate. Qed.
End QueueFacts.

Lemma run_queue_ops_sorted ops qm :
  all_sorted qm -> all_sorted (fold_left apply_queue_op ops qm).
Proof.
  revert qm. induction ops as [|op ops IH]; simpl; intros qm H; [exact H|].
  apply IH. destruct op; simpl.
  - now apply QueueFacts.add_to_waitlist_sorted.
  - now apply QueueFacts.remove_from_waitlist_sorted.
Qed.

(** ** Priority resolution *)

Lemma validate_source_false_priority source :
  PriorityManager.validate_source source = false ->
  PriorityManager.get_priority_for_source source = 999.
Proof.
  unfold PriorityManager.validate_source, PriorityManager.get_priority_for_source,
    Config.TOKEN_SOURCES, Config.PRIORITY_LEVELS.
  cbn [existsb dict_get fst]. rewrite !orb_false_iff.
  intros (H1 & H2 & H3 & H4 & H5 & _).
  rewrite (String.eqb_sym _ source), H1, (String.eqb_sym _ source), H2,
    (String.eqb_sym _ source), H3, (String.eqb_sym _ source), H4,
    (String.eqb_sym _ source), H5.
  reflexivity.
Qed.

Lemma validate_source_true_priority source :
  PriorityManager.validate_source source = true ->
  1 <= PriorityManager.get_priority_for_source source <= 5.
Proof.
  unfold PriorityManager.validate_source, PriorityManager.get_priority_for_source,
    Config.TOKEN_SOURCES, Config.PRIORITY_LEVELS.
  cbn [existsb dict_get fst].
  rewrite !(String.eqb_sym _ source).
  destruct (String.eqb source "EMERGENCY"); [lia|].
  destruct (String.eqb source "PAID_PRIORITY"); [lia|].
  destruct (String.eqb source "FOLLOW_UP"); [lia|].
  destruct (String.eqb source "ONLINE_BOOKING"); [lia|].
  destruct (String.eqb source "WALK_IN"); [lia|].
  discriminate.
Qed.

(** C8, as stated, fails: the resolver returns the rank 999 for a
    category it does not know. *)
Lemma resolve_unknown_source_returns_rank :
  PriorityManager.validate_source "VIP" = false
  /\ PriorityManager.get_priority_for_source "VIP" = 999.
Proof. split; reflexivity. Qed.

(** C8, amended.  For a source outside [TOKEN_SOURCES],
    [get_priority_for_source] does not fail but returns the fall-back rank
    999, outside the configured ranks 1..5; the rejection is made by
    [allocate_token], which raises the invalid-source error before it
    reads or changes the store or the queue. *)
Theorem unknown_source_rank_and_rejection :
  forall (py_int : string -> option Z) (source : string),
    PriorityManager.validate_source source = false ->
    PriorityManager.get_priority_for_source source = 999
    /\ forall qm db pd doctor_id date slot_time env,
        allocate_token py_int qm db pd doctor_id date slot_time source env
        = (Raise InvalidSource, db, qm).
Proof.
  intros py_int source H. split.
  - now apply validate_source_false_priority.
  - intros. unfold allocate_token. now rewrite H.
Qed.

Lemma unknown_source_rank_and_rejection_witness :
  PriorityManager.get_priority_for_source "VIP" = 999
  /\ forall qm db pd doctor_id date slot_time env,
      allocate_token decimal_int qm db pd doctor_id date slot_time "VIP" env
      = (Raise InvalidSource, db, qm).
Proof. apply (unknown_source_rank_and_rejection decimal_int "VIP"). reflexivity. Defined.

(** ** Failed transitions leave the state alone *)

(** C2.  A reallocation operation on an unknown token id raises the
    token-not-found error, and one on a token whose status does not allow
    it raises the invalid-transition error: [cancel_token] on a
    Cancelled, Completed or NoShow token, and [mark_no_show],
    [demote_token] and [complete_token] on any token that is not
    Confirmed.  In each of these cases the store (tokens, slots, patients,
    doctors) and the queue manager come back exactly as they went in. *)
Theorem failed_transition_changes_nothing :
  forall (py_int : string -> option Z) (qm : QueueManager) (db : DataStore)
         (token_id : string) (env : Env),
    (Db.get_token db token_id = None ->
       cancel_token py_int qm db token_id env = (Raise TokenNotFound, db, qm)
       /\ mark_no_show py_int qm db token_id env = (Raise TokenNotFound, db, qm)
       /\ demote_token qm db token_id env = (Raise TokenNotFound, db, qm)
       /\ complete_token qm db token_id env = (Raise TokenNotFound, db, qm))
    /\ (forall tk, Db.get_token db token_id = Some tk ->
         (Token.status tk = CANCELLED \/ Token.status tk = COMPLETED
          \/ Token.status tk = NO_SHOW ->
            cancel_token py_int qm db token_id env = (Raise InvalidTransition, db, qm))
         /\ (Token.status tk <> CONFIRMED ->
              mark_no_show py_int qm db token_id env = (Raise InvalidTransition, db, qm)
              /\ demote_token qm db token_id env = (Raise InvalidTransition, db, qm)
              /\ complete_token qm db token_id env = (Raise InvalidTransition, db, qm))).
Proof.
  intros py_int qm db token_id env. split.
  - intros H. unfold cancel_token, mark_no_show, demote_token, complete_token.
    rewrite H. auto.
  - intros tk H. split.
    + intros Hs. unfold cancel_token. rewrite H.
      destruct Hs as [-> | [-> | ->]]; reflexivity.
    + intros Hs. unfold mark_no_show, demote_token, complete_token. rewrite H.
      destruct (Token.status tk); try contradiction; simpl; auto.
Qed.

Lemma failed_transition_changes_nothing_witness :
  let e := run decimal_int (Scenario.start 1)
             [(Scenario.walk_in "1", Scenario.env 1 "1");
              (Scenario.walk_in "2", Scenario.env 2 "2");
              (ReqCancel "TKN2", Scenario.env 3 "3")] in
  let env := Scenario.env 4 "4" in
  cancel_token decimal_int (reallocation_queue e) (db e) "TKN2" env
  = (Raise InvalidTransition, db e, reallocation_queue e)
  /\ mark_no_show decimal_int (reallocation_queue e) (db e) "TKN2" env
     = (Raise InvalidTransition, db e, reallocation_queue e)
  /\ cancel_token decimal_int (reallocation_queue e) (db e) "TKN9" env
     = (Raise TokenNotFound, db e, reallocation_queue e).
Proof.
  intros e env.
  pose proof (failed_transition_changes_nothing decimal_int
                (reallocation_queue e) (db e) "TKN2" env) as [_ H2].
  pose proof (failed_transition_changes_nothing decimal_int
                (reallocation_queue e) (db e) "TKN9" env) as [H9 _].
  destruct (Db.get_token (db e) "TKN2") as [tk|] eqn:G; [|discriminate G].
  destruct (H2 tk eq_refl) as [Hc Hn].
  assert (S : Token.status tk = CANCELLED)
    by (vm_compute in G; injection G as <-; reflexivity).
  split; [apply Hc; now left|].
  split; [apply Hn; rewrite S; discriminate|].
  apply H9. reflexivity.
Defined.

(** ** Completion *)

(** C9.  [complete_token] on a Confirmed token succeeds and rewrites that
    one token only, through [update_status]: its status becomes Completed
    (with the update time and the event note [update_status] records),
    while its sequence number, estimated time, rank and slot stay as they
    were.  Every slot is untouched, so the confirmed list still holds the
    token id and the allocated count, available capacity and slot
    waitlist are as before; the queue manager is untouched and every
    other token is as before, so nothing is promoted. *)
Theorem complete_changes_status_only :
  forall (qm : QueueManager) (db : DataStore) (token_id : string)
         (tk : Token.t) (env : Env),
    Db.get_token db token_id = Some tk ->
    Token.status tk = CONFIRMED ->
    exists db' tk',
      complete_token qm db token_id env = (Ok token_id, db', qm)
      /\ Db.get_token db' token_id = Some tk'
      /\ Token.status tk' = COMPLETED
      /\ Token.token_number tk' = Token.token_number tk
      /\ Token.estimated_time tk' = Token.estimated_time tk
      /\ Token.priority tk' = Token.priority tk
      /\ Token.slot_id tk' = Token.slot_id tk
      /\ time_slots db' = time_slots db
      /\ doctors db' = doctors db
      /\ patients db' = patients db
      /\ (forall sid slot,
            Db.get_time_slot db sid = Some slot ->
            Db.get_time_slot db' sid = Some slot
            /\ (In token_id (TimeSlot.tokens slot) ->
                exists slot', Db.get_time_slot db' sid = Some slot'
                              /\ In token_id (TimeSlot.tokens slot')
                              /\ TimeSlot.allocated_count slot'
                                 = TimeSlot.allocated_count slot
                              /\ TimeSlot.available_count slot'
                                 = TimeSlot.available_count slot
                              /\ TimeSlot.waitlist slot' = TimeSlot.waitlist slot))
      /\ (forall other, other <> token_id ->
            Db.get_token db' other = Db.get_token db other).
Proof.
  intros qm db token_id tk env G S.
  pose proof (dict_get_key _ _ _ G) as K.
  set (tk' := Token.update_status tk COMPLETED "Consultation completed" (now env)).
  exists (Db.add_token db tk'), tk'.
  assert (K' : Token.id tk' = token_id) by exact K.
  split. { unfold complete_token. rewrite G, S. reflexivity. }
  split. { unfold Db.get_token, Db.add_token. simpl. rewrite <- K'.
           apply dict_get_set_same. }
  repeat (split; [reflexivity|]).
  split.
  - intros sid slot Hs. split; [exact Hs|]. intros Hin. exists slot. auto.
  - intros other N. unfold Db.get_token, Db.add_token. simpl.
    apply dict_get_set_other. rewrite K'. congruence.
Qed.

Lemma complete_changes_status_only_witness :
  let e := run decimal_int (Scenario.start 1)
             [(Scenario.walk_in "1", Scenario.env 1 "1");
              (Scenario.walk_in "2", Scenario.env 2 "2")] in
  exists db' tk',
    complete_token (reallocation_queue e) (db e) "TKN1" (Scenario.env 3 "3")
    = (Ok "TKN1", db', reallocation_queue e)
    /\ Db.get_token db' "TKN1" = Some tk'
    /\ Token.status tk' = COMPLETED
    /\ time_slots db' = time_slots (db e).
Proof.
  intros e.
  destruct (Db.get_token (db e) "TKN1") as [tk|] eqn:G; [|discriminate G].
  assert (S : Token.status tk = CONFIRMED)
    by (vm_compute in G; injection G as <-; reflexivity).
  destruct (@complete_changes_status_only (reallocation_queue e) (db e) "TKN1" tk
              (Scenario.env 3 "3") G S)
    as (db' & tk' & H1 & H2 & H3 & _ & _ & _ & _ & H4 & _).
  exists db', tk'. auto.
Defined.

(** ** Patient creation and the order of the checks *)

Lemma find_dict_set_new A (key : A -> string) (f : A -> bool) v d :
  find f d = None -> f v = true -> find f (dict_set key v d) = Some v.
Proof.
  intros Hn Hv. induction d as [|x d IH]; simpl in *.
  - now rewrite Hv.
  - destruct (f x) eqn:Fx; [discriminate|].
    destruct (String.eqb (key x) (key v)); simpl.
    + now rewrite Hv.
    + rewrite Fx. now apply IH.
Qed.

Lemma get_or_create_patient_new db pd env :
  Db.find_patient_by_phone db (pd_phone pd) = None ->
  let p := Patient.mk (new_patient_id env) (pd_name pd) (pd_phone pd) (pd_age pd)
                      (pd_gender pd) ("MRN" ++ new_patient_id env) (now env) in
  get_or_create_patient db pd env = (p, Db.add_patient db p)
  /\ Db.find_patient_by_phone (Db.add_patient db p) (pd_phone pd) = Some p
  /\ Db.get_patient (Db.add_patient db p) (new_patient_id env) = Some p.
Proof.
  intros H p. unfold get_or_create_patient. rewrite H. split; [reflexivity|].
  split.
  - unfold Db.find_patient_by_phone, Db.add_patient. simpl.
    apply find_dict_set_new; [exact H|]. simpl. apply String.eqb_refl.
  - unfold Db.get_patient, Db.add_patient. simpl.
    apply (dict_get_set_same Patient.id p).
Qed.

Lemma get_or_create_patient_frame db pd env :
  let db1 := snd (get_or_create_patient db pd env) in
  doctors db1 = doctors db /\ time_slots db1 = time_slots db
  /\ tokens db1 = tokens db.
Proof.
  unfold get_or_create_patient.
  destruct (Db.find_patient_by_phone db (pd_phone pd)); simpl; auto.
Qed.

(** C10, as stated, fails for [allocate_token]: with an unknown phone and
    no such slot, a request naming an unknown doctor stops at the doctor
    check, before any patient is created. *)
Lemma allocate_unknown_doctor_creates_no_patient :
  let e := Scenario.start 1 in
  let pd := Scenario.patient "1" in
  Db.find_patient_by_phone (db e) (pd_phone pd) = None
  /\ Db.find_slot_by_time (db e) "DOC404" "2026-01-29" "09:00" = None
  /\ allocate_token decimal_int (allocation_queue e) (db e) pd
       "DOC404" "2026-01-29" "09:00" "WALK_IN" (Scenario.env 1 "1")
     = (Raise DoctorNotFound, db e, allocation_queue e)
  /\ patients (db e) = [].
Proof. repeat split. Qed.

(** C10, amended.  When the phone number is not in the store and the
    requested slot does not exist, [allocate_emergency_token] always, and
    [allocate_token] whenever the source is valid and the doctor exists,
    raises the slot-not-found error after the new patient has been added:
    the store that comes back is the old one plus that patient, who is
    found by phone and by id; the queue manager is unchanged. *)
Theorem patient_persisted_before_slot_failure :
  forall (py_int : string -> option Z) (qm : QueueManager) (db : DataStore)
         (pd : PatientData) (doctor_id date slot_time : string) (env : Env),
    Db.find_patient_by_phone db (pd_phone pd) = None ->
    Db.find_slot_by_time db doctor_id date slot_time = None ->
    let p := Patient.mk (new_patient_id env) (pd_name pd) (pd_phone pd) (pd_age pd)
                        (pd_gender pd) ("MRN" ++ new_patient_id env) (now env) in
    let db' := Db.add_patient db p in
    allocate_emergency_token py_int qm db pd doctor_id date slot_time env
    = (Raise SlotNotFound, db', qm)
    /\ (forall source d,
          PriorityManager.validate_source source = true ->
          Db.get_doctor db doctor_id = Some d ->
          allocate_token py_int qm db pd doctor_id date slot_time source env
          = (Raise SlotNotFound, db', qm))
    /\ Db.find_patient_by_phone db' (pd_phone pd) = Some p
    /\ Db.get_patient db' (new_patient_id env) = Some p.
Proof.
  intros py_int qm db pd doctor_id date slot_time env Hp Hs p db'.
  destruct (get_or_create_patient_new db pd env Hp) as (E & F & I).
  fold p in E, F, I. fold db' in E, F, I.
  assert (Hs' : Db.find_slot_by_time db' doctor_id date slot_time = None)
    by exact Hs.
  split; [|split; [|split; assumption]].
  - unfold allocate_emergency_token. rewrite E, Hs'. reflexivity.
  - intros source d Hv Hd. unfold allocate_token. rewrite Hv, Hd. simpl.
    rewrite E, Hs'. reflexivity.
Qed.

Lemma patient_persisted_before_slot_failure_witness :
  let e := Scenario.start 1 in
  let pd := Scenario.patient "1" in
  let env := Scenario.env 1 "1" in
  let p := Patient.mk "PAT1" (pd_name pd) (pd_phone pd) 40 "M" "MRNPAT1" 1 in
  allocate_emergency_token decimal_int (allocation_queue e) (db e) pd
    "DOC001" "2026-01-29" "17:00" env
  = (Raise SlotNotFound, Db.add_patient (db e) p, allocation_queue e)
  /\ allocate_token decimal_int (allocation_queue e) (db e) pd
       "DOC001" "2026-01-29" "17:00" "WALK_IN" env
     = (Raise SlotNotFound, Db.add_patient (db e) p, allocation_queue e)
  /\ Db.find_patient_by_phone (Db.add_patient (db e) p) (pd_phone pd) = Some p.
Proof.
  intros e pd env p.
  destruct (patient_persisted_before_slot_failure decimal_int (allocation_queue e)
              (db e) pd "DOC001" "2026-01-29" "17:00" env eq_refl eq_refl)
    as (H1 & H2 & H3 & _).
  split; [exact H1|]. split; [|exact H3].
  eapply (H2 "WALK_IN"); reflexivity.
Defined.

(** ** Emergency allocation and the doctor lookup *)

Lemma calculate_estimated_time_errors py_int day tk start position e :
  Token.calculate_estimated_time py_int day tk start position = Raise e ->
  e = BadStartTime \/ e = EstimateOverflow.
Proof.
  unfold Token.calculate_estimated_time.
  destruct (Token.parse_start_time py_int start) as [[h m]|];
    [|intros [= <-]; auto].
  destruct (in_date_range _); [discriminate | intros [= <-]; auto].
Qed.

Lemma create_confirmed_errors py_int pid doc sl src prio env e :
  _create_confirmed_token py_int pid doc sl src prio env = Raise e ->
  e = BadStartTime \/ e = EstimateOverflow.
Proof.
  unfold _create_confirmed_token.
  destruct (Token.calculate_estimated_time _ _ _ _ _) eqn:C; [discriminate|].
  intros [= <-]. exact (calculate_estimated_time_errors _ _ _ _ _ C).
Qed.

Lemma demote_token_errors qm db token_id env e db' qm' :
  demote_token qm db token_id env = (Raise e, db', qm') ->
  e = TokenNotFound \/ e = InvalidTransition \/ e = SlotNotFound.
Proof.
  unfold demote_token.
  destruct (Db.get_token db token_id) as [tk|]; [|intros [= <- _ _]; auto].
  destruct (negb (Status_eqb (Token.status tk) CONFIRMED));
    [intros [= <- _ _]; auto|].
  destruct (Db.get_time_slot db (Token.slot_id tk)) as [sl|];
    [|intros [= <- _ _]; auto].
  destruct (Queue.add_to_waitlist qm (TimeSlot.id sl) token_id
              (Token.priority tk) (now env)).
  discriminate.
Qed.

(** [allocate_emergency_token] has no doctor lookup: whatever it is given,
    the error it raises is never the doctor-not-found one. *)
Lemma emergency_never_raises_doctor_not_found
      py_int qm db pd doctor_id date slot_time env :
  fst (fst (allocate_emergency_token py_int qm db pd doctor_id date slot_time env))
  <> Raise DoctorNotFound.
Proof.
  unfold allocate_emergency_token.
  destruct (get_or_create_patient db pd env) as [patient db1].
  destruct (Db.find_slot_by_time db1 doctor_id date slot_time) as [slot|];
    [|discriminate].
  destruct (negb (TimeSlot.is_full slot)).
  - destruct (_create_confirmed_token _ _ _ _ _ _ _) eqn:C; [discriminate|].
    destruct (create_confirmed_errors _ _ _ _ _ _ _ C) as [-> | ->]; discriminate.
  - destruct (map (Db.get_token db1) (TimeSlot.tokens slot)) as [|o l];
      [discriminate|].
    destruct (all_some (o :: l)) as [[|first rest]|]; try discriminate.
    destruct (PriorityManager.should_demote _ _).
    + destruct (demote_token Queue.init db1 _ env) as [[[r|e] db2] qm2] eqn:D.
      * destruct (_create_confirmed_token _ _ _ _ _ _ _) eqn:C; [discriminate|].
        destruct (create_confirmed_errors _ _ _ _ _ _ _ C) as [-> | ->];
          discriminate.
      * simpl. apply demote_token_errors in D.
        destruct D as [-> | [-> | ->]]; discriminate.
    + destruct (Queue.add_to_waitlist _ _ _ _ _). discriminate.
Qed.

(** C7 (the code departs from the claim).  On a store that has no doctor
    ["DOC404"], the emergency request for that doctor is answered with the
    slot-not-found error, and the patient of the request has been added to
    the store; the ordinary request for the same doctor is answered with
    the doctor-not-found error and adds nothing. *)
Theorem emergency_unknown_doctor_reports_slot :
  let e := Scenario.start 1 in
  let pd := Scenario.patient "1" in
  let env := Scenario.env 1 "1" in
  Db.get_doctor (db e) "DOC404" = None
  /\ fst (handle decimal_int e (ReqEmergency pd "DOC404" "2026-01-29" "09:00") env)
     = Raise SlotNotFound
  /\ List.length (patients (db (snd (handle decimal_int e
                     (ReqEmergency pd "DOC404" "2026-01-29" "09:00") env)))) = 1%nat
  /\ handle decimal_int e (ReqAllocate pd "DOC404" "2026-01-29" "09:00" "WALK_IN") env
     = (Raise DoctorNotFound, e).
Proof. repeat split. Qed.

(** ** Promotion after a cancellation, through the two services *)

(** C1 (the code departs from the claim).  Scenario C run through the
    services as the routes module creates them: on a slot of capacity 1,
    token A = TKN1 is Confirmed and token B = TKN2 is Waitlisted at
    position 1, in the allocation service's queue; the reallocation
    service's queue is empty.  Cancelling A reports no promoted token,
    leaves B Waitlisted without sequence number or estimated time, and
    leaves the confirmed list empty (size 0, down from 1). *)
Theorem cancel_does_not_promote_allocated_waitlist :
  let e := run decimal_int (Scenario.start 1)
             [(Scenario.walk_in "1", Scenario.env 1 "1");
              (Scenario.walk_in "2", Scenario.env 2 "2")] in
  let out := handle decimal_int e (ReqCancel "TKN1") (Scenario.env 3 "3") in
  (* before *)
  option_map Token.status (Db.get_token (db e) "TKN1") = Some CONFIRMED
  /\ option_map Token.status (Db.get_token (db e) "TKN2") = Some WAITLISTED
  /\ Queue.get_waitlist_position (allocation_queue e) "SLOT1" "TKN2" = Some 1
  /\ option_map TimeSlot.tokens (Db.get_time_slot (db e) "SLOT1") = Some ["TKN1"]
  /\ option_map TimeSlot.waitlist (Db.get_time_slot (db e) "SLOT1") = Some ["TKN2"]
  /\ reallocation_queue e = Queue.init
  (* after cancelling A *)
  /\ fst out = Ok (RespCancel (mkCancelResult "TKN1" None))
  /\ option_map Token.status (Db.get_token (db (snd out)) "TKN1") = Some CANCELLED
  /\ option_map Token.status (Db.get_token (db (snd out)) "TKN2") = Some WAITLISTED
  /\ option_map Token.token_number (Db.get_token (db (snd out)) "TKN2") = Some None
  /\ option_map Token.estimated_time (Db.get_token (db (snd out)) "TKN2") = Some None
  /\ option_map TimeSlot.tokens (Db.get_time_slot (db (snd out)) "SLOT1") = Some []
  /\ option_map TimeSlot.waitlist (Db.get_time_slot (db (snd out)) "SLOT1")
     = Some ["TKN2"].
Proof. vm_compute. repeat split. Qed.

(** The cause, in general: a cancellation promotes nothing whenever the
    reallocation service's own queue has no entry for the slot, whatever
    the slot's waitlist or the allocation service's queue holds. *)
Lemma promote_with_empty_queue py_int qm db slot_id env :
  Queue.get_next_from_waitlist qm slot_id = None ->
  _promote_from_waitlist py_int qm db slot_id env = (Ok None, db, qm).
Proof. intros H. unfold _promote_from_waitlist. now rewrite H. Qed.

(** ** Capacity *)

Lemma new_slot_ok slot_id doctor_id start_time end_time date capacity t :
  0 <= capacity ->
  slot_ok (TimeSlot.new slot_id doctor_id start_time end_time date capacity t).
Proof. intros H. split; simpl; [reflexivity | exact H]. Qed.

Lemma remove_first_length x l :
  TimeSlot.mem x l = true ->
  S (List.length (TimeSlot.remove_first x l)) = List.length l.
Proof.
  unfold TimeSlot.mem. induction l as [|y l IH]; simpl; [discriminate|].
  rewrite (String.eqb_sym x y).
  destruct (String.eqb y x); simpl; [reflexivity|].
  intros H. now rewrite IH.
Qed.

Lemma add_token_ok s token_id : slot_ok s -> slot_ok (snd (TimeSlot.add_token s token_id)).
Proof.
  intros [Hc Hl]. unfold TimeSlot.add_token.
  destruct (Z.ltb_spec (TimeSlot.allocated_count s) (TimeSlot.max_capacity s));
    simpl; [|now split].
  split; simpl; rewrite length_app; simpl; lia.
Qed.

Lemma remove_token_ok s token_id :
  slot_ok s -> slot_ok (snd (TimeSlot.remove_token s token_id)).
Proof.
  intros [Hc Hl]. unfold TimeSlot.remove_token.
  destruct (TimeSlot.mem token_id (TimeSlot.tokens s)) eqn:M; simpl; [|now split].
  apply remove_first_length in M. split; simpl; lia.
Qed.

Lemma add_to_waitlist_ok s token_id :
  slot_ok s -> slot_ok (snd (TimeSlot.add_to_waitlist s token_id)).
Proof.
  intros H. unfold TimeSlot.add_to_waitlist.
  destruct (TimeSlot.mem token_id (TimeSlot.waitlist s)); simpl; exact H.
Qed.

Lemma remove_from_waitlist_ok s token_id :
  slot_ok s -> slot_ok (snd (TimeSlot.remove_from_waitlist s token_id)).
Proof.
  intros H. unfold TimeSlot.remove_from_waitlist.
  destruct (TimeSlot.mem token_id (TimeSlot.waitlist s)); simpl; exact H.
Qed.

Lemma put_time_slot_ok d s : slots_ok d -> slot_ok s -> slots_ok (Db.put_time_slot d s).
Proof. intros Hd Hs. unfold slots_ok, Db.put_time_slot. simpl. now apply dict_set_Forall. Qed.

Lemma get_time_slot_ok d sid s : slots_ok d -> Db.get_time_slot d sid = Some s -> slot_ok s.
Proof.
  intros Hd G. apply dict_get_In in G.
  unfold slots_ok in Hd. rewrite Forall_forall in Hd. now apply Hd.
Qed.

Lemma find_slot_by_time_ok d doctor_id date tm s :
  slots_ok d -> Db.find_slot_by_time d doctor_id date tm = Some s -> slot_ok s.
Proof.
  intros Hd G. apply find_some in G. destruct G as [G _].
  unfold slots_ok in Hd. rewrite Forall_forall in Hd. now apply Hd.
Qed.

Lemma get_or_create_patient_ok d pd env :
  slots_ok d -> slots_ok (snd (get_or_create_patient d pd env)).
Proof.
  intros H. unfold slots_ok.
  now rewrite (proj1 (proj2 (get_or_create_patient_frame d pd env))).
Qed.

Create HintDb slots discriminated.
#[local] Hint Resolve add_token_ok remove_token_ok add_to_waitlist_ok
  remove_from_waitlist_ok put_time_slot_ok get_time_slot_ok
  find_slot_by_time_ok get_or_create_patient_ok : slots.

Lemma add_token_slots_ok d tk : slots_ok d -> slots_ok (Db.add_token d tk).
Proof. intros H. exact H. Qed.
#[local] Hint Resolve add_token_slots_ok : slots.

Section CapacityPreserved.
Variable py_int : string -> option Z.

Lemma promote_preserves qm d slot_id env :
  slots_ok d -> slots_ok (out_db (_promote_from_waitlist py_int qm d slot_id env)).
Proof.
  intros H. unfold _promote_from_waitlist, out_db.
  destruct (Queue.get_next_from_waitlist qm slot_id) as [next|]; [|exact H].
  destruct (String.eqb next ""); [exact H|].
  destruct (Db.get_token d next) as [tk|]; [|exact H].
  destruct (Db.get_time_slot d slot_id) as [sl|] eqn:G; [|exact H].
  destruct (Token.calculate_estimated_time _ _ _ _ _); simpl; eauto 8 with slots.
Qed.

Lemma cancel_preserves qm d token_id env :
  slots_ok d -> slots_ok (out_db (cancel_token py_int qm d token_id env)).
Proof.
  intros H. unfold cancel_token, out_db.
  destruct (Db.get_token d token_id) as [tk|]; [|exact H].
  destruct (Token.status tk) eqn:S; try exact H;
    (destruct (Db.get_time_slot d (Token.slot_id tk)) as [sl|] eqn:G; [|exact H]).
  - match goal with
    | |- context [_promote_from_waitlist py_int ?q ?d0 ?s ?e] =>
        assert (P : slots_ok (out_db (_promote_from_waitlist py_int q d0 s e)))
          by (apply promote_preserves; eauto 8 with slots);
        destruct (_promote_from_waitlist py_int q d0 s e) as [[[r|er] d3] q3]
    end; exact P.
  - simpl. eauto 8 with slots.
Qed.

Lemma no_show_preserves qm d token_id env :
  slots_ok d -> slots_ok (out_db (mark_no_show py_int qm d token_id env)).
Proof.
  intros H. unfold mark_no_show, out_db.
  destruct (Db.get_token d token_id) as [tk|]; [|exact H].
  destruct (negb (Status_eqb (Token.status tk) CONFIRMED)); [exact H|].
  destruct (Db.get_time_slot d (Token.slot_id tk)) as [sl|] eqn:G; [|exact H].
  match goal with
  | |- context [_promote_from_waitlist py_int ?q ?d0 ?s ?e] =>
      assert (P : slots_ok (out_db (_promote_from_waitlist py_int q d0 s e)))
        by (apply promote_preserves; eauto 8 with slots);
      destruct (_promote_from_waitlist py_int q d0 s e) as [[[r|er] d3] q3]
  end; exact P.
Qed.

Lemma demote_preserves qm d token_id env :
  slots_ok d -> slots_ok (out_db (demote_token qm d token_id env)).
Proof.
  intros H. unfold demote_token, out_db.
  destruct (Db.get_token d token_id) as [tk|]; [|exact H].
  destruct (negb (Status_eqb (Token.status tk) CONFIRMED)); [exact H|].
  destruct (Db.get_time_slot d (Token.slot_id tk)) as [sl|] eqn:G; [|exact H].
  destruct (Queue.add_to_waitlist _ _ _ _ _). simpl. eauto 8 with slots.
Qed.

Lemma complete_preserves qm d token_id env :
  slots_ok d -> slots_ok (out_db (complete_token qm d token_id env)).
Proof.
  intros H. unfold complete_token, out_db.
  destruct (Db.get_token d token_id) as [tk|]; [|exact H].
  destruct (negb (Status_eqb (Token.status tk) CONFIRMED)); exact H.
Qed.

Lemma allocate_preserves qm d pd doctor_id date tm source env :
  slots_ok d ->
  slots_ok (out_db (allocate_token py_int qm d pd doctor_id date tm source env)).
Proof.
  intros H. unfold allocate_token, out_db.
  destruct (negb (PriorityManager.validate_source source)); [exact H|].
  destruct (Db.get_doctor d doctor_id); [|exact H].
  pose proof (@get_or_create_patient_ok d pd env H) as H1.
  destruct (get_or_create_patient d pd env) as [patient d1]. simpl in H1.
  destruct (Db.find_slot_by_time d1 doctor_id date tm) as [sl|] eqn:F; [|exact H1].
  destruct (negb (TimeSlot.is_full sl)).
  - destruct (_create_confirmed_token _ _ _ _ _ _ _); simpl; eauto 8 with slots.
  - destruct (Queue.add_to_waitlist _ _ _ _ _). simpl. eauto 8 with slots.
Qed.

Lemma reread_slot_ok d sl : slots_ok d -> slot_ok sl -> slot_ok (reread_slot d sl).
Proof.
  intros H Hs. unfold reread_slot.
  destruct (Db.get_time_slot d (TimeSlot.id sl)) eqn:G; eauto with slots.
Qed.

Lemma emergency_preserves qm d pd doctor_id date tm env :
  slots_ok d ->
  slots_ok (out_db (allocate_emergency_token py_int qm d pd doctor_id date tm env)).
Proof.
  intros H. unfold allocate_emergency_token, out_db.
  pose proof (@get_or_create_patient_ok d pd env H) as H1.
  destruct (get_or_create_patient d pd env) as [patient d1]. simpl in H1.
  destruct (Db.find_slot_by_time d1 doctor_id date tm) as [sl|] eqn:F; [|exact H1].
  assert (Hs : slot_ok sl) by eauto with slots.
  destruct (negb (TimeSlot.is_full sl)).
  - destruct (_create_confirmed_token _ _ _ _ _ _ _); simpl; eauto 8 with slots.
  - destruct (map (Db.get_token d1) (TimeSlot.tokens sl)) as [|o l]; [exact H1|].
    destruct (all_some (o :: l)) as [[|first rest]|]; try exact H1.
    destruct (PriorityManager.should_demote _ _).
    + match goal with
      | |- context [demote_token ?q ?d0 ?t ?e] =>
          pose proof (@demote_preserves q d0 t e H1) as P;
          destruct (demote_token q d0 t e) as [[[r|er] d2] q2]
      end; unfold out_db in P; simpl in P; [|exact P].
      pose proof (@reread_slot_ok _ _ P Hs) as Hr.
      destruct (_create_confirmed_token _ _ _ _ _ _ _); simpl; eauto 8 with slots.
    + destruct (Queue.add_to_waitlist _ _ _ _ _). simpl. eauto 8 with slots.
Qed.

Lemma handle_preserves e req env :
  slots_ok (db e) -> slots_ok (db (snd (handle py_int e req env))).
Proof.
  intros H.
  destruct req as [pd doc date tm src | pd doc date tm | tid | tid | tid | tid | sid];
    simpl; unfold on_allocation, on_reallocation.
  - pose proof (@allocate_preserves (allocation_queue e) (db e) pd doc date tm src
                  env H) as P.
    destruct (allocate_token _ _ _ _ _ _ _ _ _) as [[r d'] q']. exact P.
  - pose proof (@emergency_preserves (allocation_queue e) (db e) pd doc date tm
                  env H) as P.
    destruct (allocate_emergency_token _ _ _ _ _ _ _ _) as [[r d'] q']. exact P.
  - pose proof (@cancel_preserves (reallocation_queue e) (db e) tid env H) as P.
    destruct (cancel_token _ _ _ _ _) as [[r d'] q']. exact P.
  - pose proof (@no_show_preserves (reallocation_queue e) (db e) tid env H) as P.
    destruct (mark_no_show _ _ _ _ _) as [[r d'] q']. exact P.
  - pose proof (@complete_preserves (reallocation_queue e) (db e) tid env H) as P.
    destruct (complete_token _ _ _ _) as [[r d'] q']. exact P.
  - pose proof (@demote_preserves (reallocation_queue e) (db e) tid env H) as P.
    destruct (demote_token _ _ _ _) as [[r d'] q']. exact P.
  - pose proof (@promote_preserves (reallocation_queue e) (db e) sid env H) as P.
    destruct (_promote_from_waitlist _ _ _ _ _) as [[r d'] q']. exact P.
Qed.

Lemma run_preserves reqs e :
  slots_ok (db e) -> slots_ok (db (run py_int e reqs)).
Proof.
  revert e. induction reqs as [|[req env] reqs IH]; simpl; intros e H; [exact H|].
  apply IH, handle_preserves, H.
Qed.
End CapacityPreserved.

Lemma add_time_slot_ok d s : slots_ok d -> slot_ok s -> slots_ok (Db.add_time_slot d s).
Proof.
  intros Hd Hs. unfold Db.add_time_slot.
  destruct (Db.get_doctor (Db.put_time_slot d s) (TimeSlot.doctor_id s));
    [unfold slots_ok, Db.add_doctor; cbn [time_slots]|];
    now apply put_time_slot_ok.
Qed.

(** C4.  The slot invariant (the counter equals the length of the
    confirmed list, and that length is at most the capacity) holds in the
    empty store, is kept when a doctor or a new, empty slot of
    non-negative capacity is added, and is kept by every request:
    starting from a store where it holds, after any sequence of requests
    (allocate, emergency allocate, cancel, no-show, complete, demote,
    promote; succeeding or raising) every slot of the store has
    [len(tokens) <= max_capacity]. *)
Theorem confirmed_within_capacity :
  slots_ok Db.empty
  /\ (forall d doc, slots_ok d -> slots_ok (Db.add_doctor d doc))
  /\ (forall d slot_id doctor_id start_time end_time date capacity t,
        0 <= capacity -> slots_ok d ->
        slots_ok (Db.add_time_slot d
                    (TimeSlot.new slot_id doctor_id start_time end_time date
                                  capacity t)))
  /\ forall (py_int : string -> option Z) (e : Engine) (reqs : list (Request * Env)),
      slots_ok (db e) ->
      forall slot,
        In slot (time_slots (db (run py_int e reqs))) ->
        Z.of_nat (List.length (TimeSlot.tokens slot)) <= TimeSlot.max_capacity slot
        /\ TimeSlot.allocated_count slot
           = Z.of_nat (List.length (TimeSlot.tokens slot)).
Proof.
  split; [apply Forall_nil|].
  split; [intros d doc H; exact H|].
  split.
  - intros d slot_id doctor_id start_time end_time date capacity t Hc Hd.
    apply add_time_slot_ok; [exact Hd | now apply new_slot_ok].
  - intros py_int e reqs H slot Hin.
    pose proof (@run_preserves py_int reqs e H) as P.
    unfold slots_ok in P. rewrite Forall_forall in P.
    destruct (P slot Hin). auto.
Qed.

Lemma confirmed_within_capacity_witness :
  let e := Scenario.start 1 in
  let reqs := [ (Scenario.walk_in "1", Scenario.env 1 "1");
                (Scenario.walk_in "2", Scenario.env 2 "2");
                (Scenario.emergency "3", Scenario.env 3 "3");
                (ReqCancel "TKN3", Scenario.env 4 "4") ] in
  slots_ok (db e)
  /\ forall slot,
      In slot (time_slots (db (run decimal_int e reqs))) ->
      Z.of_nat (List.length (TimeSlot.tokens slot)) <= TimeSlot.max_capacity slot
      /\ TimeSlot.allocated_count slot = Z.of_nat (List.length (TimeSlot.tokens slot)).
Proof.
  intros e reqs.
  destruct confirmed_within_capacity as (H0 & Hdoc & Hslot & Hrun).
  assert (H : slots_ok (db e)).
  { apply (Hslot _ "SLOT1" "DOC001" "09:00" "10:00" "2026-01-29" 1 0);
      [lia | apply Hdoc, H0]. }
  split; [exact H|].
  exact (Hrun decimal_int e reqs H).
Defined.

(** ** Reading a start time *)

Lemma string_app_assoc_cons (a : string) c (b : string) :
  (a ++ String c "") ++ b = a ++ String c b.
Proof. induction a as [|x a IH]; simpl; [reflexivity | now rewrite IH]. Qed.

Lemma string_app_nil_r (a : string) : a ++ "" = a.
Proof. induction a as [|x a IH]; simpl; [reflexivity | now rewrite IH]. Qed.

Lemma split_colon_aux_one acc s :
  has_colon s = false -> split_colon_aux acc s = [acc ++ s].
Proof.
  revert acc. induction s as [|c s IH]; simpl; intros acc H.
  - now rewrite string_app_nil_r.
  - apply orb_false_iff in H. destruct H as [Hc Hs]. rewrite Hc.
    rewrite (@IH _ Hs). now rewrite string_app_assoc_cons.
Qed.

Lemma split_colon_aux_length acc s : (1 <= List.length (split_colon_aux acc s))%nat.
Proof.
  revert acc. induction s as [|c s IH]; simpl; intros acc; [lia|].
  destruct (Ascii.eqb c ":"); simpl; [lia | apply IH].
Qed.

Lemma split_colon_aux_single acc s b :
  split_colon_aux acc s = [b] -> has_colon s = false /\ b = acc ++ s.
Proof.
  revert acc. induction s as [|c s IH]; simpl; intros acc H.
  - injection H as <-. now rewrite string_app_nil_r.
  - destruct (Ascii.eqb c ":") eqn:E.
    + exfalso. injection H as _ H.
      pose proof (split_colon_aux_length "" s) as L. rewrite H in L. simpl in L. lia.
    + destruct (IH _ H) as [Hs ->]. split; [exact Hs|].
      now rewrite string_app_assoc_cons.
Qed.

Lemma split_colon_aux_two acc s a b :
  split_colon_aux acc s = [a; b] <->
  exists s1, a = acc ++ s1 /\ s = s1 ++ String ":" b
             /\ has_colon s1 = false /\ has_colon b = false.
Proof.
  revert acc. induction s as [|c s IH]; simpl; intros acc.
  - split; [discriminate|]. intros (s1 & _ & E & _). destruct s1; discriminate.
  - destruct (Ascii.eqb_spec c ":") as [->|N].
    + split.
      * intros [= <- H]. apply split_colon_aux_single in H. destruct H as [Hs ->].
        exists "". simpl. now rewrite string_app_nil_r.
      * intros (s1 & -> & E & H1 & Hb). destruct s1 as [|x s1].
        -- simpl in E. injection E as ->. rewrite string_app_nil_r.
           now rewrite (@split_colon_aux_one "" _ Hb).
        -- simpl in E, H1. injection E as <- _. simpl in H1. discriminate.
    + rewrite IH. split.
      * intros (s1 & -> & -> & H1 & Hb). exists (String c s1).
        rewrite string_app_assoc_cons. simpl.
        destruct (Ascii.eqb_spec c ":"); [contradiction|]. auto.
      * intros (s1 & -> & E & H1 & Hb). destruct s1 as [|x s1].
        -- simpl in E. injection E as -> _. contradiction.
        -- simpl in E. injection E as <- ->. simpl in H1.
           apply orb_false_iff in H1. destruct H1 as [_ H1].
           exists s1. now rewrite string_app_assoc_cons.
Qed.

Lemma parse_start_time_range py_int start h m :
  Token.parse_start_time py_int start = Some (h, m) ->
  0 <= h < 24 /\ 0 <= m < 60.
Proof.
  unfold Token.parse_start_time.
  destruct (split_colon start) as [|a [|b [|c l]]]; try discriminate.
  destruct (py_int a) as [hour|]; [|discriminate].
  destruct (py_int b) as [minute|]; [|discriminate].
  destruct ((0 <=? hour) && (hour <? 24) && (0 <=? minute) && (minute <? 60))
    eqn:R; [|discriminate].
  intros [= <- <-].
  rewrite !andb_true_iff, !Z.leb_le, !Z.ltb_lt in R. lia.
Qed.

Lemma parse_start_time_fields py_int hs ms h m :
  has_colon hs = false -> has_colon ms = false ->
  py_int hs = Some h -> py_int ms = Some m ->
  0 <= h < 24 -> 0 <= m < 60 ->
  Token.parse_start_time py_int (hs ++ String ":" ms) = Some (h, m).
Proof.
  intros H1 H2 Ph Pm Rh Rm. unfold Token.parse_start_time.
  assert (S : split_colon (hs ++ String ":" ms) = [hs; ms]).
  { apply split_colon_aux_two. exists hs. auto. }
  rewrite S, Ph, Pm.
  replace ((0 <=? h) && (h <? 24) && (0 <=? m) && (m <? 60)) with true;
    [reflexivity|].
  symmetry. rewrite !andb_true_iff, !Z.leb_le, !Z.ltb_lt. lia.
Qed.

Lemma in_date_range_iff day : in_date_range day = true <-> 1 <= day <= MAXORDINAL.
Proof. unfold in_date_range. rewrite andb_true_iff, !Z.leb_le. tauto. Qed.

Lemma estimate_on_calendar_ok day h m position :
  estimate_on_calendar day h m position ->
  in_date_range (estimated_day day h m position) = true.
Proof. intros H. apply in_date_range_iff. exact H. Qed.

Lemma in_date_range_false day :
  in_date_range day = false <-> ~ (1 <= day <= MAXORDINAL).
Proof.
  rewrite <- in_date_range_iff. destruct (in_date_range day); intuition congruence.
Qed.

(** ** Allocation on a slot with and without room *)

Lemma find_slot_after_patient d pd env doctor_id date tm :
  Db.find_slot_by_time (snd (get_or_create_patient d pd env)) doctor_id date tm
  = Db.find_slot_by_time d doctor_id date tm.
Proof.
  unfold Db.find_slot_by_time.
  now rewrite (proj1 (proj2 (get_or_create_patient_frame d pd env))).
Qed.

Lemma get_slot_after_put d s : Db.get_time_slot (Db.put_time_slot d s) (TimeSlot.id s) = Some s.
Proof. unfold Db.get_time_slot, Db.put_time_slot. simpl. apply dict_get_set_same. Qed.

Lemma get_token_after_add d tk : Db.get_token (Db.add_token d tk) (Token.id tk) = Some tk.
Proof. unfold Db.get_token, Db.add_token. simpl. apply dict_get_set_same. Qed.

Lemma get_token_after_add_other d tk k :
  Token.id tk <> k -> Db.get_token (Db.add_token d tk) k = Db.get_token d k.
Proof. intros N. unfold Db.get_token, Db.add_token. simpl. now apply dict_get_set_other. Qed.

(** C6, as stated, fails on a slot with room whose start time is not
    written [hour:minute]: the slot of the scenarios with start time
    ["0900"] and capacity 2.  The WALK_IN request for it raises from
    [calculate_estimated_time]; no token is created, the confirmed list
    stays empty, and the patient of the request has been stored. *)
Lemma allocate_unreadable_start_creates_no_token :
  let slot := TimeSlot.new "SLOT1" "DOC001" "0900" "1000" "2026-01-29" 2 0 in
  let e := mkEngine (Db.add_time_slot (Db.add_doctor Db.empty Scenario.doc) slot)
                    Queue.init Queue.init in
  let out := handle decimal_int e
               (ReqAllocate (Scenario.patient "1") "DOC001" "2026-01-29" "0900"
                            "WALK_IN")
               (Scenario.env 1 "1") in
  0 < TimeSlot.available_count slot
  /\ fst out = Raise BadStartTime
  /\ tokens (db (snd out)) = []
  /\ option_map TimeSlot.tokens (Db.get_time_slot (db (snd out)) "SLOT1") = Some []
  /\ List.length (patients (db (snd out))) = 1%nat.
Proof. vm_compute. repeat split. Qed.

(** C6, amended.  For a valid source, an existing doctor and an existing
    slot whose counter agrees with its confirmed list, with
    [n = len(tokens) + 1].

    If the slot has room ([available_count > 0]):
    - when its start time is [hs:ms] with one colon, [int] reads [hs] as
      the hour [h] and [ms] as the minute [m], these are an hour and a
      minute of the day, and the moment [n - 1] times five minutes after
      today's [h:m] still falls on a day between 0001-01-01 and
      9999-12-31, [allocate_token] returns a Confirmed token numbered [n]
      whose estimated time is the clock time of that moment, stores it,
      and appends its id to the slot's confirmed list;
    - when the start time does not read as an hour and a minute, the call
      raises, and when the moment falls outside those days it raises the
      overflow error; either way the store that comes back is the one
      with the patient of the request, and the queue is unchanged.

    If the slot has no room, [allocate_token] returns a Waitlisted token
    with no number and no estimated time, stores it, leaves the confirmed
    list alone and reports the position the queue manager returned.

    Scenario A: on the 09:00 slot of capacity 2 three WALK_IN requests
    give tokens 1 and 2 Confirmed with numbers 1 and 2 and estimated
    times 09:00 and 09:05, and token 3 Waitlisted at position 1. *)
Theorem allocate_confirms_then_waitlists :
  (forall (py_int : string -> option Z) (qm : QueueManager) (d : DataStore)
          (pd : PatientData) (doctor_id date slot_time source : string) (env : Env)
          (doc : Doctor.t) (slot : TimeSlot.t),
      PriorityManager.validate_source source = true ->
      Db.get_doctor d doctor_id = Some doc ->
      Db.find_slot_by_time d doctor_id date slot_time = Some slot ->
      TimeSlot.allocated_count slot = Z.of_nat (List.length (TimeSlot.tokens slot)) ->
      let out := allocate_token py_int qm d pd doctor_id date slot_time source env in
      let rank := PriorityManager.get_priority_for_source source in
      let n := Z.of_nat (List.length (TimeSlot.tokens slot)) + 1 in
      let offset h m := h * 60 + m + (n - 1) * Config.AVERAGE_CONSULTATION_MINUTES in
      (0 < TimeSlot.available_count slot ->
       (forall hs ms h m,
           TimeSlot.start_time slot = hs ++ String ":" ms ->
           has_colon hs = false -> has_colon ms = false ->
           py_int hs = Some h -> py_int ms = Some m ->
           0 <= h < 24 -> 0 <= m < 60 ->
           1 <= today env + offset h m / 1440 <= MAXORDINAL ->
           exists tk slot',
             fst (fst out) = Ok (tk, MsgConfirmed)
             /\ snd out = qm
             /\ Token.id tk = new_token_id env
             /\ Token.token_number tk = Some n
             /\ Token.estimated_time tk = Some (fmt_hhmm (offset h m mod 1440))
             /\ Token.status tk = CONFIRMED
             /\ Token.priority tk = rank
             /\ Db.get_token (out_db out) (new_token_id env) = Some tk
             /\ Db.get_time_slot (out_db out) (TimeSlot.id slot) = Some slot'
             /\ TimeSlot.tokens slot' = (TimeSlot.tokens slot ++ [new_token_id env])%list
             /\ TimeSlot.allocated_count slot' = n)
       /\ (Token.parse_start_time py_int (TimeSlot.start_time slot) = None ->
           out = (Raise BadStartTime, snd (get_or_create_patient d pd env), qm))
       /\ (forall h m,
              Token.parse_start_time py_int (TimeSlot.start_time slot) = Some (h, m) ->
              ~ (1 <= today env + offset h m / 1440 <= MAXORDINAL) ->
              out = (Raise EstimateOverflow, snd (get_or_create_patient d pd env), qm)))
      /\ (TimeSlot.available_count slot <= 0 ->
          exists tk slot',
            fst (fst out)
            = Ok (tk, MsgWaitlisted
                        (fst (Queue.add_to_waitlist qm (TimeSlot.id slot)
                                (new_token_id env) rank (now env))))
            /\ snd out
               = snd (Queue.add_to_waitlist qm (TimeSlot.id slot)
                        (new_token_id env) rank (now env))
            /\ Token.id tk = new_token_id env
            /\ Token.status tk = WAITLISTED
            /\ Token.token_number tk = None
            /\ Token.estimated_time tk = None
            /\ Token.priority tk = rank
            /\ Db.get_token (out_db out) (new_token_id env) = Some tk
            /\ Db.get_time_slot (out_db out) (TimeSlot.id slot) = Some slot'
            /\ TimeSlot.tokens slot' = TimeSlot.tokens slot
            /\ TimeSlot.allocated_count slot' = TimeSlot.allocated_count slot))
  /\ (let r1 := handle decimal_int (Scenario.start 2)
                  (Scenario.walk_in "1") (Scenario.env 1 "1") in
      let r2 := handle decimal_int (snd r1)
                  (Scenario.walk_in "2") (Scenario.env 2 "2") in
      let r3 := handle decimal_int (snd r2)
                  (Scenario.walk_in "3") (Scenario.env 3 "3") in
      answer Token.status r1 = Some (CONFIRMED, MsgConfirmed)
      /\ answer Token.token_number r1 = Some (Some 1, MsgConfirmed)
      /\ answer Token.estimated_time r1 = Some (Some "09:00", MsgConfirmed)
      /\ answer Token.status r2 = Some (CONFIRMED, MsgConfirmed)
      /\ answer Token.token_number r2 = Some (Some 2, MsgConfirmed)
      /\ answer Token.estimated_time r2 = Some (Some "09:05", MsgConfirmed)
      /\ answer Token.status r3 = Some (WAITLISTED, MsgWaitlisted 1)
      /\ answer Token.token_number r3 = Some (None, MsgWaitlisted 1)
      /\ Queue.get_waitlist_position (allocation_queue (snd r3)) "SLOT1" "TKN3"
         = Some 1
      /\ option_map TimeSlot.tokens (Db.get_time_slot (db (snd r3)) "SLOT1")
         = Some ["TKN1"; "TKN2"]).
Proof.
  split; [|vm_compute; repeat split].
  intros py_int qm d pd doctor_id date slot_time source env doc slot Hv Hd Hf Hc
         out rank n offset.
  assert (Hf1 := find_slot_after_patient d pd env doctor_id date slot_time).
  rewrite Hf in Hf1.
  assert (Hday : forall h m,
             estimated_day (today env) h m (TimeSlot.allocated_count slot + 1)
             = today env + offset h m / 1440).
  { intros h m. unfold estimated_day, estimated_offset, offset, n. now rewrite Hc. }
  assert (Hmin : forall h m,
             estimated_minutes h m (TimeSlot.allocated_count slot + 1)
             = offset h m mod 1440).
  { intros h m. unfold estimated_minutes, estimated_offset, offset, n. now rewrite Hc. }
  subst out. unfold allocate_token. rewrite Hv, Hd. cbn [negb].
  destruct (get_or_create_patient d pd env) as [patient d1]. cbn [snd] in Hf1 |- *.
  rewrite Hf1. fold rank. split.
  - intros Ha.
    assert (Hfull : TimeSlot.is_full slot = false).
    { unfold TimeSlot.is_full, TimeSlot.available_count in *. apply Z.leb_gt. lia. }
    assert (Hlt : (TimeSlot.allocated_count slot <? TimeSlot.max_capacity slot) = true).
    { unfold TimeSlot.available_count in Ha. apply Z.ltb_lt. lia. }
    rewrite Hfull. cbn [negb].
    unfold _create_confirmed_token, Token.calculate_estimated_time.
    split; [|split].
    + intros hs ms h m Hs H1 H2 Ph Pm Rh Rm Hr.
      rewrite Hs, (parse_start_time_fields py_int hs ms H1 H2 Ph Pm Rh Rm).
      rewrite Hday, Hmin, (proj2 (in_date_range_iff _) Hr).
      unfold TimeSlot.add_token. rewrite Hlt. cbn [snd].
      eexists. eexists.
      split; [cbn [fst]; reflexivity|].
      split; [reflexivity|].
      split; [reflexivity|].
      split; [cbn; unfold n; now rewrite Hc|].
      split; [reflexivity|].
      split; [reflexivity|].
      split; [reflexivity|].
      split; [unfold out_db; cbn [fst snd];
              match goal with |- Db.get_token (Db.add_token ?d0 ?t) _ = _ =>
                apply (get_token_after_add d0 t) end|].
      split; [unfold out_db; cbn [fst snd];
              match goal with
              | |- Db.get_time_slot (Db.add_token (Db.put_time_slot ?d0 ?s) _) _ = _ =>
                  apply (get_slot_after_put d0 s)
              end|].
      split; [reflexivity|].
      cbn. unfold n. now rewrite Hc.
    + intros Hp. now rewrite Hp.
    + intros h m Hp Hr. rewrite Hp, Hday.
      now rewrite (proj2 (in_date_range_false _) Hr).
  - intros Ha.
    assert (Hfull : TimeSlot.is_full slot = true).
    { unfold TimeSlot.is_full, TimeSlot.available_count in *. apply Z.leb_le. lia. }
    rewrite Hfull. cbn [negb].
    unfold _create_waitlisted_token.
    match goal with
    | |- context [Queue.add_to_waitlist ?a ?b ?c ?e ?f] =>
        change (Queue.add_to_waitlist a b c e f)
          with (Queue.add_to_waitlist qm (TimeSlot.id slot) (new_token_id env)
                  rank (now env));
        destruct (Queue.add_to_waitlist qm (TimeSlot.id slot) (new_token_id env)
                    rank (now env)) as [pos qm1]
    end.
    unfold TimeSlot.add_to_waitlist.
    destruct (TimeSlot.mem _ (TimeSlot.waitlist slot)); cbn [snd];
      (eexists; eexists;
       split; [cbn [fst]; reflexivity|];
       split; [reflexivity|];
       split; [reflexivity|];
       split; [reflexivity|];
       split; [reflexivity|];
       split; [reflexivity|];
       split; [reflexivity|];
       split; [unfold out_db; cbn [fst snd];
               match goal with |- Db.get_token (Db.add_token ?d0 ?t) _ = _ =>
                 apply (get_token_after_add d0 t) end|];
       split; [unfold out_db; cbn [fst snd];
               match goal with
               | |- Db.get_time_slot (Db.add_token (Db.put_time_slot ?d0 ?s) _) _ = _ =>
                   apply (get_slot_after_put d0 s)
               end|];
       split; reflexivity).
Qed.

Lemma allocate_confirms_then_waitlists_witness :
  let e := Scenario.start 2 in
  let pd := Scenario.patient "1" in
  let env := Scenario.env 1 "1" in
  let out := allocate_token decimal_int (allocation_queue e) (db e) pd
               "DOC001" "2026-01-29" "09:00" "WALK_IN" env in
  exists tk slot',
    fst (fst out) = Ok (tk, MsgConfirmed)
    /\ Token.token_number tk = Some 1
    /\ Token.estimated_time tk = Some "09:00"
    /\ Token.status tk = CONFIRMED
    /\ Db.get_time_slot (out_db out) "SLOT1" = Some slot'
    /\ TimeSlot.tokens slot' = ["TKN1"].
Proof.
  intros e pd env out.
  destruct (proj1 allocate_confirms_then_waitlists decimal_int
              (allocation_queue e) (db e) pd "DOC001" "2026-01-29" "09:00" "WALK_IN"
              env (Doctor.mk "DOC001" "Dr. Rajesh Kumar" "Cardiology" true ["SLOT1"])
              (Scenario.slot 2) eq_refl eq_refl eq_refl eq_refl) as [H _].
  destruct (H ltac:(reflexivity)) as [H0 _].
  assert (R : 1 <= 739645 + (9 * 60 + 0 + (0 + 1 - 1) * 5) / 1440 <= MAXORDINAL)
    by (vm_compute; split; discriminate).
  destruct (H0 "09" "00" 9 0 eq_refl eq_refl eq_refl eq_refl eq_refl
               ltac:(lia) ltac:(lia) R)
    as (tk & slot' & H1 & _ & _ & H2 & H3 & H4 & _ & _ & H5 & H6 & _).
  exists tk, slot'. repeat split; assumption.
Defined.

(** ** Emergency pre-emption *)

Lemma demote_token_confirmed qm d token_id env tk sl :
  Db.get_token d token_id = Some tk ->
  Token.status tk = CONFIRMED ->
  Db.get_time_slot d (Token.slot_id tk) = Some sl ->
  let enq := Queue.add_to_waitlist qm (TimeSlot.id sl) token_id
               (Token.priority tk) (now env) in
  demote_token qm d token_id env
  = (Ok (mkDemoteResult token_id (fst enq)),
     Db.add_token
       (Db.put_time_slot d
          (snd (TimeSlot.add_to_waitlist (snd (TimeSlot.remove_token sl token_id))
                  token_id)))
       (demoted tk env),
     snd enq).
Proof.
  intros G S Gs enq. unfold demote_token. rewrite G, S, Gs. cbn [Status_eqb negb].
  fold enq. destruct enq as [pos qm1]. reflexivity.
Qed.

Lemma get_token_after_patient d pd env k :
  Db.get_token (snd (get_or_create_patient d pd env)) k = Db.get_token d k.
Proof.
  unfold Db.get_token.
  now rewrite (proj2 (proj2 (get_or_create_patient_frame d pd env))).
Qed.

Lemma get_slot_after_patient d pd env k :
  Db.get_time_slot (snd (get_or_create_patient d pd env)) k = Db.get_time_slot d k.
Proof.
  unfold Db.get_time_slot.
  now rewrite (proj1 (proj2 (get_or_create_patient_frame d pd env))).
Qed.

Lemma enqueue_on_fresh_queue slot_id token_id priority t :
  Queue.add_to_waitlist Queue.init slot_id token_id priority t
  = (1, [(slot_id, [mkEntry token_id priority t])]).
Proof.
  unfold Queue.add_to_waitlist, Queue._sort_waitlist, Queue.waitlist_of,
    Queue.set_waitlist, Queue.init, dict_mem.
  repeat (cbn [dict_get dict_set fst snd option_map app sort_entries fold_right
               insert_sorted find_position e_token_id];
          rewrite ?String.eqb_refl).
  reflexivity.
Qed.

(** The demoting branch of [allocate_emergency_token] hands back the
    queue manager it was given: what [demote_token] enqueues goes to the
    queue of the [ReallocationService()] made for that one call. *)
Lemma emergency_demotion_returns_callers_queue
      py_int qm d pd doctor_id date slot_time env tk victim d' qm' :
  allocate_emergency_token py_int qm d pd doctor_id date slot_time env
  = (Ok (tk, MsgEmergencyDemoted victim), d', qm') ->
  qm' = qm.
Proof.
  unfold allocate_emergency_token.
  destruct (get_or_create_patient d pd env) as [patient d1].
  destruct (Db.find_slot_by_time d1 doctor_id date slot_time) as [slot|];
    [|discriminate].
  destruct (negb (TimeSlot.is_full slot)).
  - destruct (_create_confirmed_token _ _ _ _ _ _ _); discriminate.
  - destruct (map (Db.get_token d1) (TimeSlot.tokens slot)) as [|o l];
      [discriminate|].
    destruct (all_some (o :: l)) as [[|first rest]|]; try discriminate.
    destruct (PriorityManager.should_demote _ _).
    + destruct (demote_token Queue.init d1 _ env) as [[[r|e] d2] qm2];
        [|discriminate].
      destruct (_create_confirmed_token _ _ _ _ _ _ _); [|discriminate].
      now intros [= _ _ _ <-].
    + destruct (Queue.add_to_waitlist _ _ _ _ _). discriminate.
Qed.

Lemma first_position_in_range py_int start h m day :
  Token.parse_start_time py_int start = Some (h, m) ->
  1 <= day <= MAXORDINAL ->
  in_date_range (estimated_day day h m 1) = true.
Proof.
  intros Hp Hd. destruct (parse_start_time_range _ _ Hp) as [Rh Rm].
  apply in_date_range_iff.
  unfold estimated_day, estimated_offset, Config.AVERAGE_CONSULTATION_MINUTES.
  rewrite Z.div_small; lia.
Qed.

(** C3 (the code departs from the claim).  Scenario B in general: a slot
    of capacity 1 whose confirmed list is one Confirmed WALK_IN token [w]
    (rank 5), stored under the slot's id, with a start time that reads as
    [h:m], and an emergency request for that slot whose new token id
    differs from [w]'s.  [allocate_emergency_token] demotes [w] and
    confirms the emergency token: [w] is stored Waitlisted with its number
    and estimated time cleared and its rank unchanged, its id is on the
    slot's list of waiting ids, and the emergency token is stored
    Confirmed with rank 1 and number 1 as the slot's one confirmed token.
    But [w] is not enqueued in the waitlist the services keep: the queue
    manager of the calling service comes back as it was, and the entry of
    rank 5 at position 1 is made in the queue manager of the reallocation
    service that the call builds for the demotion and then drops.

    Scenario B through the two services of the routes module: after the
    walk-in and the emergency request both services' queues are empty, so
    the demoted walk-in has no position in either; cancelling the
    emergency token afterwards promotes nobody, the walk-in stays
    Waitlisted and the slot's confirmed list is left empty. *)
Theorem emergency_demotion_is_not_enqueued :
  (forall (py_int : string -> option Z) (qm : QueueManager) (d : DataStore)
         (pd : PatientData) (doctor_id date slot_time : string) (env : Env)
         (slot : TimeSlot.t) (w : Token.t) (h m : Z),
    Db.find_slot_by_time d doctor_id date slot_time = Some slot ->
    Db.get_time_slot d (TimeSlot.id slot) = Some slot ->
    TimeSlot.max_capacity slot = 1 ->
    TimeSlot.allocated_count slot = 1 ->
    TimeSlot.tokens slot = [Token.id w] ->
    Db.get_token d (Token.id w) = Some w ->
    Token.status w = CONFIRMED ->
    Token.source w = "WALK_IN" ->
    Token.priority w = PriorityManager.get_priority_for_source "WALK_IN" ->
    Token.slot_id w = TimeSlot.id slot ->
    new_token_id env <> Token.id w ->
    Token.parse_start_time py_int (TimeSlot.start_time slot) = Some (h, m) ->
    1 <= today env <= MAXORDINAL ->
    let out := allocate_emergency_token py_int qm d pd doctor_id date slot_time env in
    let d1 := snd (get_or_create_patient d pd env) in
    exists etk w' slot' d2,
      fst (fst out) = Ok (etk, MsgEmergencyDemoted (Token.id w))
      (* the walk-in token *)
      /\ Db.get_token (out_db out) (Token.id w) = Some w'
      /\ Token.status w' = WAITLISTED
      /\ Token.token_number w' = None
      /\ Token.estimated_time w' = None
      /\ Token.priority w' = Token.priority w
      /\ Token.priority w = 5
      /\ In (Token.id w) (TimeSlot.waitlist slot')
      (* the queue the caller keeps, and the one the call drops *)
      /\ snd out = qm
      /\ Queue.get_waitlist_position (snd out) (TimeSlot.id slot) (Token.id w)
         = Queue.get_waitlist_position qm (TimeSlot.id slot) (Token.id w)
      /\ demote_token Queue.init d1 (Token.id w) env
         = (Ok (mkDemoteResult (Token.id w) 1), d2,
            [(TimeSlot.id slot,
              [mkEntry (Token.id w) (Token.priority w) (now env)])])
      (* the emergency token *)
      /\ Token.id etk = new_token_id env
      /\ Db.get_token (out_db out) (new_token_id env) = Some etk
      /\ Token.status etk = CONFIRMED
      /\ Token.source etk = "EMERGENCY"
      /\ Token.priority etk = 1
      /\ Token.token_number etk = Some 1
      /\ Token.estimated_time etk = Some (fmt_hhmm ((h * 60 + m) mod 1440))
      (* the slot *)
      /\ Db.get_time_slot (out_db out) (TimeSlot.id slot) = Some slot'
      /\ TimeSlot.tokens slot' = [new_token_id env]
      /\ TimeSlot.allocated_count slot' = 1)
  /\ (let e1 := run decimal_int (Scenario.start 1)
                  [(Scenario.walk_in "1", Scenario.env 1 "1")] in
      let r2 := handle decimal_int e1 (Scenario.emergency "2") (Scenario.env 2 "2") in
      let r3 := handle decimal_int (snd r2) (ReqCancel "TKN2") (Scenario.env 3 "3") in
      answer Token.status r2 = Some (CONFIRMED, MsgEmergencyDemoted "TKN1")
      /\ answer Token.token_number r2 = Some (Some 1, MsgEmergencyDemoted "TKN1")
      /\ option_map Token.status (Db.get_token (db (snd r2)) "TKN1") = Some WAITLISTED
      /\ option_map Token.priority (Db.get_token (db (snd r2)) "TKN1") = Some 5
      /\ option_map TimeSlot.waitlist (Db.get_time_slot (db (snd r2)) "SLOT1")
         = Some ["TKN1"]
      /\ allocation_queue (snd r2) = Queue.init
      /\ reallocation_queue (snd r2) = Queue.init
      /\ Queue.get_waitlist_position (allocation_queue (snd r2)) "SLOT1" "TKN1" = None
      /\ Queue.get_waitlist_position (reallocation_queue (snd r2)) "SLOT1" "TKN1"
         = None
      (* cancelling the emergency token *)
      /\ fst r3 = Ok (RespCancel (mkCancelResult "TKN2" None))
      /\ option_map Token.status (Db.get_token (db (snd r3)) "TKN1") = Some WAITLISTED
      /\ option_map TimeSlot.tokens (Db.get_time_slot (db (snd r3)) "SLOT1") = Some []
      /\ option_map TimeSlot.waitlist (Db.get_time_slot (db (snd r3)) "SLOT1")
         = Some ["TKN1"]).
Proof.
  split; [|vm_compute; repeat split].
  intros py_int qm d pd doctor_id date slot_time env slot w h m
         Hf Hg Hcap Hcnt Htoks Hw Hst Hsrc Hprio Hsid Hnew Hp Hday out d1.
  assert (Hp5 : Token.priority w = 5) by (rewrite Hprio; reflexivity).
  assert (Hf1 : Db.find_slot_by_time d1 doctor_id date slot_time = Some slot)
    by (unfold d1; now rewrite find_slot_after_patient).
  assert (Hg1 : Db.get_time_slot d1 (Token.slot_id w) = Some slot)
    by (unfold d1; now rewrite get_slot_after_patient, Hsid).
  assert (Hw1 : Db.get_token d1 (Token.id w) = Some w)
    by (unfold d1; now rewrite get_token_after_patient).
  pose proof (@demote_token_confirmed Queue.init d1 (Token.id w) env w slot
                Hw1 Hst Hg1) as Hd.
  cbn zeta in Hd. rewrite enqueue_on_fresh_queue in Hd. cbn [fst snd] in Hd.
  assert (Hrm : snd (TimeSlot.remove_token slot (Token.id w))
                = TimeSlot.with_tokens slot [] 0).
  { unfold TimeSlot.remove_token, TimeSlot.mem. rewrite Htoks, Hcnt.
    cbn [existsb TimeSlot.remove_first]. rewrite String.eqb_refl. reflexivity. }
  rewrite Hrm in Hd.
  set (slot2 := snd (TimeSlot.add_to_waitlist (TimeSlot.with_tokens slot [] 0)
                       (Token.id w))) in *.
  assert (Hs2 : TimeSlot.id slot2 = TimeSlot.id slot
                /\ TimeSlot.tokens slot2 = []
                /\ TimeSlot.allocated_count slot2 = 0
                /\ TimeSlot.max_capacity slot2 = 1
                /\ TimeSlot.start_time slot2 = TimeSlot.start_time slot
                /\ In (Token.id w) (TimeSlot.waitlist slot2)).
  { unfold slot2, TimeSlot.add_to_waitlist, TimeSlot.mem.
    destruct (existsb _ _) eqn:M; cbn; repeat split; auto.
    - apply existsb_exists in M. destruct M as (x & Hin & Hx).
      apply String.eqb_eq in Hx. now subst x.
    - apply in_or_app. right. now left. }
  destruct Hs2 as (Hid2 & Htok2 & Hcnt2 & Hcap2 & Hst2 & Hin2).
  set (d2 := Db.add_token (Db.put_time_slot d1 slot2) (demoted w env)) in *.
  assert (Hrr : reread_slot d2 slot = slot2).
  { unfold reread_slot, d2. rewrite <- Hid2.
    change (Db.get_time_slot (Db.add_token (Db.put_time_slot d1 slot2) (demoted w env))
              (TimeSlot.id slot2))
      with (Db.get_time_slot (Db.put_time_slot d1 slot2) (TimeSlot.id slot2)).
    now rewrite get_slot_after_put. }
  subst out. unfold allocate_emergency_token.
  change (get_or_create_patient d pd env)
    with (fst (get_or_create_patient d pd env), snd (get_or_create_patient d pd env))
    || rewrite (surjective_pairing (get_or_create_patient d pd env)).
  fold d1. rewrite Hf1.
  assert (Hfull : TimeSlot.is_full slot = true)
    by (unfold TimeSlot.is_full; rewrite Hcap, Hcnt; reflexivity).
  rewrite Hfull, Htoks. cbn [negb map]. rewrite Hw1.
  cbn [all_some option_map max_by_priority].
  change (PriorityManager.get_priority_for_source "EMERGENCY") with 1.
  unfold PriorityManager.should_demote.
  replace (1 <? Token.priority w) with true by (now rewrite Hp5).
  rewrite Hd, Hrr.
  unfold _create_confirmed_token, Token.calculate_estimated_time.
  rewrite Hst2, Hp, Hcnt2. change (0 + 1) with 1.
  rewrite (first_position_in_range _ _ Hp Hday).
  unfold TimeSlot.add_token. rewrite Hcnt2, Hcap2.
  change (0 <? 1) with true. cbn [snd fst].
  set (etk := Token.add_note _ _ _).
  set (slot3 := TimeSlot.with_tokens slot2 _ _).
  exists etk, (demoted w env), slot3, d2.
  unfold out_db. cbn [fst snd].
  assert (Hid3 : TimeSlot.id slot3 = TimeSlot.id slot) by exact Hid2.
  split; [reflexivity|].
  split.
  { rewrite get_token_after_add_other by exact Hnew.
    change (Db.get_token (Db.put_time_slot d2 slot3) (Token.id w))
      with (Db.get_token d2 (Token.id w)).
    unfold d2. apply (get_token_after_add (Db.put_time_slot d1 slot2) (demoted w env)). }
  split; [reflexivity|]. split; [reflexivity|]. split; [reflexivity|].
  split; [reflexivity|]. split; [exact Hp5|].
  split; [exact Hin2|].
  split; [reflexivity|].
  split; [reflexivity|].
  split; [reflexivity|].
  split; [reflexivity|].
  split; [apply (get_token_after_add (Db.put_time_slot d2 slot3) etk)|].
  split; [reflexivity|]. split; [reflexivity|]. split; [reflexivity|].
  split; [reflexivity|].
  split.
  { cbn. unfold estimated_minutes, estimated_offset. do 2 f_equal. f_equal.
    unfold Config.AVERAGE_CONSULTATION_MINUTES. lia. }
  split.
  { change (Db.get_time_slot (Db.add_token (Db.put_time_slot d2 slot3) etk)
              (TimeSlot.id slot))
      with (Db.get_time_slot (Db.put_time_slot d2 slot3) (TimeSlot.id slot)).
    rewrite <- Hid3. apply get_slot_after_put. }
  split; [cbn; now rewrite Htok2 | reflexivity].
Qed.

Lemma emergency_demotion_is_not_enqueued_witness :
  let e := run decimal_int (Scenario.start 1)
             [(Scenario.walk_in "1", Scenario.env 1 "1")] in
  let out := allocate_emergency_token decimal_int (allocation_queue e) (db e)
               (Scenario.patient "2") "DOC001" "2026-01-29" "09:00"
               (Scenario.env 2 "2") in
  exists etk w' slot',
    fst (fst out) = Ok (etk, MsgEmergencyDemoted "TKN1")
    /\ Db.get_token (out_db out) "TKN1" = Some w'
    /\ Token.status w' = WAITLISTED
    /\ Token.token_number w' = None
    /\ Token.estimated_time w' = None
    /\ Token.status etk = CONFIRMED
    /\ Token.token_number etk = Some 1
    /\ Db.get_time_slot (out_db out) "SLOT1" = Some slot'
    /\ In "TKN1" (TimeSlot.waitlist slot')
    /\ TimeSlot.tokens slot' = ["TKN2"]
    /\ snd out = allocation_queue e
    /\ Queue.get_waitlist_position (snd out) "SLOT1" "TKN1" = None.
Proof.
  intros e out.
  pose (slot := TimeSlot.mk "SLOT1" "DOC001" "09:00" "10:00" "2026-01-29" 1 1
                            ["TKN1"] [] 0).
  pose (w := Token.mk "TKN1" (Some 1) "PAT1" "DOC001" "SLOT1" "WALK_IN" 5 CONFIRMED
                      (Some "09:00") 1 1 [(1, "Token allocated from WALK_IN")]).
  assert (N : new_token_id (Scenario.env 2 "2") <> Token.id w) by discriminate.
  assert (R : 1 <= today (Scenario.env 2 "2") <= MAXORDINAL)
    by (vm_compute; split; discriminate).
  destruct (proj1 emergency_demotion_is_not_enqueued
              decimal_int (allocation_queue e) (db e)
              (Scenario.patient "2") "DOC001" "2026-01-29" "09:00"
              (Scenario.env 2 "2") slot w 9 0
              eq_refl eq_refl eq_refl eq_refl eq_refl eq_refl eq_refl eq_refl
              eq_refl eq_refl N eq_refl R)
    as (etk & w' & slot' & d2 & H1 & H2 & H3 & H4 & H5 & _ & _ & H6 & Q1 & Q2 & _
        & _ & _ & H7 & _ & _ & H8 & _ & H9 & H10 & _).
  exists etk, w', slot'. repeat split; assumption.
Defined.

(** ** The two waitlists of a slot *)

Lemma insert_sorted_perm x l : Permutation (insert_sorted x l) (x :: l).
Proof.
  induction l as [|y l IH]; simpl; [reflexivity|].
  destruct (key_leb x y); [reflexivity|].
  rewrite IH. apply perm_swap.
Qed.

Lemma sort_entries_perm l : Permutation (sort_entries l) l.
Proof.
  induction l as [|x l IH]; simpl; [reflexivity|].
  rewrite insert_sorted_perm. now constructor.
Qed.

Lemma entries_after_remove qm sid tid :
  entries_of (snd (Queue.remove_from_waitlist qm sid tid)) sid
  = filter (fun item => negb (String.eqb (e_token_id item) tid)) (entries_of qm sid).
Proof.
  unfold Queue.remove_from_waitlist, entries_of.
  destruct (Queue.waitlist_of qm sid) as [l|] eqn:G; simpl.
  - now rewrite QueueFacts.waitlist_of_set_same.
  - now rewrite G.
Qed.

Lemma mem_In x l : TimeSlot.mem x l = true <-> In x l.
Proof.
  unfold TimeSlot.mem. rewrite existsb_exists. split.
  - intros (y & Hy & E). apply String.eqb_eq in E. now subst.
  - intros H. exists x. split; [exact H | apply String.eqb_refl].
Qed.

Lemma mem_not_In x l : TimeSlot.mem x l = false <-> ~ In x l.
Proof.
  rewrite <- mem_In. destruct (TimeSlot.mem x l); split; congruence.
Qed.

Lemma remove_first_absent x l : ~ In x l -> TimeSlot.remove_first x l = l.
Proof.
  induction l as [|y l IH]; simpl; intros H; [reflexivity|].
  destruct (String.eqb_spec y x) as [->|N]; [exfalso; auto|].
  f_equal. apply IH. tauto.
Qed.

(** C5, as stated, fails for the slot's own waitlist, which is not in
    priority order.  On the slot of capacity 1, after a first WALK_IN
    request has taken the place, a second WALK_IN request (rank 5) and
    then a PAID_PRIORITY request (rank 2) are waitlisted: the slot's
    waitlist holds them in the order they came, rank 5 before rank 2, and
    the position 1 returned for the PAID_PRIORITY token is not its place
    in that list; it is its place in the queue manager's list. *)
Lemma slot_waitlist_is_in_arrival_order :
  let e := run decimal_int (Scenario.start 1)
             [ (Scenario.walk_in "1", Scenario.env 1 "1");
               (Scenario.walk_in "2", Scenario.env 2 "2") ] in
  let r := handle decimal_int e
             (ReqAllocate (Scenario.patient "3") "DOC001" "2026-01-29" "09:00"
                          "PAID_PRIORITY")
             (Scenario.env 3 "3") in
  answer Token.id r = Some ("TKN3", MsgWaitlisted 1)
  /\ option_map TimeSlot.waitlist (Db.get_time_slot (db (snd r)) "SLOT1")
     = Some ["TKN2"; "TKN3"]
  /\ option_map Token.priority (Db.get_token (db (snd r)) "TKN2") = Some 5
  /\ option_map Token.priority (Db.get_token (db (snd r)) "TKN3") = Some 2
  /\ map e_token_id (entries_of (allocation_queue (snd r)) "SLOT1")
     = ["TKN3"; "TKN2"].
Proof. vm_compute. repeat split. Qed.

(** C5, amended.  The ordered waitlist is the one the [QueueManager]
    keeps for the slot.  Starting from a fresh [QueueManager], after any
    interleaving of [add_to_waitlist] and [remove_from_waitlist] calls
    every slot's list of entries is in ascending [(priority, timestamp)]
    order (every entry is at or below every later one, so a smaller
    priority number comes first and equal priorities go by earlier
    timestamp).  A further [add_to_waitlist] on that manager keeps the
    entries that were waiting and adds the new one, leaves the list
    ordered, leaves the other slots' lists alone, and returns the
    1-indexed position at which the token's entry stands; a further
    [remove_from_waitlist] drops the entries of that token and keeps the
    rest in order.  The [TimeSlot]'s own waitlist carries ids only and is
    kept in order of arrival: [add_to_waitlist] appends an id that is not
    yet there and [remove_from_waitlist] takes out its first
    occurrence. *)
Theorem waitlist_ordered_and_position :
  forall (ops : list QueueOp) (slot_id : string),
    let qm := fold_left apply_queue_op ops Queue.init in
    StronglySorted key_le (entries_of qm slot_id)
    /\ (forall a b, key_le a b <->
          e_priority a < e_priority b
          \/ (e_priority a = e_priority b /\ e_timestamp a <= e_timestamp b))
    /\ (forall token_id priority timestamp,
          let out := Queue.add_to_waitlist qm slot_id token_id priority timestamp in
          exists l,
            Queue.waitlist_of (snd out) slot_id = Some l
            /\ StronglySorted key_le l
            /\ is_position l token_id (fst out)
            /\ Permutation l (mkEntry token_id priority timestamp
                                :: entries_of qm slot_id)
            /\ forall other, other <> slot_id ->
                  entries_of (snd out) other = entries_of qm other)
    /\ (forall token_id,
          let out := Queue.remove_from_waitlist qm slot_id token_id in
          entries_of (snd out) slot_id
          = filter (fun item => negb (String.eqb (e_token_id item) token_id))
                   (entries_of qm slot_id)
          /\ StronglySorted key_le (entries_of (snd out) slot_id))
    /\ (forall (s : TimeSlot.t) (token_id : string),
          TimeSlot.waitlist (snd (TimeSlot.add_to_waitlist s token_id))
          = (if TimeSlot.mem token_id (TimeSlot.waitlist s)
             then TimeSlot.waitlist s
             else TimeSlot.waitlist s ++ [token_id])%list
          /\ TimeSlot.waitlist (snd (TimeSlot.remove_from_waitlist s token_id))
             = TimeSlot.remove_first token_id (TimeSlot.waitlist s)).
Proof.
  intros ops slot_id qm.
  assert (S : all_sorted qm)
    by (apply run_queue_ops_sorted, QueueFacts.init_sorted).
  assert (S1 : StronglySorted key_le (entries_of qm slot_id)).
  { unfold entries_of.
    destruct (Queue.waitlist_of qm slot_id) eqn:G;
      [now apply (S slot_id) | constructor]. }
  split; [exact S1|]. split; [exact key_le_spec|]. split; [|split].
  - intros tid p t out. eexists.
    split; [apply QueueFacts.add_to_waitlist_entries|].
    split; [apply sort_entries_sorted|].
    split; [apply find_position_Some, QueueFacts.add_to_waitlist_position|].
    split.
    + rewrite sort_entries_perm. symmetry. apply Permutation_cons_append.
    + intros other N. unfold entries_of, out.
      rewrite QueueFacts.add_to_waitlist_other by congruence. reflexivity.
  - intros tid out. split; [apply entries_after_remove|].
    unfold out. rewrite entries_after_remove. now apply filter_sorted.
  - intros s tid. split.
    + unfold TimeSlot.add_to_waitlist.
      now destruct (TimeSlot.mem tid (TimeSlot.waitlist s)).
    + unfold TimeSlot.remove_from_waitlist.
      destruct (TimeSlot.mem tid (TimeSlot.waitlist s)) eqn:M; [reflexivity|].
      cbn [snd]. apply mem_not_In in M. now rewrite remove_first_absent.
Qed.

(** * Further properties of the modelled code *)

(** ** The waitlist queue: enqueue, lookup, removal, next *)

Lemma entries_after_enqueue qm sid tid p t :
  entries_of (snd (Queue.add_to_waitlist qm sid tid p t)) sid
  = sort_entries (entries_of qm sid ++ [mkEntry tid p t]).
Proof.
  unfold entries_of at 1. now rewrite QueueFacts.add_to_waitlist_entries.
Qed.

Lemma waitlist_size_entries qm sid :
  Queue.get_waitlist_size qm sid = Z.of_nat (List.length (entries_of qm sid)).
Proof.
  unfold Queue.get_waitlist_size, entries_of.
  now destruct (Queue.waitlist_of qm sid).
Qed.

(** X1.  [add_to_waitlist] adds exactly the new entry: the slot's
    waitlist afterwards is a rearrangement of the old entries plus the
    new one, its size is one more, and every other slot's waitlist is
    what it was. *)
Theorem enqueue_adds_exactly_one :
  forall (qm : QueueManager) (slot_id token_id : string) (priority timestamp : Z),
    let out := Queue.add_to_waitlist qm slot_id token_id priority timestamp in
    Permutation (entries_of (snd out) slot_id)
                (mkEntry token_id priority timestamp :: entries_of qm slot_id)
    /\ Queue.get_waitlist_size (snd out) slot_id
       = Queue.get_waitlist_size qm slot_id + 1
    /\ forall other, slot_id <> other ->
         Queue.waitlist_of (snd out) other = Queue.waitlist_of qm other.
Proof.
  intros qm sid tid p t out.
  assert (P : Permutation (entries_of (snd out) sid)
                          (mkEntry tid p t :: entries_of qm sid)).
  { unfold out. rewrite entries_after_enqueue, sort_entries_perm.
    apply Permutation_sym, Permutation_cons_append. }
  split; [exact P|]. split.
  - rewrite !waitlist_size_entries, (Permutation_length P). simpl List.length. lia.
  - intros other N. now apply QueueFacts.add_to_waitlist_other.
Qed.

(** X2.  The position [add_to_waitlist] returns is the one
    [get_waitlist_position] reports for that token right afterwards. *)
Theorem position_lookup_after_enqueue :
  forall (qm : QueueManager) (slot_id token_id : string) (priority timestamp : Z),
    let out := Queue.add_to_waitlist qm slot_id token_id priority timestamp in
    Queue.get_waitlist_position (snd out) slot_id token_id = Some (fst out)
    /\ 1 <= fst out <= Queue.get_waitlist_size (snd out) slot_id.
Proof.
  intros qm sid tid p t out.
  assert (E : Queue.get_waitlist_position (snd out) sid tid = Some (fst out)).
  { unfold Queue.get_waitlist_position, out.
    rewrite QueueFacts.add_to_waitlist_entries.
    apply QueueFacts.add_to_waitlist_position. }
  split; [exact E|].
  rewrite waitlist_size_entries. unfold out in *. rewrite entries_after_enqueue.
  pose proof (QueueFacts.add_to_waitlist_position qm sid tid p t) as F.
  apply find_position_Some in F.
  destruct F as (b & e & a & -> & _ & _ & ->).
  rewrite length_app. simpl List.length. lia.
Qed.

Lemma insert_sorted_head x l :
  Forall (key_le x) l -> insert_sorted x l = x :: l.
Proof.
  intros H. destruct l as [|y l]; simpl; [reflexivity|].
  inversion H as [|? ? Hy _]; subst. unfold key_le in Hy. now rewrite Hy.
Qed.

Lemma sort_entries_snoc l e :
  StronglySorted key_le l ->
  sort_entries (l ++ [e])
  = (filter (fun x => key_leb x e) l
     ++ e :: filter (fun x => negb (key_leb x e)) l)%list.
Proof.
  induction 1 as [|x l Hl IH Hx]; [reflexivity|].
  change (sort_entries ((x :: l) ++ [e]))
    with (insert_sorted x (sort_entries (l ++ [e]))).
  rewrite IH. cbn [filter]. destruct (key_leb x e) eqn:E; cbn [negb app].
  - apply insert_sorted_head.
    apply Forall_app. split.
    + apply Forall_forall. intros z Hz. apply filter_In in Hz.
      rewrite Forall_forall in Hx. now apply Hx.
    + constructor; [exact E|].
      apply Forall_forall. intros z Hz. apply filter_In in Hz.
      rewrite Forall_forall in Hx. now apply Hx.
  - assert (F : forall z, In z l -> key_leb z e = false).
    { intros z Hz. destruct (key_leb z e) eqn:Z; [|reflexivity].
      rewrite Forall_forall in Hx.
      pose proof (key_le_trans (Hx z Hz) Z) as T.
      unfold key_le in T. congruence. }
    assert (F1 : filter (fun x0 => key_leb x0 e) l = []).
    { clear -F. induction l as [|z l IH]; simpl; [reflexivity|].
      rewrite (F z (or_introl eq_refl)). apply IH. intros; apply F; now right. }
    assert (F2 : filter (fun x0 => negb (key_leb x0 e)) l = l).
    { clear -F. induction l as [|z l IH]; simpl; [reflexivity|].
      rewrite (F z (or_introl eq_refl)). simpl. f_equal.
      apply IH. intros; apply F; now right. }
    rewrite F1, F2. cbn [app insert_sorted]. rewrite E. f_equal.
    now apply insert_sorted_head.
Qed.

Lemma find_position_app_fresh tid l e rest :
  Forall (fun x => e_token_id x <> tid) l ->
  e_token_id e = tid ->
  find_position tid (l ++ e :: rest) = Some (Z.of_nat (List.length l) + 1).
Proof.
  intros H He. induction H as [|y l Hy Hl IH]; cbn [app find_position List.length].
  - rewrite He, String.eqb_refl. reflexivity.
  - destruct (String.eqb_spec (e_token_id y) tid); [contradiction|].
    rewrite IH. cbn [option_map]. f_equal. lia.
Qed.

(** X3.  Where a newcomer lands.  When the slot's waitlist is in key order
    (as it always is, by C5) and does not yet hold the token id, the
    entry is placed behind every entry whose [(priority, timestamp)] is
    at or below its own and ahead of all the others, whose order is kept;
    the position returned is one more than the number of entries at or
    below it.  So a more urgent newcomer overtakes, and among equals the
    earlier arrival stays ahead. *)
Theorem enqueue_lands_behind_earlier_keys :
  forall (qm : QueueManager) (slot_id token_id : string) (priority timestamp : Z),
    StronglySorted key_le (entries_of qm slot_id) ->
    Forall (fun x => e_token_id x <> token_id) (entries_of qm slot_id) ->
    let new := mkEntry token_id priority timestamp in
    let out := Queue.add_to_waitlist qm slot_id token_id priority timestamp in
    let ahead := filter (fun x => key_leb x new) (entries_of qm slot_id) in
    let behind := filter (fun x => negb (key_leb x new)) (entries_of qm slot_id) in
    entries_of (snd out) slot_id = (ahead ++ new :: behind)%list
    /\ fst out = Z.of_nat (List.length ahead) + 1.
Proof.
  intros qm sid tid p t HS HF new out ahead behind.
  assert (E : entries_of (snd out) sid = (ahead ++ new :: behind)%list).
  { unfold out. rewrite entries_after_enqueue. now apply sort_entries_snoc. }
  split; [exact E|].
  pose proof (QueueFacts.add_to_waitlist_position qm sid tid p t) as P.
  fold new in P. rewrite sort_entries_snoc in P by exact HS.
  fold ahead behind in P.
  rewrite find_position_app_fresh in P;
    [injection P as P'; unfold out; symmetry; exact P' | | reflexivity].
  apply Forall_forall. intros z Hz. apply filter_In in Hz.
  rewrite Forall_forall in HF. now apply HF.
Qed.

Lemma enqueue_lands_behind_earlier_keys_witness :
  let qm := fold_left apply_queue_op
              [Enqueue "SLOT1" "TKN1" 5 10; Enqueue "SLOT1" "TKN2" 3 20;
               Enqueue "SLOT1" "TKN3" 5 30] Queue.init in
  let out := Queue.add_to_waitlist qm "SLOT1" "TKN4" 5 20 in
  entries_of (snd out) "SLOT1"
  = [mkEntry "TKN2" 3 20; mkEntry "TKN1" 5 10; mkEntry "TKN4" 5 20;
     mkEntry "TKN3" 5 30]
  /\ fst out = 3.
Proof.
  intros qm out.
  assert (HS : StronglySorted key_le (entries_of qm "SLOT1")).
  { repeat constructor. }
  assert (HF : Forall (fun x => e_token_id x <> "TKN4") (entries_of qm "SLOT1")).
  { repeat constructor; discriminate. }
  exact (@enqueue_lands_behind_earlier_keys qm "SLOT1" "TKN4" 5 20 HS HF).
Defined.

Lemma find_position_filtered tid l :
  find_position tid
    (filter (fun item => negb (String.eqb (e_token_id item) tid)) l) = None.
Proof.
  induction l as [|y l IH]; simpl; [reflexivity|].
  destruct (String.eqb (e_token_id y) tid) eqn:E; simpl; [exact IH|].
  now rewrite E, IH.
Qed.

(** X4.  [remove_from_waitlist] drops every entry of the token and nothing
    else: afterwards the token has no position in the slot, the entries
    of every other token are kept in their order, other slots are
    untouched, and the call answers [False] exactly when the manager has
    never had a waitlist for the slot (then nothing changes at all). *)
Theorem remove_drops_the_token_only :
  forall (qm : QueueManager) (slot_id token_id : string),
    let out := Queue.remove_from_waitlist qm slot_id token_id in
    Queue.get_waitlist_position (snd out) slot_id token_id = None
    /\ entries_of (snd out) slot_id
       = filter (fun item => negb (String.eqb (e_token_id item) token_id))
                (entries_of qm slot_id)
    /\ (forall other, slot_id <> other ->
          Queue.waitlist_of (snd out) other = Queue.waitlist_of qm other)
    /\ (fst out = false <-> Queue.waitlist_of qm slot_id = None)
    /\ (fst out = false -> snd out = qm).
Proof.
  intros qm sid tid out. split; [|split; [|split; [|split]]].
  - unfold out, Queue.get_waitlist_position, Queue.remove_from_waitlist.
    destruct (Queue.waitlist_of qm sid) as [l|] eqn:G; simpl.
    + rewrite QueueFacts.waitlist_of_set_same. apply find_position_filtered.
    + now rewrite G.
  - apply entries_after_remove.
  - intros other N. unfold out, Queue.remove_from_waitlist.
    destruct (Queue.waitlist_of qm sid) as [l|]; simpl; [|reflexivity].
    now apply QueueFacts.waitlist_of_set_other.
  - unfold out, Queue.remove_from_waitlist.
    destruct (Queue.waitlist_of qm sid) as [l|]; simpl; split; congruence.
  - unfold out, Queue.remove_from_waitlist.
    destruct (Queue.waitlist_of qm sid) as [l|]; simpl; [discriminate | reflexivity].
Qed.

Lemma key_le_refl e : key_le e e.
Proof. apply key_le_spec. lia. Qed.

(** X5.  [get_next_from_waitlist] on a manager built from a fresh one by
    any enqueues and removals: it answers [None] exactly when the slot
    has no entries, and otherwise the token of the first entry, whose
    [(priority, timestamp)] is at or below that of every entry waiting
    for the slot. *)
Theorem next_is_the_most_urgent :
  forall (ops : list QueueOp) (slot_id : string),
    let qm := fold_left apply_queue_op ops Queue.init in
    match Queue.get_next_from_waitlist qm slot_id with
    | None => entries_of qm slot_id = [] /\ Queue.get_waitlist_size qm slot_id = 0
    | Some token_id =>
        exists e rest,
          entries_of qm slot_id = e :: rest
          /\ e_token_id e = token_id
          /\ Forall (key_le e) (entries_of qm slot_id)
          /\ Queue.get_waitlist_position qm slot_id token_id = Some 1
    end.
Proof.
  intros ops sid qm.
  assert (S : all_sorted qm) by (apply run_queue_ops_sorted, QueueFacts.init_sorted).
  unfold Queue.get_next_from_waitlist, entries_of, Queue.get_waitlist_size,
    Queue.get_waitlist_position.
  destruct (Queue.waitlist_of qm sid) as [[|e rest]|] eqn:G; auto.
  exists e, rest. split; [reflexivity|]. split; [reflexivity|]. split.
  - specialize (S sid _ G). inversion S; subst.
    constructor; [apply key_le_refl | assumption].
  - simpl. now rewrite String.eqb_refl.
Qed.

Lemma enqueue_adds_exactly_one_witness :
  let qm := fold_left apply_queue_op
              [Enqueue "SLOT1" "TKN1" 5 10; Enqueue "SLOT2" "TKN2" 3 20] Queue.init in
  let out := Queue.add_to_waitlist qm "SLOT1" "TKN3" 1 30 in
  Queue.get_waitlist_size (snd out) "SLOT1" = 2
  /\ Queue.waitlist_of (snd out) "SLOT2" = Some [mkEntry "TKN2" 3 20].
Proof.
  intros qm out.
  destruct (enqueue_adds_exactly_one qm "SLOT1" "TKN3" 1 30) as (_ & H & F).
  split; [exact H|].
  apply (F "SLOT2"). discriminate.
Defined.

Lemma remove_drops_the_token_only_witness :
  let qm := fold_left apply_queue_op
              [Enqueue "SLOT1" "TKN1" 5 10; Enqueue "SLOT2" "TKN2" 3 20] Queue.init in
  Queue.waitlist_of (snd (Queue.remove_from_waitlist qm "SLOT1" "TKN1")) "SLOT2"
  = Some [mkEntry "TKN2" 3 20]
  /\ snd (Queue.remove_from_waitlist qm "SLOT9" "TKN1") = qm.
Proof.
  intros qm.
  destruct (remove_drops_the_token_only qm "SLOT1" "TKN1") as (_ & _ & F & _).
  destruct (remove_drops_the_token_only qm "SLOT9" "TKN1") as (_ & _ & _ & _ & G).
  split; [apply (F "SLOT2"); discriminate | apply G; reflexivity].
Defined.

(** ** Priority ranks *)

(** X6.  The two configuration tables agree and EMERGENCY is on top: a
    source is accepted by [validate_source] exactly when
    [get_priority_for_source] gives it a configured rank (1..5) rather
    than the fall-back 999; a token of any source other than EMERGENCY,
    known or not, is one [should_demote] lets an emergency displace, and
    a token of rank EMERGENCY is displaced by no source at all. *)
Theorem emergency_outranks_every_source :
  forall source : string,
    let rank := PriorityManager.get_priority_for_source in
    (PriorityManager.validate_source source = true <-> 1 <= rank source <= 5)
    /\ (PriorityManager.validate_source source = false <-> rank source = 999)
    /\ PriorityManager.should_demote (rank source) (rank "EMERGENCY")
       = negb (String.eqb source "EMERGENCY")
    /\ PriorityManager.should_demote (rank "EMERGENCY") (rank source) = false.
Proof.
  intros source rank.
  assert (A : PriorityManager.validate_source source = true -> 1 <= rank source <= 5)
    by apply validate_source_true_priority.
  assert (B : PriorityManager.validate_source source = false -> rank source = 999)
    by apply validate_source_false_priority.
  assert (E : rank "EMERGENCY" = 1) by reflexivity.
  split; [|split; [|split]].
  - split; [exact A|]. intros H.
    destruct (PriorityManager.validate_source source); [reflexivity|].
    specialize (B eq_refl). lia.
  - split; [exact B|]. intros H.
    destruct (PriorityManager.validate_source source); [|reflexivity].
    specialize (A eq_refl). lia.
  - rewrite E. unfold PriorityManager.should_demote.
    destruct (String.eqb_spec source "EMERGENCY") as [->|N]; [reflexivity|].
    simpl negb. apply Z.ltb_lt.
    destruct (PriorityManager.validate_source source) eqn:V.
    + specialize (A eq_refl).
      assert (rank source <> 1); [|lia].
      revert V N. unfold rank, PriorityManager.validate_source,
        PriorityManager.get_priority_for_source, Config.TOKEN_SOURCES,
        Config.PRIORITY_LEVELS.
      cbn [existsb dict_get fst].
      rewrite !(String.eqb_sym _ source).
      destruct (String.eqb_spec source "EMERGENCY"); [contradiction|].
      destruct (String.eqb source "PAID_PRIORITY"); [lia|].
      destruct (String.eqb source "FOLLOW_UP"); [lia|].
      destruct (String.eqb source "ONLINE_BOOKING"); [lia|].
      destruct (String.eqb source "WALK_IN"); [lia|]. discriminate.
    + rewrite (B eq_refl). lia.
  - rewrite E. unfold PriorityManager.should_demote. apply Z.ltb_ge.
    destruct (PriorityManager.validate_source source) eqn:V.
    + specialize (A eq_refl). lia.
    + rewrite (B eq_refl). lia.
Qed.

(** X7.  [compare_priority] is a three-way comparison: its value is -1, 0
    or 1, it is 0 exactly on equal ranks, swapping the arguments negates
    it, and [should_demote existing new] holds exactly when
    [compare_priority new existing] is -1. *)
Theorem compare_priority_three_way :
  forall p q : Z,
    let c := PriorityManager.compare_priority in
    (c p q = -1 <-> p < q)
    /\ (c p q = 0 <-> p = q)
    /\ (c p q = 1 <-> q < p)
    /\ c q p = - c p q
    /\ (PriorityManager.should_demote p q = true <-> c q p = -1).
Proof.
  intros p q c. unfold c, PriorityManager.compare_priority,
    PriorityManager.should_demote.
  destruct (Z.ltb_spec p q), (Z.ltb_spec q p); repeat split; intros; lia.
Qed.


Lemma insert_tuple_of_entry x l :
  PriorityManager.insert_tuple (tuple_of_entry x) (map tuple_of_entry l)
  = map tuple_of_entry (insert_sorted x l).
Proof.
  induction l as [|y l IH]; [reflexivity|].
  cbn [map PriorityManager.insert_tuple insert_sorted].
  change (PriorityManager.tuple_leb (tuple_of_entry x) (tuple_of_entry y))
    with (key_leb x y).
  destruct (key_leb x y); [reflexivity|]. cbn [map]. now rewrite IH.
Qed.

Lemma insert_tuple_perm x l :
  Permutation (PriorityManager.insert_tuple x l) (x :: l).
Proof.
  induction l as [|y l IH]; simpl; [reflexivity|].
  destruct (PriorityManager.tuple_leb x y); [reflexivity|].
  rewrite IH. apply perm_swap.
Qed.


Lemma tuple_leb_le a b : PriorityManager.tuple_leb a b = true <-> tuple_le a b.
Proof.
  unfold PriorityManager.tuple_leb, tuple_le.
  rewrite orb_true_iff, andb_true_iff, Z.ltb_lt, Z.eqb_eq, Z.leb_le. tauto.
Qed.

Lemma insert_tuple_sorted x l :
  StronglySorted tuple_le l ->
  StronglySorted tuple_le (PriorityManager.insert_tuple x l).
Proof.
  induction 1 as [|y l Hl IH Hy]; simpl.
  - constructor; constructor.
  - destruct (PriorityManager.tuple_leb x y) eqn:E.
    + apply tuple_leb_le in E.
      constructor; [now constructor|].
      constructor; [exact E|].
      eapply Forall_impl; [|exact Hy]. intros z Hz.
      unfold tuple_le in *. lia.
    + assert (N : ~ tuple_le x y) by (rewrite <- tuple_leb_le; congruence).
      constructor; [exact IH|].
      apply Forall_forall. intros z Hz.
      apply (Permutation_in _ (insert_tuple_perm x l)) in Hz.
      destruct Hz as [<-|Hz]; [unfold tuple_le in *; lia|].
      rewrite Forall_forall in Hy. now apply Hy.
Qed.

(** X8.  [sort_by_priority] returns its input rearranged into ascending
    [(priority, timestamp)] order, and it orders the tuples of a list of
    queue entries exactly as the queue manager's own sort orders the
    entries. *)
Theorem sort_by_priority_sorts :
  forall tokens : list (string * Z * Z),
    Permutation (PriorityManager.sort_by_priority tokens) tokens
    /\ StronglySorted tuple_le (PriorityManager.sort_by_priority tokens)
    /\ forall entries : list Entry,
        PriorityManager.sort_by_priority (map tuple_of_entry entries)
        = map tuple_of_entry (sort_entries entries).
Proof.
  intros tokens. split; [|split].
  - induction tokens as [|x l IH]; simpl; [reflexivity|].
    rewrite insert_tuple_perm. now constructor.
  - induction tokens as [|x l IH]; simpl; [constructor|].
    now apply insert_tuple_sorted.
  - induction entries as [|x l IH]; [reflexivity|].
    cbn [map PriorityManager.sort_by_priority fold_right sort_entries].
    unfold PriorityManager.sort_by_priority in IH. rewrite IH.
    apply insert_tuple_of_entry.
Qed.

(** ** Slots: adding and removing ids *)

Lemma remove_first_snoc x l : ~ In x l -> TimeSlot.remove_first x (l ++ [x]) = l.
Proof.
  induction l as [|y l IH]; simpl; intros H.
  - now rewrite String.eqb_refl.
  - destruct (String.eqb_spec y x) as [->|N]; [exfalso; auto|].
    f_equal. apply IH. tauto.
Qed.

Lemma remove_first_incl x l z : In z (TimeSlot.remove_first x l) -> In z l.
Proof.
  induction l as [|y l IH]; simpl; [tauto|].
  destruct (String.eqb y x); simpl; [tauto|]. intros [H|H]; auto.
Qed.

Lemma remove_first_NoDup x l :
  NoDup l -> NoDup (TimeSlot.remove_first x l) /\ ~ In x (TimeSlot.remove_first x l).
Proof.
  induction 1 as [|y l Hy Hl IH]; simpl; [split; [constructor | tauto]|].
  destruct (String.eqb_spec y x) as [->|N].
  - split; assumption.
  - destruct IH as [IH1 IH2]. split.
    + constructor; [|exact IH1]. intros H. apply Hy. eapply remove_first_incl, H.
    + simpl. intros [E|H]; [congruence | now apply IH2].
Qed.

(** X9.  Round trips on a slot.  Confirming an id that is not yet on the
    confirmed list of a slot with room, and then removing it, gives back
    the slot as it was (list and counter); the same for the waitlist.
    A full slot refuses the id and stays as it is, and removing an id
    that is not listed changes nothing. *)
Theorem slot_add_then_remove_restores :
  forall (s : TimeSlot.t) (token_id : string),
    (TimeSlot.is_full s = false -> ~ In token_id (TimeSlot.tokens s) ->
       fst (TimeSlot.add_token s token_id) = true
       /\ TimeSlot.remove_token (snd (TimeSlot.add_token s token_id)) token_id
          = (true, s))
    /\ (~ In token_id (TimeSlot.waitlist s) ->
          fst (TimeSlot.add_to_waitlist s token_id) = true
          /\ TimeSlot.remove_from_waitlist
               (snd (TimeSlot.add_to_waitlist s token_id)) token_id
             = (true, s))
    /\ (TimeSlot.is_full s = true -> TimeSlot.add_token s token_id = (false, s))
    /\ (~ In token_id (TimeSlot.tokens s) ->
          TimeSlot.remove_token s token_id = (false, s))
    /\ (~ In token_id (TimeSlot.waitlist s) ->
          TimeSlot.remove_from_waitlist s token_id = (false, s)).
Proof.
  intros s tid. split; [|split; [|split; [|split]]].
  - intros Hf Hn. unfold TimeSlot.is_full in Hf. apply Z.leb_gt in Hf.
    unfold TimeSlot.add_token.
    destruct (Z.ltb_spec (TimeSlot.allocated_count s) (TimeSlot.max_capacity s));
      [|lia].
    split; [reflexivity|]. cbn [snd]. unfold TimeSlot.remove_token.
    cbn [TimeSlot.tokens TimeSlot.with_tokens].
    assert (M : TimeSlot.mem tid (TimeSlot.tokens s ++ [tid]) = true)
      by (apply mem_In, in_or_app; right; now left).
    rewrite M, (@remove_first_snoc tid _ Hn). destruct s as [i d st en dt cap cnt toks wl cr]; cbn.
    replace (cnt + 1 - 1) with cnt by lia. reflexivity.
  - intros Hn. unfold TimeSlot.add_to_waitlist.
    rewrite (proj2 (mem_not_In _ _) Hn). split; [reflexivity|]. cbn [snd].
    unfold TimeSlot.remove_from_waitlist.
    cbn [TimeSlot.waitlist TimeSlot.with_waitlist].
    assert (M : TimeSlot.mem tid (TimeSlot.waitlist s ++ [tid]) = true)
      by (apply mem_In, in_or_app; right; now left).
    rewrite M, (@remove_first_snoc tid _ Hn). now destruct s.
  - intros Hf. unfold TimeSlot.is_full in Hf. apply Z.leb_le in Hf.
    unfold TimeSlot.add_token.
    destruct (Z.ltb_spec (TimeSlot.allocated_count s) (TimeSlot.max_capacity s));
      [lia | reflexivity].
  - intros Hn. unfold TimeSlot.remove_token.
    now rewrite (proj2 (mem_not_In _ _) Hn).
  - intros Hn. unfold TimeSlot.remove_from_waitlist.
    now rewrite (proj2 (mem_not_In _ _) Hn).
Qed.

Lemma slot_add_then_remove_restores_witness :
  let s := Scenario.slot 2 in
  TimeSlot.remove_token (snd (TimeSlot.add_token s "TKN1")) "TKN1" = (true, s)
  /\ TimeSlot.remove_from_waitlist (snd (TimeSlot.add_to_waitlist s "TKN1")) "TKN1"
     = (true, s)
  /\ TimeSlot.add_token (Scenario.slot 0) "TKN1" = (false, Scenario.slot 0)
  /\ TimeSlot.remove_token s "TKN1" = (false, s).
Proof.
  intros s.
  destruct (slot_add_then_remove_restores s "TKN1") as (A & B & _ & D & _).
  destruct (slot_add_then_remove_restores (Scenario.slot 0) "TKN1")
    as (_ & _ & C & _).
  assert (N : ~ In "TKN1" (@nil string)) by (intros []).
  split; [apply A; [reflexivity | exact N]|].
  split; [apply B; exact N|].
  split; [apply C; reflexivity | apply D; exact N].
Defined.

(** ** Invariants of a slot that every request keeps *)

Create HintDb slotinv discriminated.

Section SlotInvariant.
Variable py_int : string -> option Z.
Variable P : TimeSlot.t -> Prop.
Hypothesis P_add_token : forall s t, P s -> P (snd (TimeSlot.add_token s t)).
Hypothesis P_remove_token : forall s t, P s -> P (snd (TimeSlot.remove_token s t)).
Hypothesis P_add_to_waitlist :
  forall s t, P s -> P (snd (TimeSlot.add_to_waitlist s t)).
Hypothesis P_remove_from_waitlist :
  forall s t, P s -> P (snd (TimeSlot.remove_from_waitlist s t)).

Let inv (d : DataStore) : Prop := Forall P (time_slots d).

Lemma inv_put d s : inv d -> P s -> inv (Db.put_time_slot d s).
Proof. intros Hd Hs. unfold inv, Db.put_time_slot. simpl. now apply dict_set_Forall. Qed.

Lemma inv_get d sid s : inv d -> Db.get_time_slot d sid = Some s -> P s.
Proof.
  intros Hd G. apply dict_get_In in G.
  unfold inv in Hd. rewrite Forall_forall in Hd. now apply Hd.
Qed.

Lemma inv_find d doctor_id date tm s :
  inv d -> Db.find_slot_by_time d doctor_id date tm = Some s -> P s.
Proof.
  intros Hd G. apply find_some in G. destruct G as [G _].
  unfold inv in Hd. rewrite Forall_forall in Hd. now apply Hd.
Qed.

Lemma inv_patient d pd env : inv d -> inv (snd (get_or_create_patient d pd env)).
Proof.
  intros H. unfold inv.
  now rewrite (proj1 (proj2 (get_or_create_patient_frame d pd env))).
Qed.

Lemma inv_add_token d tk : inv d -> inv (Db.add_token d tk).
Proof. intros H. exact H. Qed.

Local Hint Resolve inv_put inv_get inv_find inv_patient inv_add_token
  P_add_token P_remove_token P_add_to_waitlist P_remove_from_waitlist : slotinv.

Lemma inv_promote qm d slot_id env :
  inv d -> inv (out_db (_promote_from_waitlist py_int qm d slot_id env)).
Proof.
  intros H. unfold _promote_from_waitlist, out_db.
  destruct (Queue.get_next_from_waitlist qm slot_id) as [next|]; [|exact H].
  destruct (String.eqb next ""); [exact H|].
  destruct (Db.get_token d next) as [tk|]; [|exact H].
  destruct (Db.get_time_slot d slot_id) as [sl|] eqn:G; [|exact H].
  destruct (Token.calculate_estimated_time _ _ _ _ _); simpl; eauto 8 with slotinv.
Qed.

Lemma inv_cancel qm d token_id env :
  inv d -> inv (out_db (cancel_token py_int qm d token_id env)).
Proof.
  intros H. unfold cancel_token, out_db.
  destruct (Db.get_token d token_id) as [tk|]; [|exact H].
  destruct (Token.status tk) eqn:S; try exact H;
    (destruct (Db.get_time_slot d (Token.slot_id tk)) as [sl|] eqn:G; [|exact H]).
  - match goal with
    | |- context [_promote_from_waitlist py_int ?q ?d0 ?s ?e] =>
        assert (Q : inv (out_db (_promote_from_waitlist py_int q d0 s e)))
          by (apply inv_promote; eauto 8 with slotinv);
        destruct (_promote_from_waitlist py_int q d0 s e) as [[[r|er] d3] q3]
    end; exact Q.
  - simpl. eauto 8 with slotinv.
Qed.

Lemma inv_no_show qm d token_id env :
  inv d -> inv (out_db (mark_no_show py_int qm d token_id env)).
Proof.
  intros H. unfold mark_no_show, out_db.
  destruct (Db.get_token d token_id) as [tk|]; [|exact H].
  destruct (negb (Status_eqb (Token.status tk) CONFIRMED)); [exact H|].
  destruct (Db.get_time_slot d (Token.slot_id tk)) as [sl|] eqn:G; [|exact H].
  match goal with
  | |- context [_promote_from_waitlist py_int ?q ?d0 ?s ?e] =>
      assert (Q : inv (out_db (_promote_from_waitlist py_int q d0 s e)))
        by (apply inv_promote; eauto 8 with slotinv);
      destruct (_promote_from_waitlist py_int q d0 s e) as [[[r|er] d3] q3]
  end; exact Q.
Qed.

Lemma inv_demote qm d token_id env :
  inv d -> inv (out_db (demote_token qm d token_id env)).
Proof.
  intros H. unfold demote_token, out_db.
  destruct (Db.get_token d token_id) as [tk|]; [|exact H].
  destruct (negb (Status_eqb (Token.status tk) CONFIRMED)); [exact H|].
  destruct (Db.get_time_slot d (Token.slot_id tk)) as [sl|] eqn:G; [|exact H].
  destruct (Queue.add_to_waitlist _ _ _ _ _). simpl. eauto 8 with slotinv.
Qed.

Lemma inv_complete qm d token_id env :
  inv d -> inv (out_db (complete_token qm d token_id env)).
Proof.
  intros H. unfold complete_token, out_db.
  destruct (Db.get_token d token_id) as [tk|]; [|exact H].
  destruct (negb (Status_eqb (Token.status tk) CONFIRMED)); exact H.
Qed.

Lemma inv_allocate qm d pd doctor_id date tm source env :
  inv d ->
  inv (out_db (allocate_token py_int qm d pd doctor_id date tm source env)).
Proof.
  intros H. unfold allocate_token, out_db.
  destruct (negb (PriorityManager.validate_source source)); [exact H|].
  destruct (Db.get_doctor d doctor_id); [|exact H].
  pose proof (@inv_patient d pd env H) as H1.
  destruct (get_or_create_patient d pd env) as [patient d1]. simpl in H1.
  destruct (Db.find_slot_by_time d1 doctor_id date tm) as [sl|] eqn:F; [|exact H1].
  destruct (negb (TimeSlot.is_full sl)).
  - destruct (_create_confirmed_token _ _ _ _ _ _ _); simpl; eauto 8 with slotinv.
  - destruct (Queue.add_to_waitlist _ _ _ _ _). simpl. eauto 8 with slotinv.
Qed.

Lemma inv_reread d sl : inv d -> P sl -> P (reread_slot d sl).
Proof.
  intros H Hs. unfold reread_slot.
  destruct (Db.get_time_slot d (TimeSlot.id sl)) eqn:G; eauto with slotinv.
Qed.

Lemma inv_emergency qm d pd doctor_id date tm env :
  inv d ->
  inv (out_db (allocate_emergency_token py_int qm d pd doctor_id date tm env)).
Proof.
  intros H. unfold allocate_emergency_token, out_db.
  pose proof (@inv_patient d pd env H) as H1.
  destruct (get_or_create_patient d pd env) as [patient d1]. simpl in H1.
  destruct (Db.find_slot_by_time d1 doctor_id date tm) as [sl|] eqn:F; [|exact H1].
  assert (Hs : P sl) by eauto with slotinv.
  destruct (negb (TimeSlot.is_full sl)).
  - destruct (_create_confirmed_token _ _ _ _ _ _ _); simpl; eauto 8 with slotinv.
  - destruct (map (Db.get_token d1) (TimeSlot.tokens sl)) as [|o l]; [exact H1|].
    destruct (all_some (o :: l)) as [[|first rest]|]; try exact H1.
    destruct (PriorityManager.should_demote _ _).
    + match goal with
      | |- context [demote_token ?q ?d0 ?t ?e] =>
          pose proof (@inv_demote q d0 t e H1) as Q;
          destruct (demote_token q d0 t e) as [[[r|er] d2] q2]
      end; unfold out_db in Q; simpl in Q; [|exact Q].
      pose proof (@inv_reread _ _ Q Hs) as Hr.
      destruct (_create_confirmed_token _ _ _ _ _ _ _); simpl; eauto 8 with slotinv.
    + destruct (Queue.add_to_waitlist _ _ _ _ _). simpl. eauto 8 with slotinv.
Qed.

Lemma inv_handle e req env :
  inv (db e) -> inv (db (snd (handle py_int e req env))).
Proof.
  intros H.
  destruct req as [pd doc date tm src | pd doc date tm | tid | tid | tid | tid | sid];
    simpl; unfold on_allocation, on_reallocation.
  - pose proof (@inv_allocate (allocation_queue e) (db e) pd doc date tm src env H) as Q.
    destruct (allocate_token _ _ _ _ _ _ _ _ _) as [[r d'] q']. exact Q.
  - pose proof (@inv_emergency (allocation_queue e) (db e) pd doc date tm env H) as Q.
    destruct (allocate_emergency_token _ _ _ _ _ _ _ _) as [[r d'] q']. exact Q.
  - pose proof (@inv_cancel (reallocation_queue e) (db e) tid env H) as Q.
    destruct (cancel_token _ _ _ _ _) as [[r d'] q']. exact Q.
  - pose proof (@inv_no_show (reallocation_queue e) (db e) tid env H) as Q.
    destruct (mark_no_show _ _ _ _ _) as [[r d'] q']. exact Q.
  - pose proof (@inv_complete (reallocation_queue e) (db e) tid env H) as Q.
    destruct (complete_token _ _ _ _) as [[r d'] q']. exact Q.
  - pose proof (@inv_demote (reallocation_queue e) (db e) tid env H) as Q.
    destruct (demote_token _ _ _ _) as [[r d'] q']. exact Q.
  - pose proof (@inv_promote (reallocation_queue e) (db e) sid env H) as Q.
    destruct (_promote_from_waitlist _ _ _ _ _) as [[r d'] q']. exact Q.
Qed.

Lemma slot_invariant_run reqs e :
  Forall P (time_slots (db e)) -> Forall P (time_slots (db (run py_int e reqs))).
Proof.
  revert e. induction reqs as [|[req env] reqs IH]; simpl; intros e H; [exact H|].
  apply IH. apply inv_handle. exact H.
Qed.
End SlotInvariant.

(** X10.  No id is listed twice on a slot's waitlist.  [add_to_waitlist]
    keeps a duplicate-free waitlist duplicate-free, and
    [remove_from_waitlist] does too and leaves the id off the list; so
    from a store whose slot waitlists are duplicate-free (every new slot
    starts with an empty one), after any sequence of requests every
    slot's waitlist is still duplicate-free. *)
Theorem slot_waitlist_never_repeats :
  (forall s token_id,
      NoDup (TimeSlot.waitlist s) ->
      NoDup (TimeSlot.waitlist (snd (TimeSlot.add_to_waitlist s token_id)))
      /\ In token_id (TimeSlot.waitlist (snd (TimeSlot.add_to_waitlist s token_id)))
      /\ NoDup (TimeSlot.waitlist (snd (TimeSlot.remove_from_waitlist s token_id)))
      /\ ~ In token_id
           (TimeSlot.waitlist (snd (TimeSlot.remove_from_waitlist s token_id))))
  /\ forall (py_int : string -> option Z) (e : Engine) (reqs : list (Request * Env)),
      Forall (fun s => NoDup (TimeSlot.waitlist s)) (time_slots (db e)) ->
      Forall (fun s => NoDup (TimeSlot.waitlist s))
             (time_slots (db (run py_int e reqs))).
Proof.
  assert (A : forall s t, NoDup (TimeSlot.waitlist s) ->
                NoDup (TimeSlot.waitlist (snd (TimeSlot.add_to_waitlist s t)))
                /\ In t (TimeSlot.waitlist (snd (TimeSlot.add_to_waitlist s t)))).
  { intros s t H. unfold TimeSlot.add_to_waitlist.
    destruct (TimeSlot.mem t (TimeSlot.waitlist s)) eqn:M; cbn.
    - split; [exact H | now apply mem_In].
    - apply mem_not_In in M. split.
      + apply NoDup_app; [exact H | repeat constructor; intros [] |].
        intros x Hx [<-|[]]. contradiction.
      + apply in_or_app. right. now left. }
  assert (B : forall s t, NoDup (TimeSlot.waitlist s) ->
                NoDup (TimeSlot.waitlist (snd (TimeSlot.remove_from_waitlist s t)))
                /\ ~ In t (TimeSlot.waitlist
                             (snd (TimeSlot.remove_from_waitlist s t)))).
  { intros s t H. unfold TimeSlot.remove_from_waitlist.
    destruct (TimeSlot.mem t (TimeSlot.waitlist s)) eqn:M; cbn.
    - now apply remove_first_NoDup.
    - apply mem_not_In in M. split; assumption. }
  split.
  - intros s t H. destruct (A s t H), (B s t H). auto.
  - intros py_int e reqs H.
    apply slot_invariant_run; try exact H.
    + intros s t Hs. unfold TimeSlot.add_token.
      destruct (_ <? _); exact Hs.
    + intros s t Hs. unfold TimeSlot.remove_token.
      destruct (TimeSlot.mem _ _); exact Hs.
    + intros s t Hs. now apply A.
    + intros s t Hs. now apply B.
Qed.

Lemma slot_waitlist_never_repeats_witness :
  let e := Scenario.start 1 in
  let reqs := [ (Scenario.walk_in "1", Scenario.env 1 "1");
                (Scenario.walk_in "2", Scenario.env 2 "2");
                (Scenario.emergency "3", Scenario.env 3 "3");
                (ReqCancel "TKN2", Scenario.env 4 "4") ] in
  Forall (fun s => NoDup (TimeSlot.waitlist s))
         (time_slots (db (run decimal_int e reqs))).
Proof.
  intros e reqs.
  apply (proj2 slot_waitlist_never_repeats decimal_int e reqs).
  repeat constructor.
Defined.

(** ** Start times and estimated times *)

(** X11.  What [calculate_estimated_time] accepts as a start time.  The
    parse succeeds with [(h, m)] exactly when the string is [hs:ms] with
    one colon only, [int] reads [hs] as [h] and [ms] as [m], and
    [0 <= h < 24], [0 <= m < 60]; in every other case (no colon, a
    second colon as in ["09:00:00"], a field [int] rejects, an hour or
    minute out of range) it raises. *)
Theorem start_time_parses_iff :
  forall (py_int : string -> option Z) (start : string) (h m : Z),
    Token.parse_start_time py_int start = Some (h, m) <->
    exists hs ms,
      start = hs ++ String ":" ms
      /\ has_colon hs = false /\ has_colon ms = false
      /\ py_int hs = Some h /\ py_int ms = Some m
      /\ 0 <= h < 24 /\ 0 <= m < 60.
Proof.
  intros py_int start h m. unfold Token.parse_start_time. split.
  - destruct (split_colon start) as [|a [|b [|c l]]] eqn:S; try discriminate.
    apply split_colon_aux_two in S. destruct S as (s1 & -> & -> & H1 & Hb).
    destruct (py_int ("" ++ s1)) as [hour|] eqn:Ph; [|discriminate].
    destruct (py_int b) as [minute|] eqn:Pm; [|discriminate].
    destruct ((0 <=? hour) && (hour <? 24) && (0 <=? minute) && (minute <? 60))
      eqn:R; [|discriminate].
    intros [= <- <-]. exists s1, b.
    rewrite !andb_true_iff, !Z.leb_le, !Z.ltb_lt in R. simpl in Ph.
    repeat split; try assumption; lia.
  - intros (hs & ms & -> & H1 & H2 & Ph & Pm & Rh & Rm).
    assert (S : split_colon (hs ++ String ":" ms) = [hs; ms]).
    { apply split_colon_aux_two. exists hs. auto. }
    rewrite S, Ph, Pm.
    replace ((0 <=? h) && (h <? 24) && (0 <=? m) && (m <? 60)) with true;
      [reflexivity|].
    symmetry. rewrite !andb_true_iff, !Z.leb_le, !Z.ltb_lt. lia.
Qed.


Lemma clock_round_trip_all : forallb clock_round_trip_ok (seq 0 1440) = true.
Proof. vm_compute. reflexivity. Qed.

(** X12.  The estimated time is a clock time, while the date lasts.  Let
    the slot's start time parse as [h:m] and let today be day [day].
    [calculate_estimated_time] succeeds exactly when the moment
    [5 * (position - 1)] minutes after today's [h:m] falls on a day
    between 0001-01-01 and 9999-12-31, and raises the overflow error
    otherwise; for a clock that reads a real date that is the case for
    every position from 1 up to the one that ends year 9999.  On success
    the estimate is the [HH:MM] text of that moment's time of day:
    position 1 gets the slot start itself, each next position is five
    minutes later (wrapping at midnight), the text is five characters
    long, and read back the way the code reads a start time
    ([split(':')], [int], range check) it gives that hour and minute
    again. *)
Theorem estimated_time_is_a_clock_time :
  forall (py_int : string -> option Z) (day : Z) (tk : Token.t) (start : string)
         (h m position : Z),
    Token.parse_start_time py_int start = Some (h, m) ->
    let mins := estimated_minutes h m position in
    let target :=
      day + (h * 60 + m + (position - 1) * Config.AVERAGE_CONSULTATION_MINUTES)
            / 1440 in
    (1 <= target <= MAXORDINAL ->
     Token.calculate_estimated_time py_int day tk start position
     = Ok (Token.set_estimated_time tk (Some (fmt_hhmm mins))))
    /\ (~ (1 <= target <= MAXORDINAL) ->
        Token.calculate_estimated_time py_int day tk start position
        = Raise EstimateOverflow)
    /\ (1 <= day <= MAXORDINAL -> 1 <= position ->
        (position - 1) * Config.AVERAGE_CONSULTATION_MINUTES
        <= (MAXORDINAL - day) * 1440 ->
        1 <= target <= MAXORDINAL)
    /\ 0 <= mins < 1440
    /\ estimated_minutes h m 1 = h * 60 + m
    /\ estimated_minutes h m (position + 1) = (mins + 5) mod 1440
    /\ String.length (fmt_hhmm mins) = 5%nat
    /\ Token.parse_start_time decimal_int (fmt_hhmm mins)
       = Some (mins / 60, mins mod 60).
Proof.
  intros py_int day tk start h m position Hp mins target.
  assert (R : 0 <= mins < 1440) by (apply Z.mod_pos_bound; lia).
  destruct (parse_start_time_range _ _ Hp) as [Rh Rm].
  split.
  { intros T. unfold Token.calculate_estimated_time. rewrite Hp.
    change (estimated_day day h m position) with target.
    now rewrite (proj2 (in_date_range_iff _) T). }
  split.
  { intros T. unfold Token.calculate_estimated_time. rewrite Hp.
    change (estimated_day day h m position) with target.
    now rewrite (proj2 (in_date_range_false _) T). }
  split.
  { intros Hd Hpos Hb. unfold target, Config.AVERAGE_CONSULTATION_MINUTES in *.
    assert (0 <= (h * 60 + m + (position - 1) * 5) / 1440)
      by (apply Z.div_pos; lia).
    assert ((h * 60 + m + (position - 1) * 5) / 1440 <= MAXORDINAL - day).
    { apply Z.lt_succ_r. apply Z.div_lt_upper_bound; lia. }
    lia. }
  split; [exact R|].
  split.
  { unfold estimated_minutes, estimated_offset,
      Config.AVERAGE_CONSULTATION_MINUTES. rewrite Z.mod_small; lia. }
  split.
  { unfold mins, estimated_minutes, estimated_offset,
      Config.AVERAGE_CONSULTATION_MINUTES.
    rewrite Z.add_mod_idemp_l by lia. f_equal. lia. }
  pose proof clock_round_trip_all as A.
  rewrite forallb_forall in A.
  specialize (A (Z.to_nat mins)).
  assert (I : In (Z.to_nat mins) (seq 0 1440)) by (apply in_seq; lia).
  specialize (A I). unfold clock_round_trip_ok in A.
  rewrite Z2Nat.id in A by lia.
  destruct (Token.parse_start_time decimal_int (fmt_hhmm mins)) as [[hh mm]|];
    [|discriminate].
  rewrite !andb_true_iff, !Z.eqb_eq, Nat.eqb_eq in A.
  destruct A as [[-> ->] L]. auto.
Qed.

Lemma estimated_time_is_a_clock_time_witness :
  let tk := Token.new "TKN1" "PAT1" "DOC001" "SLOT1" "WALK_IN" 5 CONFIRMED (Some 13) 0 in
  Token.calculate_estimated_time decimal_int 739645 tk "23:30" 13
  = Ok (Token.set_estimated_time tk (Some "00:30"))
  /\ Token.parse_start_time decimal_int "00:30" = Some (0, 30)
  /\ Token.calculate_estimated_time decimal_int 739645 tk "09:00" 800000000
     = Ok (Token.set_estimated_time tk (Some "03:35"))
  /\ Token.calculate_estimated_time decimal_int 739645 tk "09:00" 900000000
     = Raise EstimateOverflow.
Proof.
  intros tk.
  destruct (@estimated_time_is_a_clock_time decimal_int 739645 tk "23:30" 23 30 13
              eq_refl) as (H1 & _ & _ & _ & _ & _ & _ & H2).
  destruct (@estimated_time_is_a_clock_time decimal_int 739645 tk "09:00" 9 0
              800000000 eq_refl) as (H3 & _).
  destruct (@estimated_time_is_a_clock_time decimal_int 739645 tk "09:00" 9 0
              900000000 eq_refl) as (_ & H4 & _).
  split; [apply H1; vm_compute; split; discriminate|].
  split; [exact H2|].
  split; [apply H3; vm_compute; split; discriminate|].
  apply H4. vm_compute. intros [_ C]. apply C. reflexivity.
Defined.

(** X13.  A slot whose start time does not parse takes no confirmed
    token: with a valid source, a known doctor and room in the slot, both
    [allocate_token] and [allocate_emergency_token] raise from
    [calculate_estimated_time]; the store that comes back differs from
    the old one by the patient of the request at most, with slots and
    tokens as they were, and the queue manager is unchanged. *)
Theorem unreadable_start_time_blocks_confirmation :
  forall (py_int : string -> option Z) (qm : QueueManager) (d : DataStore)
         (pd : PatientData) (doctor_id date slot_time source : string) (env : Env)
         (doc : Doctor.t) (slot : TimeSlot.t),
    PriorityManager.validate_source source = true ->
    Db.get_doctor d doctor_id = Some doc ->
    Db.find_slot_by_time d doctor_id date slot_time = Some slot ->
    TimeSlot.is_full slot = false ->
    Token.parse_start_time py_int (TimeSlot.start_time slot) = None ->
    let d1 := snd (get_or_create_patient d pd env) in
    allocate_token py_int qm d pd doctor_id date slot_time source env
    = (Raise BadStartTime, d1, qm)
    /\ allocate_emergency_token py_int qm d pd doctor_id date slot_time env
       = (Raise BadStartTime, d1, qm)
    /\ time_slots d1 = time_slots d
    /\ tokens d1 = tokens d
    /\ doctors d1 = doctors d.
Proof.
  intros py_int qm d pd doctor_id date slot_time source env doc slot
         Hv Hd Hf Hfull Hp d1.
  assert (Hf1 : Db.find_slot_by_time d1 doctor_id date slot_time = Some slot)
    by (unfold d1; now rewrite find_slot_after_patient).
  destruct (get_or_create_patient_frame d pd env) as (F1 & F2 & F3).
  fold d1 in F1, F2, F3.
  split; [|split; [|auto]].
  - unfold allocate_token. rewrite Hv, Hd. cbn [negb].
    rewrite (surjective_pairing (get_or_create_patient d pd env)). fold d1.
    rewrite Hf1, Hfull. cbn [negb].
    unfold _create_confirmed_token, Token.calculate_estimated_time.
    now rewrite Hp.
  - unfold allocate_emergency_token.
    rewrite (surjective_pairing (get_or_create_patient d pd env)). fold d1.
    rewrite Hf1, Hfull. cbn [negb].
    unfold _create_confirmed_token, Token.calculate_estimated_time.
    now rewrite Hp.
Qed.

Lemma unreadable_start_time_blocks_confirmation_witness :
  let d := Db.add_time_slot (Db.add_doctor Db.empty Scenario.doc)
             (TimeSlot.new "SLOT7" "DOC001" "09:00:00" "10:00:00" "2026-01-29" 5 0) in
  let pd := Scenario.patient "1" in
  let env := Scenario.env 1 "1" in
  allocate_token decimal_int Queue.init d pd "DOC001" "2026-01-29" "09:00:00"
    "WALK_IN" env
  = (Raise BadStartTime, snd (get_or_create_patient d pd env), Queue.init)
  /\ tokens (snd (get_or_create_patient d pd env)) = [].
Proof.
  intros d pd env.
  destruct (@unreadable_start_time_blocks_confirmation decimal_int Queue.init d pd
              "DOC001" "2026-01-29" "09:00:00" "WALK_IN" env
              (Doctor.mk "DOC001" "Dr. Rajesh Kumar" "Cardiology" true ["SLOT7"])
              (TimeSlot.new "SLOT7" "DOC001" "09:00:00" "10:00:00" "2026-01-29" 5 0)
              eq_refl eq_refl eq_refl eq_refl eq_refl)
    as (H1 & _ & _ & H2 & _).
  split; [exact H1 | exact H2].
Defined.

(** ** The data store *)

Section DictMore.
Variable A : Type.
Variable key : A -> string.

Lemma dict_set_keys v d :
  map key (dict_set key v d)
  = if dict_mem key (key v) d then map key d else (map key d ++ [key v])%list.
Proof.
  unfold dict_mem. induction d as [|x d IH]; simpl; [reflexivity|].
  destruct (String.eqb_spec (key x) (key v)) as [E|N]; simpl.
  - now rewrite E.
  - rewrite IH. now destruct (dict_get key (key v) d).
Qed.

Lemma dict_get_None_keys k d : dict_get key k d = None -> ~ In k (map key d).
Proof.
  induction d as [|x d IH]; simpl; [tauto|].
  destruct (String.eqb_spec (key x) k); [discriminate|].
  intros H [E|I]; [contradiction | now apply IH].
Qed.

Lemma dict_set_NoDup v d :
  NoDup (map key d) -> NoDup (map key (dict_set key v d)).
Proof.
  intros H. rewrite dict_set_keys. unfold dict_mem.
  destruct (dict_get key (key v) d) eqn:G; [exact H|].
  apply NoDup_app; [exact H | repeat constructor; intros [] |].
  intros x Hx [<-|[]]. revert Hx. now apply dict_get_None_keys.
Qed.

Lemma dict_set_length v d :
  List.length (dict_set key v d)
  = if dict_mem key (key v) d then List.length d else S (List.length d).
Proof.
  rewrite <- (length_map key), dict_set_keys.
  destruct (dict_mem key (key v) d); rewrite ?length_app, length_map;
    simpl; lia.
Qed.

Lemma dict_set_keeps v d k :
  dict_get key k d <> None -> dict_get key k (dict_set key v d) <> None.
Proof.
  intros H. destruct (String.eqb_spec (key v) k) as [<-|N].
  - rewrite dict_get_set_same. discriminate.
  - now rewrite dict_get_set_other.
Qed.
End DictMore.

(** X14.  Looking a patient up by phone creates at most one record.  The
    patient [get_or_create_patient] returns carries the requested phone;
    a second request with the same phone, whatever its other data and
    clock, returns that same patient and leaves the store as the first
    request left it; and a request for a phone already on record does
    not change the store at all. *)
Theorem patient_lookup_creates_once :
  forall (d : DataStore) (pd pd' : PatientData) (env env' : Env),
    pd_phone pd' = pd_phone pd ->
    let first := get_or_create_patient d pd env in
    get_or_create_patient (snd first) pd' env' = first
    /\ Patient.phone (fst first) = pd_phone pd
    /\ Db.find_patient_by_phone (snd first) (pd_phone pd) = Some (fst first)
    /\ (List.length (patients (snd first)) <= S (List.length (patients d)))%nat
    /\ (forall p, Db.find_patient_by_phone d (pd_phone pd) = Some p ->
          first = (p, d)).
Proof.
  intros d pd pd' env env' E first.
  destruct (Db.find_patient_by_phone d (pd_phone pd)) as [p|] eqn:F.
  - assert (H : first = (p, d))
      by (unfold first, get_or_create_patient; now rewrite F).
    rewrite H. cbn [fst snd].
    split; [unfold get_or_create_patient; now rewrite E, F|].
    split.
    { unfold Db.find_patient_by_phone in F. apply find_some in F.
      destruct F as [_ F]. now apply String.eqb_eq in F. }
    split; [exact F|]. split; [lia|]. now intros p0 [= <-].
  - destruct (get_or_create_patient_new d pd env F) as (H1 & H2 & _).
    fold first in H1. rewrite H1. cbn [fst snd].
    split; [unfold get_or_create_patient; now rewrite E, H2|].
    split; [reflexivity|]. split; [exact H2|].
    split; [|discriminate].
    unfold Db.add_patient. cbn [patients]. rewrite dict_set_length.
    destruct (dict_mem _ _ _); lia.
Qed.

Lemma patient_lookup_creates_once_witness :
  let d := db (Scenario.start 1) in
  let first := get_or_create_patient d (Scenario.patient "1") (Scenario.env 1 "1") in
  get_or_create_patient (snd first)
    (mkPatientData "Another name" "987651" 41 "F") (Scenario.env 2 "2")
  = first.
Proof.
  intros d first.
  apply (@patient_lookup_creates_once d (Scenario.patient "1")
           (mkPatientData "Another name" "987651" 41 "F")
           (Scenario.env 1 "1") (Scenario.env 2 "2") eq_refl).
Defined.

Lemma count_status_split (l : list Token.t) :
  (List.length (filter (fun t => Status_eqb (Token.status t) CONFIRMED) l)
   + List.length (filter (fun t => Status_eqb (Token.status t) WAITLISTED) l)
   + List.length (filter (fun t => Status_eqb (Token.status t) CANCELLED) l)
   + List.length (filter (fun t => Status_eqb (Token.status t) NO_SHOW) l)
   + List.length (filter (fun t => Status_eqb (Token.status t) COMPLETED) l)
   = List.length l)%nat.
Proof.
  induction l as [|t l IH]; simpl; [reflexivity|].
  destruct (Token.status t); simpl; lia.
Qed.

(** X15.  What [get_stats] counts.  Its four status counts and the
    number of Completed tokens, which it does not report, add up to
    [total_tokens]; so the reported counts sum to the total exactly when
    no token is Completed.  After [clear_all] every figure is 0. *)
Theorem stats_leave_out_completed :
  forall d : DataStore,
    let st := Db.get_stats d in
    Db.confirmed_tokens st + Db.waitlisted_tokens st + Db.cancelled_tokens st
    + Db.no_show_tokens st + Db.count_status d COMPLETED
    = Db.total_tokens st
    /\ (Db.confirmed_tokens st + Db.waitlisted_tokens st + Db.cancelled_tokens st
        + Db.no_show_tokens st = Db.total_tokens st
        <-> Db.count_status d COMPLETED = 0)
    /\ Db.get_stats (Db.clear_all d) = Db.mkStats 0 0 0 0 0 0 0 0.
Proof.
  intros d st.
  assert (H : Db.confirmed_tokens st + Db.waitlisted_tokens st
              + Db.cancelled_tokens st + Db.no_show_tokens st
              + Db.count_status d COMPLETED = Db.total_tokens st).
  { unfold st, Db.get_stats, Db.count_status. cbn.
    pose proof (count_status_split (tokens d)). lia. }
  split; [exact H|]. split; [lia | reflexivity].
Qed.

(** X16.  The slot an allocation resolves is one of those listed for the
    doctor on that date.  If [find_slot_by_time] finds a slot it has the
    requested doctor, date and start time and appears in
    [get_slots_by_doctor] for that doctor and date; if it finds none and
    the date is not empty, no slot listed for that doctor and date starts
    at that time.  With an empty date string [get_slots_by_doctor] does
    not filter by date at all. *)
Theorem resolved_slot_is_listed :
  forall (d : DataStore) (doctor_id date start_time : string),
    (forall s, Db.find_slot_by_time d doctor_id date start_time = Some s ->
       In s (Db.get_slots_by_doctor d doctor_id (Some date))
       /\ TimeSlot.doctor_id s = doctor_id
       /\ TimeSlot.date s = date
       /\ TimeSlot.start_time s = start_time)
    /\ (Db.find_slot_by_time d doctor_id date start_time = None ->
        date <> "" ->
        forall s, In s (Db.get_slots_by_doctor d doctor_id (Some date)) ->
                  TimeSlot.start_time s <> start_time)
    /\ Db.get_slots_by_doctor d doctor_id (Some "")
       = Db.get_slots_by_doctor d doctor_id None.
Proof.
  intros d doc date tm. split; [|split; [|reflexivity]].
  - intros s F. unfold Db.find_slot_by_time in F. apply find_some in F.
    destruct F as [I F]. rewrite !andb_true_iff, !String.eqb_eq in F.
    destruct F as [[F1 F2] F3]. split; [|auto].
    unfold Db.get_slots_by_doctor.
    assert (I1 : In s (filter (fun slot => String.eqb (TimeSlot.doctor_id slot) doc)
                              (time_slots d)))
      by (apply filter_In; split; [exact I | now apply String.eqb_eq]).
    destruct (String.eqb date ""); [exact I1|].
    apply filter_In. split; [exact I1 | now apply String.eqb_eq].
  - intros F Hd s I E. unfold Db.get_slots_by_doctor in I.
    destruct (String.eqb_spec date ""); [contradiction|].
    apply filter_In in I. destruct I as [I D]. apply filter_In in I.
    destruct I as [I C].
    unfold Db.find_slot_by_time in F.
    pose proof (find_none _ _ F s I) as N. cbn beta in N.
    rewrite C, D in N. cbn [andb] in N.
    apply String.eqb_neq in N. contradiction.
Qed.

Lemma resolved_slot_is_listed_witness :
  let d := db (Scenario.start 3) in
  In (Scenario.slot 3) (Db.get_slots_by_doctor d "DOC001" (Some "2026-01-29"))
  /\ forall s, In s (Db.get_slots_by_doctor d "DOC001" (Some "2026-01-29")) ->
               TimeSlot.start_time s <> "17:00".
Proof.
  intros d.
  destruct (resolved_slot_is_listed d "DOC001" "2026-01-29" "09:00") as (A & _).
  destruct (resolved_slot_is_listed d "DOC001" "2026-01-29" "17:00") as (_ & B & _).
  split; [apply (A (Scenario.slot 3) eq_refl)|].
  apply B; [reflexivity | discriminate].
Defined.

(** ** What every request keeps in the store *)

Create HintDb storeinv discriminated.

Section StoreInvariant.
Variable py_int : string -> option Z.
Variable Q : DataStore -> Prop.
Hypothesis Q_add_token : forall d tk, Q d -> Q (Db.add_token d tk).
Hypothesis Q_put_time_slot : forall d s, Q d -> Q (Db.put_time_slot d s).
Hypothesis Q_add_patient : forall d p, Q d -> Q (Db.add_patient d p).

Lemma Q_patient d pd env : Q d -> Q (snd (get_or_create_patient d pd env)).
Proof.
  intros H. unfold get_or_create_patient.
  destruct (Db.find_patient_by_phone d (pd_phone pd)); cbn [snd]; auto.
Qed.

Local Hint Resolve Q_add_token Q_put_time_slot Q_add_patient Q_patient : storeinv.

Lemma Q_promote qm d slot_id env :
  Q d -> Q (out_db (_promote_from_waitlist py_int qm d slot_id env)).
Proof.
  intros H. unfold _promote_from_waitlist, out_db.
  destruct (Queue.get_next_from_waitlist qm slot_id) as [next|]; [|exact H].
  destruct (String.eqb next ""); [exact H|].
  destruct (Db.get_token d next) as [tk|]; [|exact H].
  destruct (Db.get_time_slot d slot_id) as [sl|]; [|exact H].
  destruct (Token.calculate_estimated_time _ _ _ _ _); simpl; auto with storeinv.
Qed.

Lemma Q_cancel qm d token_id env :
  Q d -> Q (out_db (cancel_token py_int qm d token_id env)).
Proof.
  intros H. unfold cancel_token, out_db.
  destruct (Db.get_token d token_id) as [tk|]; [|exact H].
  destruct (Token.status tk) eqn:S; try exact H;
    (destruct (Db.get_time_slot d (Token.slot_id tk)) as [sl|]; [|exact H]).
  - match goal with
    | |- context [_promote_from_waitlist py_int ?q ?d0 ?s ?e] =>
        assert (R : Q (out_db (_promote_from_waitlist py_int q d0 s e)))
          by (apply Q_promote; auto with storeinv);
        destruct (_promote_from_waitlist py_int q d0 s e) as [[[r|er] d3] q3]
    end; exact R.
  - simpl. auto with storeinv.
Qed.

Lemma Q_no_show qm d token_id env :
  Q d -> Q (out_db (mark_no_show py_int qm d token_id env)).
Proof.
  intros H. unfold mark_no_show, out_db.
  destruct (Db.get_token d token_id) as [tk|]; [|exact H].
  destruct (negb (Status_eqb (Token.status tk) CONFIRMED)); [exact H|].
  destruct (Db.get_time_slot d (Token.slot_id tk)) as [sl|]; [|exact H].
  match goal with
  | |- context [_promote_from_waitlist py_int ?q ?d0 ?s ?e] =>
      assert (R : Q (out_db (_promote_from_waitlist py_int q d0 s e)))
        by (apply Q_promote; auto with storeinv);
      destruct (_promote_from_waitlist py_int q d0 s e) as [[[r|er] d3] q3]
  end; exact R.
Qed.

Lemma Q_demote qm d token_id env :
  Q d -> Q (out_db (demote_token qm d token_id env)).
Proof.
  intros H. unfold demote_token, out_db.
  destruct (Db.get_token d token_id) as [tk|]; [|exact H].
  destruct (negb (Status_eqb (Token.status tk) CONFIRMED)); [exact H|].
  destruct (Db.get_time_slot d (Token.slot_id tk)) as [sl|]; [|exact H].
  destruct (Queue.add_to_waitlist _ _ _ _ _). simpl. auto with storeinv.
Qed.

Lemma Q_complete qm d token_id env :
  Q d -> Q (out_db (complete_token qm d token_id env)).
Proof.
  intros H. unfold complete_token, out_db.
  destruct (Db.get_token d token_id) as [tk|]; [|exact H].
  destruct (negb (Status_eqb (Token.status tk) CONFIRMED)); simpl;
    auto with storeinv.
Qed.

Lemma Q_allocate qm d pd doctor_id date tm source env :
  Q d -> Q (out_db (allocate_token py_int qm d pd doctor_id date tm source env)).
Proof.
  intros H. unfold allocate_token, out_db.
  destruct (negb (PriorityManager.validate_source source)); [exact H|].
  destruct (Db.get_doctor d doctor_id); [|exact H].
  pose proof (@Q_patient d pd env H) as H1.
  destruct (get_or_create_patient d pd env) as [patient d1]. simpl in H1.
  destruct (Db.find_slot_by_time d1 doctor_id date tm) as [sl|]; [|exact H1].
  destruct (negb (TimeSlot.is_full sl)).
  - destruct (_create_confirmed_token _ _ _ _ _ _ _); simpl; auto with storeinv.
  - destruct (Queue.add_to_waitlist _ _ _ _ _). simpl. auto with storeinv.
Qed.

Lemma Q_emergency qm d pd doctor_id date tm env :
  Q d -> Q (out_db (allocate_emergency_token py_int qm d pd doctor_id date tm env)).
Proof.
  intros H. unfold allocate_emergency_token, out_db.
  pose proof (@Q_patient d pd env H) as H1.
  destruct (get_or_create_patient d pd env) as [patient d1]. simpl in H1.
  destruct (Db.find_slot_by_time d1 doctor_id date tm) as [sl|]; [|exact H1].
  destruct (negb (TimeSlot.is_full sl)).
  - destruct (_create_confirmed_token _ _ _ _ _ _ _); simpl; auto with storeinv.
  - destruct (map (Db.get_token d1) (TimeSlot.tokens sl)) as [|o l]; [exact H1|].
    destruct (all_some (o :: l)) as [[|first rest]|]; try exact H1.
    destruct (PriorityManager.should_demote _ _).
    + match goal with
      | |- context [demote_token ?q ?d0 ?t ?e] =>
          pose proof (@Q_demote q d0 t e H1) as R;
          destruct (demote_token q d0 t e) as [[[r|er] d2] q2]
      end; unfold out_db in R; simpl in R; [|exact R].
      destruct (_create_confirmed_token _ _ _ _ _ _ _); simpl; auto with storeinv.
    + destruct (Queue.add_to_waitlist _ _ _ _ _). simpl. auto with storeinv.
Qed.

Lemma Q_handle e req env : Q (db e) -> Q (db (snd (handle py_int e req env))).
Proof.
  intros H.
  destruct req as [pd doc date tm src | pd doc date tm | tid | tid | tid | tid | sid];
    simpl; unfold on_allocation, on_reallocation.
  - pose proof (@Q_allocate (allocation_queue e) (db e) pd doc date tm src env H) as R.
    destruct (allocate_token _ _ _ _ _ _ _ _ _) as [[r d'] q']. exact R.
  - pose proof (@Q_emergency (allocation_queue e) (db e) pd doc date tm env H) as R.
    destruct (allocate_emergency_token _ _ _ _ _ _ _ _) as [[r d'] q']. exact R.
  - pose proof (@Q_cancel (reallocation_queue e) (db e) tid env H) as R.
    destruct (cancel_token _ _ _ _ _) as [[r d'] q']. exact R.
  - pose proof (@Q_no_show (reallocation_queue e) (db e) tid env H) as R.
    destruct (mark_no_show _ _ _ _ _) as [[r d'] q']. exact R.
  - pose proof (@Q_complete (reallocation_queue e) (db e) tid env H) as R.
    destruct (complete_token _ _ _ _) as [[r d'] q']. exact R.
  - pose proof (@Q_demote (reallocation_queue e) (db e) tid env H) as R.
    destruct (demote_token _ _ _ _) as [[r d'] q']. exact R.
  - pose proof (@Q_promote (reallocation_queue e) (db e) sid env H) as R.
    destruct (_promote_from_waitlist _ _ _ _ _) as [[r d'] q']. exact R.
Qed.

Lemma store_invariant_run reqs e : Q (db e) -> Q (db (run py_int e reqs)).
Proof.
  revert e. induction reqs as [|[req env] reqs IH]; simpl; intros e H; [exact H|].
  apply IH. apply Q_handle. exact H.
Qed.
End StoreInvariant.

(** X17.  Requests only add and rewrite records.  After any sequence of
    requests the doctors are exactly as before; every token, patient and
    slot id that was in the store is still there (nothing is deleted);
    the number of tokens has not gone down; and if each dictionary had
    one record per id, it still has. *)
Theorem requests_never_delete_records :
  forall (py_int : string -> option Z) (e : Engine) (reqs : list (Request * Env)),
    let d := db e in
    let d' := db (run py_int e reqs) in
    doctors d' = doctors d
    /\ (forall k, Db.get_token d k <> None -> Db.get_token d' k <> None)
    /\ (forall k, Db.get_patient d k <> None -> Db.get_patient d' k <> None)
    /\ (forall k, Db.get_time_slot d k <> None -> Db.get_time_slot d' k <> None)
    /\ (List.length (tokens d) <= List.length (tokens d'))%nat
    /\ (unique_ids d -> unique_ids d').
Proof.
  intros py_int e reqs d d'. unfold d, d'.
  split; [|split; [|split; [|split; [|split]]]].
  - apply (store_invariant_run py_int (fun x => doctors x = doctors (db e)));
      auto.
  - intros k H.
    apply (store_invariant_run py_int (fun x => Db.get_token x k <> None)); auto.
    intros x tk Hx. unfold Db.get_token, Db.add_token. cbn [tokens].
    now apply dict_set_keeps.
  - intros k H.
    apply (store_invariant_run py_int (fun x => Db.get_patient x k <> None)); auto.
    intros x p Hx. unfold Db.get_patient, Db.add_patient. cbn [patients].
    now apply dict_set_keeps.
  - intros k H.
    apply (store_invariant_run py_int (fun x => Db.get_time_slot x k <> None)); auto.
    intros x s Hx. unfold Db.get_time_slot, Db.put_time_slot. cbn [time_slots].
    now apply dict_set_keeps.
  - apply (store_invariant_run py_int
             (fun x => (List.length (tokens (db e)) <= List.length (tokens x))%nat));
      auto.
    intros x tk Hx. unfold Db.add_token. cbn [tokens]. rewrite dict_set_length.
    destruct (dict_mem _ _ _); lia.
  - apply (store_invariant_run py_int unique_ids).
    + intros x tk (A & B & C & D). repeat split; try assumption.
      unfold Db.add_token. cbn [tokens]. now apply dict_set_NoDup.
    + intros x s (A & B & C & D). repeat split; try assumption.
      unfold Db.put_time_slot. cbn [time_slots]. now apply dict_set_NoDup.
    + intros x p (A & B & C & D). repeat split; try assumption.
      unfold Db.add_patient. cbn [patients]. now apply dict_set_NoDup.
Qed.

Lemma requests_never_delete_records_witness :
  let e := Scenario.start 1 in
  let reqs := [ (Scenario.walk_in "1", Scenario.env 1 "1");
                (Scenario.walk_in "2", Scenario.env 2 "2");
                (ReqCancel "TKN1", Scenario.env 3 "3") ] in
  unique_ids (db (run decimal_int e reqs))
  /\ Db.get_time_slot (db (run decimal_int e reqs)) "SLOT1" <> None.
Proof.
  intros e reqs.
  destruct (requests_never_delete_records decimal_int e reqs)
    as (_ & _ & _ & S & _ & U).
  split.
  - apply U. repeat split; repeat constructor; simpl; tauto.
  - apply S. discriminate.
Defined.

Lemma slot_methods_keep_static s t :
  slot_static (snd (TimeSlot.add_token s t)) = slot_static s
  /\ slot_static (snd (TimeSlot.remove_token s t)) = slot_static s
  /\ slot_static (snd (TimeSlot.add_to_waitlist s t)) = slot_static s
  /\ slot_static (snd (TimeSlot.remove_from_waitlist s t)) = slot_static s.
Proof.
  unfold TimeSlot.add_token, TimeSlot.remove_token, TimeSlot.add_to_waitlist,
    TimeSlot.remove_from_waitlist.
  destruct (_ <? _), (TimeSlot.mem t (TimeSlot.tokens s)),
    (TimeSlot.mem t (TimeSlot.waitlist s)); repeat split.
Qed.

Lemma dict_get_of_In A (key : A -> string) (d : list A) x :
  NoDup (map key d) -> In x d -> dict_get key (key x) d = Some x.
Proof.
  induction d as [|y d IH]; simpl; [tauto|].
  intros N [->|I].
  - now rewrite String.eqb_refl.
  - inversion N as [|? ? Hy Hd]; subst.
    destruct (String.eqb_spec (key y) (key x)) as [E|_]; [|now apply IH].
    exfalso. apply Hy. rewrite E. now apply in_map.
Qed.

(** X18.  A slot's identity and capacity never change.  For a store with
    one slot per id, after any sequence of requests the slot stored
    under an id is still there and has the id, doctor, start and end
    time, date, capacity and creation time it had. *)
Theorem slot_settings_never_change :
  forall (py_int : string -> option Z) (e : Engine) (reqs : list (Request * Env))
         (slot_id : string) (s : TimeSlot.t),
    NoDup (map TimeSlot.id (time_slots (db e))) ->
    Db.get_time_slot (db e) slot_id = Some s ->
    exists s',
      Db.get_time_slot (db (run py_int e reqs)) slot_id = Some s'
      /\ slot_static s' = slot_static s.
Proof.
  intros py_int e reqs sid s N G.
  assert (K : Db.get_time_slot (db (run py_int e reqs)) sid <> None).
  { apply (store_invariant_run py_int (fun x => Db.get_time_slot x sid <> None));
      auto; [|rewrite G; discriminate].
    intros x s0 Hx. unfold Db.get_time_slot, Db.put_time_slot. cbn [time_slots].
    now apply dict_set_keeps. }
  destruct (Db.get_time_slot (db (run py_int e reqs)) sid) as [s'|] eqn:G';
    [|contradiction].
  exists s'. split; [reflexivity|].
  pose proof (dict_get_key _ _ _ G') as K'.
  pose proof (dict_get_In _ _ _ G') as I'.
  assert (F : Forall (fun x => TimeSlot.id x = sid -> slot_static x = slot_static s)
                     (time_slots (db (run py_int e reqs)))).
  { apply slot_invariant_run.
    - intros x t Hx Hid. rewrite (proj1 (slot_methods_keep_static x t)).
      apply Hx. rewrite <- Hid.
      now pose proof (f_equal (fun p => fst (fst (fst (fst (fst (fst p))))))
                        (proj1 (slot_methods_keep_static x t))).
    - intros x t Hx Hid.
      rewrite (proj1 (proj2 (slot_methods_keep_static x t))).
      apply Hx. rewrite <- Hid.
      now pose proof (f_equal (fun p => fst (fst (fst (fst (fst (fst p))))))
                        (proj1 (proj2 (slot_methods_keep_static x t)))).
    - intros x t Hx Hid.
      rewrite (proj1 (proj2 (proj2 (slot_methods_keep_static x t)))).
      apply Hx. rewrite <- Hid.
      now pose proof (f_equal (fun p => fst (fst (fst (fst (fst (fst p))))))
                        (proj1 (proj2 (proj2 (slot_methods_keep_static x t))))).
    - intros x t Hx Hid.
      rewrite (proj2 (proj2 (proj2 (slot_methods_keep_static x t)))).
      apply Hx. rewrite <- Hid.
      now pose proof (f_equal (fun p => fst (fst (fst (fst (fst (fst p))))))
                        (proj2 (proj2 (proj2 (slot_methods_keep_static x t))))).
    - apply Forall_forall. intros x Ix Hid.
      pose proof (dict_get_of_In TimeSlot.id _ x N Ix) as Gx.
      unfold Db.get_time_slot in G. rewrite Hid in Gx. congruence. }
  rewrite Forall_forall in F. now apply F.
Qed.

Lemma slot_settings_never_change_witness :
  let e := Scenario.start 1 in
  let reqs := [ (Scenario.walk_in "1", Scenario.env 1 "1");
                (Scenario.emergency "2", Scenario.env 2 "2") ] in
  exists s',
    Db.get_time_slot (db (run decimal_int e reqs)) "SLOT1" = Some s'
    /\ slot_static s' = slot_static (Scenario.slot 1).
Proof.
  intros e reqs.
  apply (@slot_settings_never_change decimal_int e reqs "SLOT1" (Scenario.slot 1)).
  - repeat constructor. simpl. tauto.
  - reflexivity.
Defined.

(** ** Emergency allocation: who is displaced, and the edge cases *)

Lemma max_by_priority_first best l :
  exists before after,
    (best :: l = before ++ max_by_priority best l :: after)%list
    /\ Forall (fun t => Token.priority t < Token.priority (max_by_priority best l))
              before
    /\ Forall (fun t => Token.priority t <= Token.priority (max_by_priority best l))
              after.
Proof.
  revert best. induction l as [|t l IH]; intros best; cbn [max_by_priority].
  - exists [], []. repeat split; constructor.
  - destruct (Z.ltb_spec (Token.priority best) (Token.priority t)) as [L|L].
    + destruct (IH t) as (b & a & E & Hb & Ha).
      exists (best :: b), a. split; [cbn; now rewrite E|]. split; [|exact Ha].
      constructor; [|exact Hb].
      destruct b as [|x b]; cbn in E.
      * injection E as E _. rewrite <- E. exact L.
      * injection E as <- _. inversion Hb; subst. lia.
    + destruct (IH best) as (b & a & E & Hb & Ha).
      destruct b as [|x b]; cbn in E.
      * injection E as E1 E2. exists [], (t :: l).
        rewrite <- E2 in Ha. rewrite <- E1 in Ha |- *.
        split; [reflexivity|]. split; [constructor|].
        constructor; [lia | exact Ha].
      * injection E as <- E2. exists (best :: t :: b), a.
        split; [cbn; now rewrite <- E2|]. split; [|exact Ha].
        inversion Hb; subst. constructor; [assumption|].
        constructor; [lia | assumption].
Qed.

Lemma all_some_map l toks : all_some l = Some toks -> l = map Some toks.
Proof.
  revert toks. induction l as [|[x|] l IH]; cbn; intros toks H.
  - now injection H as <-.
  - destruct (all_some l) as [r|]; [|discriminate].
    injection H as <-. cbn. now rewrite (IH r eq_refl).
  - discriminate.
Qed.

(** X19.  Which token an emergency displaces.  Whenever
    [allocate_emergency_token] answers that it demoted a token, the slot
    it resolved was full, every id on its confirmed list named a stored
    token, and the demoted one is the first token, in confirmed-list
    order, among those with the largest priority number: every token
    before it has a strictly smaller number, none after it a larger one.
    Its number is above the emergency rank 1. *)
Theorem emergency_displaces_first_least_urgent :
  forall (py_int : string -> option Z) (qm : QueueManager) (d : DataStore)
         (pd : PatientData) (doctor_id date slot_time : string) (env : Env)
         (tk : Token.t) (victim_id : string) (d' : DataStore) (qm' : QueueManager),
    allocate_emergency_token py_int qm d pd doctor_id date slot_time env
    = (Ok (tk, MsgEmergencyDemoted victim_id), d', qm') ->
    let d1 := snd (get_or_create_patient d pd env) in
    exists slot before victim after,
      Db.find_slot_by_time d1 doctor_id date slot_time = Some slot
      /\ TimeSlot.is_full slot = true
      /\ map (Db.get_token d1) (TimeSlot.tokens slot)
         = map Some (before ++ victim :: after)
      /\ Token.id victim = victim_id
      /\ Forall (fun t => Token.priority t < Token.priority victim) before
      /\ Forall (fun t => Token.priority t <= Token.priority victim) after
      /\ 1 < Token.priority victim
      /\ qm' = qm.
Proof.
  intros py_int qm d pd doctor_id date slot_time env tk vid d' qm' H d1.
  unfold allocate_emergency_token in H.
  rewrite (surjective_pairing (get_or_create_patient d pd env)) in H. fold d1 in H.
  destruct (Db.find_slot_by_time d1 doctor_id date slot_time) as [slot|];
    [|discriminate].
  destruct (TimeSlot.is_full slot) eqn:Full; cbn [negb] in H.
  2:{ destruct (_create_confirmed_token _ _ _ _ _ _ _); discriminate. }
  destruct (map (Db.get_token d1) (TimeSlot.tokens slot)) as [|o l] eqn:M;
    [discriminate|].
  destruct (all_some (o :: l)) as [[|first rest]|] eqn:A; try discriminate.
  apply all_some_map in A.
  change (PriorityManager.get_priority_for_source "EMERGENCY") with 1 in H.
  destruct (PriorityManager.should_demote _ _) eqn:SD.
  - destruct (demote_token Queue.init d1 _ env) as [[[r|er] d2] q2];
      [|discriminate].
    destruct (_create_confirmed_token _ _ _ _ _ _ _) as [ctk|]; [|discriminate].
    injection H as _ Hv _ Hq.
    destruct (max_by_priority_first first rest) as (b & a & E & Hb & Ha).
    exists slot, b, (max_by_priority first rest), a.
    split; [reflexivity|]. split; [exact Full|].
    split; [rewrite <- E, <- A; exact M|]. split; [exact Hv|].
    split; [exact Hb|]. split; [exact Ha|].
    split; [|now symmetry].
    unfold PriorityManager.should_demote in SD. now apply Z.ltb_lt.
  - destruct (Queue.add_to_waitlist _ _ _ _ _). discriminate.
Qed.

Lemma emergency_displaces_first_least_urgent_witness :
  let e := run decimal_int (Scenario.start 2)
             [ (Scenario.walk_in "1", Scenario.env 1 "1");
               (Scenario.walk_in "2", Scenario.env 2 "2") ] in
  let d1 := snd (get_or_create_patient (db e) (Scenario.patient "3")
                   (Scenario.env 3 "3")) in
  exists slot before victim after,
    Db.find_slot_by_time d1 "DOC001" "2026-01-29" "09:00" = Some slot
    /\ map (Db.get_token d1) (TimeSlot.tokens slot)
       = map Some (before ++ victim :: after)
    /\ Token.id victim = "TKN1"
    /\ Forall (fun t => Token.priority t < Token.priority victim) before.
Proof.
  intros e d1.
  destruct (allocate_emergency_token decimal_int (allocation_queue e) (db e)
              (Scenario.patient "3") "DOC001" "2026-01-29" "09:00"
              (Scenario.env 3 "3")) as [[r d'] q'] eqn:R.
  assert (X : exists tk, r = Ok (tk, MsgEmergencyDemoted "TKN1")).
  { vm_compute in R. injection R as <- _ _. eexists. reflexivity. }
  destruct X as [tk ->].
  destruct (@emergency_displaces_first_least_urgent decimal_int (allocation_queue e)
              (db e) (Scenario.patient "3") "DOC001" "2026-01-29" "09:00"
              (Scenario.env 3 "3") tk "TKN1" d' q' R)
    as (slot & b & v & a & H1 & _ & H2 & H3 & H4 & _).
  exists slot, b, v, a. auto.
Defined.

(** X20.  A full slot with nothing on its confirmed list (a slot of
    capacity 0 or less) sends an ordinary request to the waitlist but
    makes an emergency request fail: [allocate_emergency_token] raises
    from [max()] on the empty list, after the patient has been stored;
    no token is created and slots and queue are unchanged. *)
Theorem emergency_on_empty_full_slot_raises :
  forall (py_int : string -> option Z) (qm : QueueManager) (d : DataStore)
         (pd : PatientData) (doctor_id date slot_time : string) (env : Env)
         (slot : TimeSlot.t),
    Db.find_slot_by_time d doctor_id date slot_time = Some slot ->
    TimeSlot.is_full slot = true ->
    TimeSlot.tokens slot = [] ->
    let d1 := snd (get_or_create_patient d pd env) in
    allocate_emergency_token py_int qm d pd doctor_id date slot_time env
    = (Raise EmptyMax, d1, qm)
    /\ tokens d1 = tokens d
    /\ time_slots d1 = time_slots d
    /\ forall source doc,
        PriorityManager.validate_source source = true ->
        Db.get_doctor d doctor_id = Some doc ->
        exists tk position,
          fst (fst (allocate_token py_int qm d pd doctor_id date slot_time source env))
          = Ok (tk, MsgWaitlisted position)
          /\ Token.status tk = WAITLISTED.
Proof.
  intros py_int qm d pd doctor_id date slot_time env slot Hf Hfull Ht d1.
  assert (Hf1 : Db.find_slot_by_time d1 doctor_id date slot_time = Some slot)
    by (unfold d1; now rewrite find_slot_after_patient).
  destruct (get_or_create_patient_frame d pd env) as (F1 & F2 & F3).
  fold d1 in F1, F2, F3.
  split; [|split; [exact F3 | split; [exact F2|]]].
  - unfold allocate_emergency_token.
    rewrite (surjective_pairing (get_or_create_patient d pd env)). fold d1.
    now rewrite Hf1, Hfull, Ht.
  - intros source doc Hv Hd. unfold allocate_token. rewrite Hv, Hd. cbn [negb].
    rewrite (surjective_pairing (get_or_create_patient d pd env)). fold d1.
    rewrite Hf1, Hfull. cbn [negb].
    destruct (Queue.add_to_waitlist _ _ _ _ _) as [pos qm1].
    eexists. exists pos. split; reflexivity.
Qed.

Lemma emergency_on_empty_full_slot_raises_witness :
  let e := Scenario.start 0 in
  allocate_emergency_token decimal_int (allocation_queue e) (db e)
    (Scenario.patient "1") "DOC001" "2026-01-29" "09:00" (Scenario.env 1 "1")
  = (Raise EmptyMax,
     snd (get_or_create_patient (db e) (Scenario.patient "1") (Scenario.env 1 "1")),
     allocation_queue e).
Proof.
  intros e.
  apply (@emergency_on_empty_full_slot_raises decimal_int (allocation_queue e) (db e)
           (Scenario.patient "1") "DOC001" "2026-01-29" "09:00" (Scenario.env 1 "1")
           (Scenario.slot 0) eq_refl eq_refl eq_refl).
Defined.

Lemma max_by_priority_bound best l bound :
  Token.priority best <= bound ->
  Forall (fun t => Token.priority t <= bound) l ->
  Token.priority (max_by_priority best l) <= bound.
Proof.
  revert best. induction l as [|t l IH]; intros best Hb Hl; cbn; [exact Hb|].
  inversion Hl; subst. destruct (_ <? _); now apply IH.
Qed.

(** X21.  An emergency does not displace an emergency.  On a full slot
    whose confirmed tokens are all stored and all of priority number 1
    or less, [allocate_emergency_token] demotes nobody: it stores a new
    Waitlisted EMERGENCY token of rank 1 without number or estimated
    time, enqueues it in the calling service's queue and reports that
    position; the confirmed list and counter are as before and every
    token stored under another id is untouched. *)
Theorem emergency_does_not_displace_emergency :
  forall (py_int : string -> option Z) (qm : QueueManager) (d : DataStore)
         (pd : PatientData) (doctor_id date slot_time : string) (env : Env)
         (slot : TimeSlot.t) (first : Token.t) (rest : list Token.t),
    Db.find_slot_by_time d doctor_id date slot_time = Some slot ->
    TimeSlot.is_full slot = true ->
    map (Db.get_token d) (TimeSlot.tokens slot) = map Some (first :: rest) ->
    Forall (fun t => Token.priority t <= 1) (first :: rest) ->
    let out := allocate_emergency_token py_int qm d pd doctor_id date slot_time env in
    let enq := Queue.add_to_waitlist qm (TimeSlot.id slot) (new_token_id env) 1
                 (now env) in
    exists tk slot',
      fst (fst out) = Ok (tk, MsgEmergencyWaitlisted (fst enq))
      /\ snd out = snd enq
      /\ Token.id tk = new_token_id env
      /\ Token.status tk = WAITLISTED
      /\ Token.source tk = "EMERGENCY"
      /\ Token.priority tk = 1
      /\ Token.token_number tk = None
      /\ Token.estimated_time tk = None
      /\ Db.get_token (out_db out) (new_token_id env) = Some tk
      /\ (forall k, k <> new_token_id env ->
            Db.get_token (out_db out) k = Db.get_token d k)
      /\ Db.get_time_slot (out_db out) (TimeSlot.id slot) = Some slot'
      /\ TimeSlot.tokens slot' = TimeSlot.tokens slot
      /\ TimeSlot.allocated_count slot' = TimeSlot.allocated_count slot
      /\ In (new_token_id env) (TimeSlot.waitlist slot').
Proof.
  intros py_int qm d pd doctor_id date slot_time env slot first rest
         Hf Hfull Hm Hp out enq.
  set (d1 := snd (get_or_create_patient d pd env)).
  assert (Hf1 : Db.find_slot_by_time d1 doctor_id date slot_time = Some slot)
    by (unfold d1; now rewrite find_slot_after_patient).
  assert (Hm1 : map (Db.get_token d1) (TimeSlot.tokens slot) = map Some (first :: rest)).
  { rewrite <- Hm. apply map_ext. intros k. unfold d1.
    apply get_token_after_patient. }
  assert (Hmax : PriorityManager.should_demote
                   (Token.priority (max_by_priority first rest)) 1 = false).
  { unfold PriorityManager.should_demote. apply Z.ltb_ge.
    inversion Hp; subst. now apply max_by_priority_bound. }
  assert (Hall : all_some (map Some (first :: rest)) = Some (first :: rest)).
  { clear. induction (first :: rest) as [|x l IH]; cbn; [reflexivity|].
    now rewrite IH. }
  subst out. unfold allocate_emergency_token.
  rewrite (surjective_pairing (get_or_create_patient d pd env)). fold d1.
  rewrite Hf1, Hfull. cbn [negb].
  change (map Some (first :: rest)) with (Some first :: map Some rest) in Hm1, Hall.
  rewrite Hm1. cbv iota. rewrite Hall. cbv iota.
  change (PriorityManager.get_priority_for_source "EMERGENCY") with 1.
  rewrite Hmax. cbv iota.
  unfold _create_waitlisted_token.
  cbn [Token.id Token.add_note Token.new].
  fold enq. clearbody enq. destruct enq as [pos qm1]. cbn [fst snd].
  unfold TimeSlot.add_to_waitlist.
  set (tk := Token.add_note _ _ _).
  assert (Hother : forall s' k, k <> new_token_id env ->
            Db.get_token (Db.add_token (Db.put_time_slot d1 s') tk) k
            = Db.get_token d k).
  { intros s' k N. rewrite get_token_after_add_other by (cbn; congruence).
    unfold d1. apply get_token_after_patient. }
  destruct (TimeSlot.mem (new_token_id env) (TimeSlot.waitlist slot)) eqn:Mem;
    cbn [snd]; eexists tk, _; unfold out_db; cbn [fst snd];
    (split; [reflexivity|]); (split; [reflexivity|]);
    (split; [reflexivity|]); (split; [reflexivity|]);
    (split; [reflexivity|]); (split; [reflexivity|]);
    (split; [reflexivity|]); (split; [reflexivity|]);
    (split; [apply (get_token_after_add _ tk)|]);
    (split; [apply Hother|]);
    (split; [match goal with
             | |- Db.get_time_slot (Db.add_token (Db.put_time_slot ?d0 ?s) _) _ = _ =>
                 apply (get_slot_after_put d0 s)
             end|]);
    (split; [reflexivity|]); (split; [reflexivity|]).
  - now apply mem_In.
  - cbn. apply in_or_app. right. now left.
Qed.

Lemma emergency_does_not_displace_emergency_witness :
  let e := run decimal_int (Scenario.start 1)
             [ (Scenario.emergency "1", Scenario.env 1 "1") ] in
  let out := allocate_emergency_token decimal_int (allocation_queue e) (db e)
               (Scenario.patient "2") "DOC001" "2026-01-29" "09:00"
               (Scenario.env 2 "2") in
  exists tk,
    fst (fst out) = Ok (tk, MsgEmergencyWaitlisted 1)
    /\ Token.status tk = WAITLISTED
    /\ Db.get_token (out_db out) "TKN1" = Db.get_token (db e) "TKN1".
Proof.
  intros e out.
  destruct (Db.get_token (db e) "TKN1") as [t1|] eqn:G; [|discriminate G].
  assert (P1 : Token.priority t1 <= 1)
    by (vm_compute in G; injection G as <-; vm_compute; discriminate).
  destruct (@emergency_does_not_displace_emergency decimal_int (allocation_queue e)
              (db e) (Scenario.patient "2") "DOC001" "2026-01-29" "09:00"
              (Scenario.env 2 "2")
              (TimeSlot.mk "SLOT1" "DOC001" "09:00" "10:00" "2026-01-29" 1 1
                           ["TKN1"] [] 0)
              t1 [] eq_refl eq_refl)
    as (tk & slot' & H1 & _ & _ & H2 & _ & _ & _ & _ & _ & H3 & _).
  - cbn [TimeSlot.tokens map]. now rewrite G.
  - repeat constructor. exact P1.
  - exists tk. split; [exact H1|]. split; [exact H2|].
    rewrite <- G. apply H3. discriminate.
Defined.

(** X22.  An emergency request on a slot with room is confirmed at once
    and displaces nobody: with the slot's counter equal to the length of
    its confirmed list, a start time that reads as [h:m] and an estimated
    moment for number [len(tokens) + 1] that falls on a day up to
    9999-12-31, the new EMERGENCY token of rank 1 is stored Confirmed
    with that number and the matching estimated time, its id is appended
    to the confirmed list, every token stored under another id is
    untouched and the queue manager is unchanged. *)
Theorem emergency_with_room_confirms_directly :
  forall (py_int : string -> option Z) (qm : QueueManager) (d : DataStore)
         (pd : PatientData) (doctor_id date slot_time : string) (env : Env)
         (slot : TimeSlot.t) (h m : Z),
    Db.find_slot_by_time d doctor_id date slot_time = Some slot ->
    TimeSlot.is_full slot = false ->
    TimeSlot.allocated_count slot = Z.of_nat (List.length (TimeSlot.tokens slot)) ->
    Token.parse_start_time py_int (TimeSlot.start_time slot) = Some (h, m) ->
    let out := allocate_emergency_token py_int qm d pd doctor_id date slot_time env in
    let n := Z.of_nat (List.length (TimeSlot.tokens slot)) + 1 in
    estimate_on_calendar (today env) h m n ->
    exists tk slot',
      fst (fst out) = Ok (tk, MsgEmergencyConfirmed)
      /\ snd out = qm
      /\ Token.id tk = new_token_id env
      /\ Token.status tk = CONFIRMED
      /\ Token.source tk = "EMERGENCY"
      /\ Token.priority tk = 1
      /\ Token.token_number tk = Some n
      /\ Token.estimated_time tk = Some (fmt_hhmm (estimated_minutes h m n))
      /\ Db.get_token (out_db out) (new_token_id env) = Some tk
      /\ (forall k, k <> new_token_id env ->
            Db.get_token (out_db out) k = Db.get_token d k)
      /\ Db.get_time_slot (out_db out) (TimeSlot.id slot) = Some slot'
      /\ TimeSlot.tokens slot' = (TimeSlot.tokens slot ++ [new_token_id env])%list
      /\ TimeSlot.allocated_count slot' = n
      /\ TimeSlot.waitlist slot' = TimeSlot.waitlist slot.
Proof.
  intros py_int qm d pd doctor_id date slot_time env slot h m
         Hf Hfull Hc Hp out n Hr.
  apply estimate_on_calendar_ok in Hr. unfold n in Hr. rewrite <- Hc in Hr.
  set (d1 := snd (get_or_create_patient d pd env)).
  assert (Hf1 : Db.find_slot_by_time d1 doctor_id date slot_time = Some slot)
    by (unfold d1; now rewrite find_slot_after_patient).
  assert (Hlt : (TimeSlot.allocated_count slot <? TimeSlot.max_capacity slot) = true).
  { unfold TimeSlot.is_full in Hfull. apply Z.leb_gt in Hfull. now apply Z.ltb_lt. }
  subst out. unfold allocate_emergency_token.
  rewrite (surjective_pairing (get_or_create_patient d pd env)). fold d1.
  rewrite Hf1, Hfull. cbn [negb].
  unfold _create_confirmed_token, Token.calculate_estimated_time. rewrite Hp, Hr.
  unfold TimeSlot.add_token. rewrite Hlt. cbn [snd]. rewrite Hc. fold n.
  set (tk := Token.add_note _ _ _).
  eexists tk, _. unfold out_db. cbn [fst snd].
  repeat (split; [reflexivity|]).
  split; [apply (get_token_after_add _ tk)|].
  split.
  { intros k N. rewrite get_token_after_add_other by (cbn; congruence).
    unfold d1. apply get_token_after_patient. }
  split.
  { match goal with
    | |- Db.get_time_slot (Db.add_token (Db.put_time_slot ?d0 ?s) _) _ = _ =>
        apply (get_slot_after_put d0 s)
    end. }
  repeat split.
Qed.

Lemma emergency_with_room_confirms_directly_witness :
  let e := Scenario.start 2 in
  let out := allocate_emergency_token decimal_int (allocation_queue e) (db e)
               (Scenario.patient "1") "DOC001" "2026-01-29" "09:00"
               (Scenario.env 1 "1") in
  exists tk,
    fst (fst out) = Ok (tk, MsgEmergencyConfirmed)
    /\ Token.token_number tk = Some 1
    /\ Token.estimated_time tk = Some "09:00".
Proof.
  intros e out.
  destruct (@emergency_with_room_confirms_directly decimal_int (allocation_queue e)
              (db e) (Scenario.patient "1") "DOC001" "2026-01-29" "09:00"
              (Scenario.env 1 "1") (Scenario.slot 2) 9 0
              eq_refl eq_refl eq_refl eq_refl
              ltac:(vm_compute; split; discriminate))
    as (tk & slot' & H1 & _ & _ & _ & _ & _ & H2 & H3 & _).
  exists tk. split; [exact H1|]. split; [exact H2 | exact H3].
Defined.

(** ** Promotion, and how it composes with demotion and cancellation *)

Lemma promote_success py_int qm d slot_id env token_id tk sl h m :
  Queue.get_next_from_waitlist qm slot_id = Some token_id ->
  token_id <> "" ->
  Db.get_token d token_id = Some tk ->
  Db.get_time_slot d slot_id = Some sl ->
  Token.parse_start_time py_int (TimeSlot.start_time sl) = Some (h, m) ->
  let sl' := snd (TimeSlot.add_token
                    (snd (TimeSlot.remove_from_waitlist sl token_id)) token_id) in
  estimate_on_calendar (today env) h m (TimeSlot.allocated_count sl') ->
  _promote_from_waitlist py_int qm d slot_id env
  = (Ok (Some token_id),
     Db.add_token (Db.put_time_slot d sl')
       (promoted tk (TimeSlot.allocated_count sl') h m env),
     snd (Queue.remove_from_waitlist qm slot_id token_id)).
Proof.
  intros Hn Hne Gt Gs Hp sl' Hr. apply estimate_on_calendar_ok in Hr.
  pose proof (dict_get_key _ _ _ Gt) as K.
  unfold _promote_from_waitlist. rewrite Hn.
  destruct (String.eqb_spec token_id ""); [contradiction|].
  rewrite Gt, Gs. rewrite K. fold sl'.
  assert (St : TimeSlot.start_time sl' = TimeSlot.start_time sl).
  { pose proof (slot_methods_keep_static
                  (snd (TimeSlot.remove_from_waitlist sl token_id)) token_id) as [A _].
    pose proof (slot_methods_keep_static sl token_id) as (_ & _ & _ & B).
    fold sl' in A. rewrite B in A. unfold slot_static in A. congruence. }
  unfold Token.calculate_estimated_time. rewrite St, Hp, Hr. reflexivity.
Qed.

Lemma entries_of_singleton_after_enqueue qm sid tid p t :
  entries_of qm sid = [] ->
  Queue.add_to_waitlist qm sid tid p t
  = (1, snd (Queue.add_to_waitlist qm sid tid p t))
  /\ Queue.waitlist_of (snd (Queue.add_to_waitlist qm sid tid p t)) sid
     = Some [mkEntry tid p t].
Proof.
  intros E.
  pose proof (QueueFacts.add_to_waitlist_entries qm sid tid p t) as W.
  pose proof (QueueFacts.add_to_waitlist_position qm sid tid p t) as P.
  rewrite E in W, P. cbn in W, P. rewrite String.eqb_refl in P.
  injection P as P. split; [|exact W].
  rewrite (surjective_pairing (Queue.add_to_waitlist qm sid tid p t)) at 1.
  now rewrite <- P.
Qed.

(** X23.  Demoting a confirmed token and promoting it back, on one
    reallocation service.  Take a Confirmed token listed on its slot's
    confirmed list (not on the waitlist), a slot within capacity whose
    start time reads as [h:m], a queue manager with nothing waiting for
    that slot, and a day of promotion on which the estimated moment for
    the slot's last number is a date up to 9999-12-31.  [demote_token]
    puts the token at position 1, and
    [_promote_from_waitlist] on the result promotes that very token: it
    is Confirmed again with the same rank, its number is the length of
    the confirmed list, on which it now stands last, and its estimated
    time is recomputed from that number; the slot's counter and waitlist
    are what they were, and the queue again holds nothing for the slot. *)
Theorem demote_then_promote_restores :
  forall (py_int : string -> option Z) (qm : QueueManager) (d : DataStore)
         (token_id : string) (tk : Token.t) (sl : TimeSlot.t) (h m : Z)
         (env1 env2 : Env),
    Db.get_token d token_id = Some tk ->
    Token.status tk = CONFIRMED ->
    Db.get_time_slot d (Token.slot_id tk) = Some sl ->
    token_id <> "" ->
    In token_id (TimeSlot.tokens sl) ->
    ~ In token_id (TimeSlot.waitlist sl) ->
    slot_ok sl ->
    entries_of qm (TimeSlot.id sl) = [] ->
    Token.parse_start_time py_int (TimeSlot.start_time sl) = Some (h, m) ->
    estimate_on_calendar (today env2) h m (TimeSlot.allocated_count sl) ->
    let out1 := demote_token qm d token_id env1 in
    let out2 := _promote_from_waitlist py_int (snd out1) (out_db out1)
                  (TimeSlot.id sl) env2 in
    exists tk' sl',
      fst (fst out1) = Ok (mkDemoteResult token_id 1)
      /\ fst (fst out2) = Ok (Some token_id)
      /\ Db.get_token (out_db out2) token_id = Some tk'
      /\ Token.status tk' = CONFIRMED
      /\ Token.priority tk' = Token.priority tk
      /\ Token.token_number tk' = Some (TimeSlot.allocated_count sl)
      /\ Token.estimated_time tk'
         = Some (fmt_hhmm (estimated_minutes h m (TimeSlot.allocated_count sl)))
      /\ Db.get_time_slot (out_db out2) (TimeSlot.id sl) = Some sl'
      /\ TimeSlot.tokens sl'
         = (TimeSlot.remove_first token_id (TimeSlot.tokens sl) ++ [token_id])%list
      /\ TimeSlot.allocated_count sl' = TimeSlot.allocated_count sl
      /\ TimeSlot.waitlist sl' = TimeSlot.waitlist sl
      /\ entries_of (snd out2) (TimeSlot.id sl) = [].
Proof.
  intros py_int qm d tid tk sl h m env1 env2 G S Gs Hne Hin Hnw [Hc Hl] Eq Hp Hr
         out1 out2.
  pose proof (dict_get_key _ _ _ G) as K.
  pose proof (dict_get_key _ _ _ Gs) as Ks.
  pose proof (@demote_token_confirmed qm d tid env1 tk sl G S Gs) as D.
  cbn zeta in D.
  destruct (@entries_of_singleton_after_enqueue qm (TimeSlot.id sl) tid
              (Token.priority tk) (now env1) Eq) as [E1 W1].
  set (qm1 := snd (Queue.add_to_waitlist qm (TimeSlot.id sl) tid
                     (Token.priority tk) (now env1))) in *.
  rewrite E1 in D. cbn [fst snd] in D.
  (* the slot after the demotion *)
  assert (R1 : snd (TimeSlot.remove_token sl tid)
               = TimeSlot.with_tokens sl (TimeSlot.remove_first tid (TimeSlot.tokens sl))
                   (TimeSlot.allocated_count sl - 1)).
  { unfold TimeSlot.remove_token. now rewrite (proj2 (mem_In _ _) Hin). }
  rewrite R1 in D.
  assert (R2 : snd (TimeSlot.add_to_waitlist
                      (TimeSlot.with_tokens sl
                         (TimeSlot.remove_first tid (TimeSlot.tokens sl))
                         (TimeSlot.allocated_count sl - 1)) tid)
               = TimeSlot.with_waitlist
                   (TimeSlot.with_tokens sl
                      (TimeSlot.remove_first tid (TimeSlot.tokens sl))
                      (TimeSlot.allocated_count sl - 1))
                   (TimeSlot.waitlist sl ++ [tid])).
  { unfold TimeSlot.add_to_waitlist. cbn [TimeSlot.waitlist TimeSlot.with_tokens].
    now rewrite (proj2 (mem_not_In _ _) Hnw). }
  rewrite R2 in D.
  set (sl2 := TimeSlot.with_waitlist _ _) in D.
  set (d1 := Db.add_token (Db.put_time_slot d sl2) (demoted tk env1)) in D.
  assert (O1 : out1 = (Ok (mkDemoteResult tid 1), d1, qm1)) by exact D.
  (* what the promotion finds *)
  assert (N1 : Queue.get_next_from_waitlist qm1 (TimeSlot.id sl) = Some tid).
  { unfold Queue.get_next_from_waitlist. now rewrite W1. }
  assert (G1 : Db.get_token d1 tid = Some (demoted tk env1)).
  { unfold d1. rewrite <- K at 1.
    apply (get_token_after_add (Db.put_time_slot d sl2) (demoted tk env1)). }
  assert (Gs1 : Db.get_time_slot d1 (TimeSlot.id sl) = Some sl2).
  { unfold d1.
    change (Db.get_time_slot (Db.put_time_slot d sl2) (TimeSlot.id sl2) = Some sl2).
    apply get_slot_after_put. }
  assert (Hp2 : Token.parse_start_time py_int (TimeSlot.start_time sl2) = Some (h, m))
    by exact Hp.
  pose proof (@promote_success py_int qm1 d1 (TimeSlot.id sl) env2 tid
                (demoted tk env1) sl2 h m N1 Hne G1 Gs1 Hp2) as P.
  cbn zeta in P.
  assert (R3 : snd (TimeSlot.remove_from_waitlist sl2 tid)
               = TimeSlot.with_waitlist sl2 (TimeSlot.waitlist sl)).
  { unfold TimeSlot.remove_from_waitlist. cbn [TimeSlot.waitlist sl2 TimeSlot.with_waitlist].
    assert (M : TimeSlot.mem tid (TimeSlot.waitlist sl ++ [tid]) = true)
      by (apply mem_In, in_or_app; right; now left).
    rewrite M. cbn [snd]. now rewrite (@remove_first_snoc tid _ Hnw). }
  rewrite R3 in P.
  assert (Len : (0 < List.length (TimeSlot.tokens sl))%nat)
    by (destruct (TimeSlot.tokens sl); [destruct Hin | simpl; lia]).
  assert (R4 : snd (TimeSlot.add_token
                      (TimeSlot.with_waitlist sl2 (TimeSlot.waitlist sl)) tid)
               = TimeSlot.with_tokens
                   (TimeSlot.with_waitlist sl2 (TimeSlot.waitlist sl))
                   (TimeSlot.remove_first tid (TimeSlot.tokens sl) ++ [tid])
                   (TimeSlot.allocated_count sl - 1 + 1)).
  { unfold TimeSlot.add_token.
    cbn [TimeSlot.allocated_count TimeSlot.max_capacity TimeSlot.tokens sl2
         TimeSlot.with_waitlist TimeSlot.with_tokens].
    destruct (Z.ltb_spec (TimeSlot.allocated_count sl - 1) (TimeSlot.max_capacity sl));
      [reflexivity | lia]. }
  rewrite R4 in P.
  set (sl4 := TimeSlot.with_tokens _ _ _) in P.
  assert (C4 : TimeSlot.allocated_count sl4 = TimeSlot.allocated_count sl)
    by (cbn; lia).
  rewrite C4 in P. specialize (P Hr).
  set (tk' := promoted (demoted tk env1) (TimeSlot.allocated_count sl) h m env2) in P.
  assert (O2 : out2 = (Ok (Some tid), Db.add_token (Db.put_time_slot d1 sl4) tk',
                       snd (Queue.remove_from_waitlist qm1 (TimeSlot.id sl) tid))).
  { unfold out2. rewrite O1. exact P. }
  exists tk', sl4. rewrite O1, O2. unfold out_db. cbn [fst snd].
  split; [reflexivity|]. split; [reflexivity|].
  split.
  { rewrite <- K at 1.
    apply (get_token_after_add (Db.put_time_slot d1 sl4) tk'). }
  split; [reflexivity|]. split; [reflexivity|]. split; [reflexivity|].
  split; [reflexivity|].
  split.
  { change (Db.get_time_slot (Db.put_time_slot d1 sl4) (TimeSlot.id sl4) = Some sl4).
    apply get_slot_after_put. }
  split; [reflexivity|]. split; [exact C4|]. split; [reflexivity|].
  rewrite entries_after_remove. unfold entries_of. rewrite W1.
  cbn. now rewrite String.eqb_refl.
Qed.

Lemma demote_then_promote_restores_witness :
  let e := run decimal_int (Scenario.start 2)
             [ (Scenario.walk_in "1", Scenario.env 1 "1");
               (Scenario.walk_in "2", Scenario.env 2 "2") ] in
  let out1 := demote_token (reallocation_queue e) (db e) "TKN1" (Scenario.env 3 "3") in
  let out2 := _promote_from_waitlist decimal_int (snd out1) (out_db out1) "SLOT1"
                (Scenario.env 4 "4") in
  exists tk' sl',
    Db.get_token (out_db out2) "TKN1" = Some tk'
    /\ Token.status tk' = CONFIRMED
    /\ Token.token_number tk' = Some 2
    /\ Db.get_time_slot (out_db out2) "SLOT1" = Some sl'
    /\ TimeSlot.tokens sl' = ["TKN2"; "TKN1"].
Proof.
  intros e out1 out2.
  pose (sl := TimeSlot.mk "SLOT1" "DOC001" "09:00" "10:00" "2026-01-29" 2 2
                          ["TKN1"; "TKN2"] [] 0).
  pose (tk := Token.mk "TKN1" (Some 1) "PAT1" "DOC001" "SLOT1" "WALK_IN" 5 CONFIRMED
                       (Some "09:00") 1 1 [(1, "Token allocated from WALK_IN")]).
  assert (N : "TKN1" <> "") by discriminate.
  assert (I : In "TKN1" (TimeSlot.tokens sl)) by (now left).
  assert (W : ~ In "TKN1" (TimeSlot.waitlist sl)) by (intros []).
  assert (O : slot_ok sl) by (split; cbn; [reflexivity | lia]).
  destruct (@demote_then_promote_restores decimal_int (reallocation_queue e) (db e)
              "TKN1" tk sl 9 0 (Scenario.env 3 "3") (Scenario.env 4 "4")
              eq_refl eq_refl eq_refl N I W O eq_refl eq_refl
              ltac:(vm_compute; split; discriminate))
    as (tk' & sl' & _ & _ & H1 & H2 & _ & H3 & _ & H4 & H5 & _).
  exists tk', sl'. repeat split; assumption.
Defined.

(** ** Cancellation and no-show *)

Lemma get_token_after_add_key d tk k :
  Token.id tk = k -> Db.get_token (Db.add_token d tk) k = Some tk.
Proof. intros <-. apply get_token_after_add. Qed.

Lemma position_none_after_remove qm sid tid :
  Queue.get_waitlist_position (snd (Queue.remove_from_waitlist qm sid tid)) sid tid
  = None.
Proof.
  unfold Queue.get_waitlist_position, Queue.remove_from_waitlist.
  destruct (Queue.waitlist_of qm sid) as [l|] eqn:G; simpl.
  - rewrite QueueFacts.waitlist_of_set_same. apply find_position_filtered.
  - now rewrite G.
Qed.

Lemma get_token_after_put_slot d s k :
  Db.get_token (Db.put_time_slot d s) k = Db.get_token d k.
Proof. reflexivity. Qed.

(** X24.  Cancelling, or marking as no-show, a Confirmed token frees its
    place.  When the token is on its slot's confirmed list and the
    service's queue holds nothing for the slot, [cancel_token] and
    [mark_no_show] succeed without promoting anyone: the token becomes
    Cancelled (or NoShow) and keeps the number and estimated time it had;
    its first occurrence is taken off the confirmed list, the counter
    goes down by one and the availability up by one; the slot's waitlist,
    the queue manager and every other token are untouched. *)
Theorem cancel_or_no_show_frees_the_place :
  forall (py_int : string -> option Z) (qm : QueueManager) (d : DataStore)
         (token_id : string) (tk : Token.t) (sl : TimeSlot.t) (env : Env),
    Db.get_token d token_id = Some tk ->
    Token.status tk = CONFIRMED ->
    Db.get_time_slot d (Token.slot_id tk) = Some sl ->
    In token_id (TimeSlot.tokens sl) ->
    Queue.get_next_from_waitlist qm (TimeSlot.id sl) = None ->
    let freed :=
      TimeSlot.with_tokens sl (TimeSlot.remove_first token_id (TimeSlot.tokens sl))
                           (TimeSlot.allocated_count sl - 1) in
    let after (st : Status) (note : string) :=
      Db.add_token (Db.put_time_slot d freed)
                   (Token.update_status tk st note (now env)) in
    cancel_token py_int qm d token_id env
    = (Ok (mkCancelResult token_id None),
       after CANCELLED "Token cancelled by patient/admin", qm)
    /\ mark_no_show py_int qm d token_id env
       = (Ok (mkNoShowResult token_id None),
          after NO_SHOW "Patient did not arrive", qm)
    /\ TimeSlot.available_count freed = TimeSlot.available_count sl + 1
    /\ TimeSlot.waitlist freed = TimeSlot.waitlist sl
    /\ forall st note,
        Db.get_time_slot (after st note) (TimeSlot.id sl) = Some freed
        /\ (exists tk', Db.get_token (after st note) token_id = Some tk'
                        /\ Token.status tk' = st
                        /\ Token.token_number tk' = Token.token_number tk
                        /\ Token.estimated_time tk' = Token.estimated_time tk)
        /\ forall k, k <> token_id ->
             Db.get_token (after st note) k = Db.get_token d k.
Proof.
  intros py_int qm d tid tk sl env G S Gs Hin Hq freed after.
  pose proof (dict_get_key _ _ _ G) as K.
  assert (R : snd (TimeSlot.remove_token sl tid) = freed).
  { unfold TimeSlot.remove_token. now rewrite (proj2 (mem_In _ _) Hin). }
  split; [|split; [|split; [|split]]].
  - unfold cancel_token. rewrite G, S, Gs, R.
    rewrite promote_with_empty_queue by exact Hq. reflexivity.
  - unfold mark_no_show. rewrite G, S, Gs, R. cbn [Status_eqb negb].
    rewrite promote_with_empty_queue by exact Hq. reflexivity.
  - unfold TimeSlot.available_count. cbn. lia.
  - reflexivity.
  - intros st note. split; [|split].
    + unfold after.
      change (Db.get_time_slot (Db.put_time_slot d freed) (TimeSlot.id freed)
              = Some freed).
      apply get_slot_after_put.
    + exists (Token.update_status tk st note (now env)).
      split; [|repeat split].
      unfold after. now apply get_token_after_add_key.
    + intros k N. unfold after.
      rewrite get_token_after_add_other by (cbn; congruence). reflexivity.
Qed.

Lemma cancel_or_no_show_frees_the_place_witness :
  let e := run decimal_int (Scenario.start 2)
             [ (Scenario.walk_in "1", Scenario.env 1 "1");
               (Scenario.walk_in "2", Scenario.env 2 "2") ] in
  fst (fst (mark_no_show decimal_int (reallocation_queue e) (db e) "TKN1"
              (Scenario.env 3 "3")))
  = Ok (mkNoShowResult "TKN1" None).
Proof.
  intros e.
  pose (sl := TimeSlot.mk "SLOT1" "DOC001" "09:00" "10:00" "2026-01-29" 2 2
                          ["TKN1"; "TKN2"] [] 0).
  pose (tk := Token.mk "TKN1" (Some 1) "PAT1" "DOC001" "SLOT1" "WALK_IN" 5 CONFIRMED
                       (Some "09:00") 1 1 [(1, "Token allocated from WALK_IN")]).
  assert (I : In "TKN1" (TimeSlot.tokens sl)) by (now left).
  destruct (@cancel_or_no_show_frees_the_place decimal_int (reallocation_queue e)
              (db e) "TKN1" tk sl (Scenario.env 3 "3")
              eq_refl eq_refl eq_refl I eq_refl) as (_ & H & _).
  now rewrite H.
Defined.

(** X25.  Cancelling a Confirmed token promotes the head of the service's
    own queue.  When the cancelled token A is on the confirmed list of a
    slot within capacity, the reallocation service's queue names a
    stored token B (other than A) as next for the slot, the slot's start
    time reads as [h:m], and the estimated moment for the slot's last
    number is a date up to 9999-12-31, then [cancel_token] reports B as
    promoted:
    A is Cancelled, B is Confirmed with number [len(confirmed)] and the
    matching estimated time, B stands last on the confirmed list in A's
    stead so that the counter is unchanged, and B is off the slot's
    waitlist and has no position left in the queue. *)
Theorem cancel_promotes_the_queue_head :
  forall (py_int : string -> option Z) (qm : QueueManager) (d : DataStore)
         (a_id b_id : string) (a b : Token.t) (sl : TimeSlot.t) (h m : Z)
         (env : Env),
    Db.get_token d a_id = Some a ->
    Token.status a = CONFIRMED ->
    Db.get_time_slot d (Token.slot_id a) = Some sl ->
    In a_id (TimeSlot.tokens sl) ->
    slot_ok sl ->
    Queue.get_next_from_waitlist qm (TimeSlot.id sl) = Some b_id ->
    b_id <> "" ->
    b_id <> a_id ->
    Db.get_token d b_id = Some b ->
    Token.parse_start_time py_int (TimeSlot.start_time sl) = Some (h, m) ->
    estimate_on_calendar (today env) h m (TimeSlot.allocated_count sl) ->
    let out := cancel_token py_int qm d a_id env in
    exists a' b' sl',
      fst (fst out) = Ok (mkCancelResult a_id (Some b_id))
      /\ Db.get_token (out_db out) a_id = Some a'
      /\ Token.status a' = CANCELLED
      /\ Db.get_token (out_db out) b_id = Some b'
      /\ Token.status b' = CONFIRMED
      /\ Token.priority b' = Token.priority b
      /\ Token.token_number b' = Some (TimeSlot.allocated_count sl)
      /\ Token.estimated_time b'
         = Some (fmt_hhmm (estimated_minutes h m (TimeSlot.allocated_count sl)))
      /\ Db.get_time_slot (out_db out) (TimeSlot.id sl) = Some sl'
      /\ TimeSlot.tokens sl'
         = (TimeSlot.remove_first a_id (TimeSlot.tokens sl) ++ [b_id])%list
      /\ TimeSlot.allocated_count sl' = TimeSlot.allocated_count sl
      /\ TimeSlot.waitlist sl' = TimeSlot.remove_first b_id (TimeSlot.waitlist sl)
      /\ Queue.get_waitlist_position (snd out) (TimeSlot.id sl) b_id = None.
Proof.
  intros py_int qm d aid bid a b sl h m env Ga Sa Gs Hin [Hc Hl] Hq Hbe Hba Gb Hp Hr
         out.
  pose proof (dict_get_key _ _ _ Ga) as Ka.
  pose proof (dict_get_key _ _ _ Gb) as Kb.
  set (freed := TimeSlot.with_tokens sl
                  (TimeSlot.remove_first aid (TimeSlot.tokens sl))
                  (TimeSlot.allocated_count sl - 1)).
  assert (R : snd (TimeSlot.remove_token sl aid) = freed).
  { unfold TimeSlot.remove_token. now rewrite (proj2 (mem_In _ _) Hin). }
  set (a' := Token.update_status a CANCELLED "Token cancelled by patient/admin"
               (now env)).
  set (d2 := Db.add_token (Db.put_time_slot d freed) a').
  assert (Gb2 : Db.get_token d2 bid = Some b).
  { unfold d2. rewrite get_token_after_add_other by (cbn; congruence). exact Gb. }
  assert (Gs2 : Db.get_time_slot d2 (TimeSlot.id sl) = Some freed).
  { unfold d2.
    change (Db.get_time_slot (Db.put_time_slot d freed) (TimeSlot.id freed)
            = Some freed).
    apply get_slot_after_put. }
  assert (Hp2 : Token.parse_start_time py_int (TimeSlot.start_time freed) = Some (h, m))
    by exact Hp.
  pose proof (@promote_success py_int qm d2 (TimeSlot.id sl) env bid b freed h m
                Hq Hbe Gb2 Gs2 Hp2) as P.
  cbn zeta in P.
  set (w1 := snd (TimeSlot.remove_from_waitlist freed bid)) in P.
  assert (W1 : TimeSlot.waitlist w1 = TimeSlot.remove_first bid (TimeSlot.waitlist sl)
               /\ TimeSlot.tokens w1 = TimeSlot.remove_first aid (TimeSlot.tokens sl)
               /\ TimeSlot.allocated_count w1 = TimeSlot.allocated_count sl - 1
               /\ TimeSlot.max_capacity w1 = TimeSlot.max_capacity sl
               /\ TimeSlot.id w1 = TimeSlot.id sl).
  { unfold w1, TimeSlot.remove_from_waitlist.
    cbn [freed TimeSlot.waitlist TimeSlot.with_tokens].
    destruct (TimeSlot.mem bid (TimeSlot.waitlist sl)) eqn:M; cbn; repeat split.
    apply mem_not_In in M. now rewrite remove_first_absent. }
  destruct W1 as (Ww & Wt & Wc & Wm & Wi).
  assert (Len : (0 < List.length (TimeSlot.tokens sl))%nat)
    by (destruct (TimeSlot.tokens sl); [destruct Hin | simpl; lia]).
  assert (R4 : snd (TimeSlot.add_token w1 bid)
               = TimeSlot.with_tokens w1 (TimeSlot.tokens w1 ++ [bid])
                                      (TimeSlot.allocated_count w1 + 1)).
  { unfold TimeSlot.add_token. rewrite Wc, Wm.
    destruct (Z.ltb_spec (TimeSlot.allocated_count sl - 1) (TimeSlot.max_capacity sl));
      [reflexivity | lia]. }
  rewrite R4 in P.
  set (sl4 := TimeSlot.with_tokens w1 _ _) in P.
  assert (C4 : TimeSlot.allocated_count sl4 = TimeSlot.allocated_count sl)
    by (cbn; lia).
  rewrite C4 in P. specialize (P Hr).
  set (b' := promoted b (TimeSlot.allocated_count sl) h m env) in P.
  assert (O : out = (Ok (mkCancelResult aid (Some bid)),
                     Db.add_token (Db.put_time_slot d2 sl4) b',
                     snd (Queue.remove_from_waitlist qm (TimeSlot.id sl) bid))).
  { unfold out, cancel_token. rewrite Ga, Sa, Gs, R. fold a'. fold d2.
    change (TimeSlot.id freed) with (TimeSlot.id sl). now rewrite P. }
  exists a', b', sl4. rewrite O. unfold out_db. cbn [fst snd].
  split; [reflexivity|].
  split.
  { rewrite get_token_after_add_other by (cbn; congruence).
    rewrite get_token_after_put_slot. unfold d2.
    now apply get_token_after_add_key. }
  split; [reflexivity|].
  split; [now apply get_token_after_add_key|].
  split; [reflexivity|]. split; [reflexivity|]. split; [reflexivity|].
  split; [reflexivity|].
  split.
  { rewrite <- Wi.
    change (Db.get_time_slot (Db.put_time_slot d2 sl4) (TimeSlot.id sl4) = Some sl4).
    apply get_slot_after_put. }
  split; [cbn; now rewrite Wt|]. split; [exact C4|]. split; [exact Ww|].
  apply position_none_after_remove.
Qed.

Lemma cancel_promotes_the_queue_head_witness :
  let e0 := run decimal_int (Scenario.start 2)
              [ (Scenario.walk_in "1", Scenario.env 1 "1");
                (Scenario.walk_in "2", Scenario.env 2 "2") ] in
  let e := snd (handle decimal_int e0 (ReqDemote "TKN2") (Scenario.env 3 "3")) in
  let out := cancel_token decimal_int (reallocation_queue e) (db e) "TKN1"
               (Scenario.env 4 "4") in
  exists b' sl',
    fst (fst out) = Ok (mkCancelResult "TKN1" (Some "TKN2"))
    /\ Db.get_token (out_db out) "TKN2" = Some b'
    /\ Token.status b' = CONFIRMED
    /\ Token.token_number b' = Some 1
    /\ Db.get_time_slot (out_db out) "SLOT1" = Some sl'
    /\ TimeSlot.tokens sl' = ["TKN2"].
Proof.
  intros e0 e out.
  pose (sl := TimeSlot.mk "SLOT1" "DOC001" "09:00" "10:00" "2026-01-29" 2 1
                          ["TKN1"] ["TKN2"] 0).
  pose (a := Token.mk "TKN1" (Some 1) "PAT1" "DOC001" "SLOT1" "WALK_IN" 5 CONFIRMED
                      (Some "09:00") 1 1 [(1, "Token allocated from WALK_IN")]).
  pose (b := Token.mk "TKN2" None "PAT2" "DOC001" "SLOT1" "WALK_IN" 5 WAITLISTED
                      None 2 3
                      [(2, "Token allocated from WALK_IN");
                       (3, "Demoted to accommodate higher priority token")]).
  assert (I : In "TKN1" (TimeSlot.tokens sl)) by (now left).
  assert (O : slot_ok sl) by (split; cbn; [reflexivity | lia]).
  assert (N1 : "TKN2" <> "") by discriminate.
  assert (N2 : "TKN2" <> "TKN1") by discriminate.
  destruct (@cancel_promotes_the_queue_head decimal_int (reallocation_queue e) (db e)
              "TKN1" "TKN2" a b sl 9 0 (Scenario.env 4 "4")
              eq_refl eq_refl eq_refl I O eq_refl N1 N2 eq_refl eq_refl
              ltac:(vm_compute; split; discriminate))
    as (a' & b' & sl' & H1 & _ & _ & H2 & H3 & _ & H4 & _ & H5 & H6 & _).
  exists b', sl'. repeat split; assumption.
Defined.

(** X26.  Cancelling a Waitlisted token takes it off both waitlists and
    touches nothing else: [cancel_token] succeeds without promoting
    anyone, the token becomes Cancelled, its first occurrence leaves the
    slot's waitlist and it has no position left in the service's queue,
    while the confirmed list, the counter and every other token are as
    before. *)
Theorem cancel_waitlisted_leaves_confirmed_alone :
  forall (py_int : string -> option Z) (qm : QueueManager) (d : DataStore)
         (token_id : string) (tk : Token.t) (sl : TimeSlot.t) (env : Env),
    Db.get_token d token_id = Some tk ->
    Token.status tk = WAITLISTED ->
    Db.get_time_slot d (Token.slot_id tk) = Some sl ->
    let out := cancel_token py_int qm d token_id env in
    exists tk' sl',
      fst (fst out) = Ok (mkCancelResult token_id None)
      /\ snd out = snd (Queue.remove_from_waitlist qm (TimeSlot.id sl) token_id)
      /\ Queue.get_waitlist_position (snd out) (TimeSlot.id sl) token_id = None
      /\ Db.get_token (out_db out) token_id = Some tk'
      /\ Token.status tk' = CANCELLED
      /\ (forall k, k <> token_id ->
            Db.get_token (out_db out) k = Db.get_token d k)
      /\ Db.get_time_slot (out_db out) (TimeSlot.id sl) = Some sl'
      /\ TimeSlot.waitlist sl' = TimeSlot.remove_first token_id (TimeSlot.waitlist sl)
      /\ TimeSlot.tokens sl' = TimeSlot.tokens sl
      /\ TimeSlot.allocated_count sl' = TimeSlot.allocated_count sl.
Proof.
  intros py_int qm d tid tk sl env G S Gs out.
  pose proof (dict_get_key _ _ _ G) as K.
  set (tk' := Token.update_status tk CANCELLED "Waitlisted token cancelled" (now env)).
  set (sl' := snd (TimeSlot.remove_from_waitlist sl tid)).
  assert (O : out = (Ok (mkCancelResult tid None),
                     Db.add_token (Db.put_time_slot d sl') tk',
                     snd (Queue.remove_from_waitlist qm (TimeSlot.id sl) tid))).
  { unfold out, cancel_token. now rewrite G, S, Gs. }
  assert (W : TimeSlot.waitlist sl' = TimeSlot.remove_first tid (TimeSlot.waitlist sl)
              /\ TimeSlot.tokens sl' = TimeSlot.tokens sl
              /\ TimeSlot.allocated_count sl' = TimeSlot.allocated_count sl
              /\ TimeSlot.id sl' = TimeSlot.id sl).
  { unfold sl', TimeSlot.remove_from_waitlist.
    destruct (TimeSlot.mem tid (TimeSlot.waitlist sl)) eqn:M; cbn; repeat split.
    apply mem_not_In in M. now rewrite remove_first_absent. }
  destruct W as (W1 & W2 & W3 & W4).
  exists tk', sl'. rewrite O. unfold out_db. cbn [fst snd].
  split; [reflexivity|]. split; [reflexivity|].
  split; [apply position_none_after_remove|].
  split; [now apply get_token_after_add_key|].
  split; [reflexivity|].
  split.
  { intros k N. rewrite get_token_after_add_other by (cbn; congruence).
    reflexivity. }
  split.
  { rewrite <- W4.
    change (Db.get_time_slot (Db.put_time_slot d sl') (TimeSlot.id sl') = Some sl').
    apply get_slot_after_put. }
  auto.
Qed.

Lemma cancel_waitlisted_leaves_confirmed_alone_witness :
  let e := run decimal_int (Scenario.start 1)
             [ (Scenario.walk_in "1", Scenario.env 1 "1");
               (Scenario.walk_in "2", Scenario.env 2 "2") ] in
  let out := cancel_token decimal_int (reallocation_queue e) (db e) "TKN2"
               (Scenario.env 3 "3") in
  exists tk' sl',
    fst (fst out) = Ok (mkCancelResult "TKN2" None)
    /\ Db.get_token (out_db out) "TKN2" = Some tk'
    /\ Token.status tk' = CANCELLED
    /\ Db.get_time_slot (out_db out) "SLOT1" = Some sl'
    /\ TimeSlot.waitlist sl' = []
    /\ TimeSlot.tokens sl' = ["TKN1"].
Proof.
  intros e out.
  pose (sl := TimeSlot.mk "SLOT1" "DOC001" "09:00" "10:00" "2026-01-29" 1 1
                          ["TKN1"] ["TKN2"] 0).
  pose (tk := Token.mk "TKN2" None "PAT2" "DOC001" "SLOT1" "WALK_IN" 5 WAITLISTED
                       None 2 2 [(2, "Added to waitlist from WALK_IN")]).
  destruct (@cancel_waitlisted_leaves_confirmed_alone decimal_int
              (reallocation_queue e) (db e) "TKN2" tk sl (Scenario.env 3 "3")
              eq_refl eq_refl eq_refl)
    as (tk' & sl' & H1 & _ & _ & H2 & H3 & _ & H4 & H5 & H6 & _).
  exists tk', sl'. repeat split; assumption.
Defined.

(** ** The ids a slot lists always name stored tokens *)

Lemma get_token_add_keeps d tk k :
  Db.get_token d k <> None -> Db.get_token (Db.add_token d tk) k <> None.
Proof.
  intros H. unfold Db.get_token, Db.add_token. cbn [tokens].
  now apply dict_set_keeps.
Qed.

Lemma slot_refs_same_tokens d d' s :
  (forall k, Db.get_token d k <> None -> Db.get_token d' k <> None) ->
  slot_refs d s -> slot_refs d' s.
Proof. intros M H k Hk. apply M, H, Hk. Qed.

Lemma slot_refs_remove_token d s k :
  slot_refs d s -> slot_refs d (snd (TimeSlot.remove_token s k)).
Proof.
  intros H x. unfold TimeSlot.remove_token.
  destruct (TimeSlot.mem k (TimeSlot.tokens s)); cbn; [|apply H].
  intros [I|I]; apply H; [left; eapply remove_first_incl, I | now right].
Qed.

Lemma slot_refs_remove_from_waitlist d s k :
  slot_refs d s -> slot_refs d (snd (TimeSlot.remove_from_waitlist s k)).
Proof.
  intros H x. unfold TimeSlot.remove_from_waitlist.
  destruct (TimeSlot.mem k (TimeSlot.waitlist s)); cbn; [|apply H].
  intros [I|I]; apply H; [now left | right; eapply remove_first_incl, I].
Qed.

Lemma slot_refs_add_token d s k :
  slot_refs d s -> Db.get_token d k <> None ->
  slot_refs d (snd (TimeSlot.add_token s k)).
Proof.
  intros H Hk x. unfold TimeSlot.add_token.
  destruct (_ <? _); cbn; [|apply H].
  intros [I|I]; [|apply H; now right].
  apply in_app_or in I. destruct I as [I|[<-|[]]]; [apply H; now left | exact Hk].
Qed.

Lemma slot_refs_add_to_waitlist d s k :
  slot_refs d s -> Db.get_token d k <> None ->
  slot_refs d (snd (TimeSlot.add_to_waitlist s k)).
Proof.
  intros H Hk x. unfold TimeSlot.add_to_waitlist.
  destruct (TimeSlot.mem k (TimeSlot.waitlist s)); cbn; [apply H|].
  intros [I|I]; [apply H; now left|].
  apply in_app_or in I. destruct I as [I|[<-|[]]]; [apply H; now right | exact Hk].
Qed.

Lemma refs_put d s : refs_ok d -> slot_refs d s -> refs_ok (Db.put_time_slot d s).
Proof.
  intros H Hs. unfold refs_ok, Db.put_time_slot. cbn [time_slots].
  apply dict_set_Forall; [exact Hs|].
  eapply Forall_impl; [|exact H]. intros x Hx. exact Hx.
Qed.

Lemma refs_add_token d tk : refs_ok d -> refs_ok (Db.add_token d tk).
Proof.
  intros H. unfold refs_ok. cbn [Db.add_token time_slots].
  eapply Forall_impl; [|exact H]. intros x Hx.
  eapply slot_refs_same_tokens; [|exact Hx]. intros k. apply get_token_add_keeps.
Qed.

(** Writing a slot that lists the new token, then storing the token. *)
Lemma refs_put_add d s tk :
  refs_ok d -> slot_refs (Db.add_token d tk) s ->
  refs_ok (Db.add_token (Db.put_time_slot d s) tk).
Proof.
  intros H Hs. unfold refs_ok.
  change (time_slots (Db.add_token (Db.put_time_slot d s) tk))
    with (dict_set TimeSlot.id s (time_slots d)).
  assert (M : forall k, Db.get_token d k <> None ->
                Db.get_token (Db.add_token (Db.put_time_slot d s) tk) k <> None).
  { intros k Hk. apply get_token_add_keeps. exact Hk. }
  apply dict_set_Forall.
  - eapply slot_refs_same_tokens; [|exact Hs]. intros k Hk. exact Hk.
  - eapply Forall_impl; [|exact H]. intros x Hx.
    eapply slot_refs_same_tokens; [exact M | exact Hx].
Qed.

Lemma refs_get d sid s : refs_ok d -> Db.get_time_slot d sid = Some s -> slot_refs d s.
Proof.
  intros H G. apply dict_get_In in G.
  unfold refs_ok in H. rewrite Forall_forall in H. now apply H.
Qed.

Lemma refs_find d doc date tm s :
  refs_ok d -> Db.find_slot_by_time d doc date tm = Some s -> slot_refs d s.
Proof.
  intros H G. apply find_some in G. destruct G as [G _].
  unfold refs_ok in H. rewrite Forall_forall in H. now apply H.
Qed.

Lemma refs_patient d pd env : refs_ok d -> refs_ok (snd (get_or_create_patient d pd env)).
Proof.
  intros H. unfold get_or_create_patient.
  destruct (Db.find_patient_by_phone d (pd_phone pd)); cbn [snd]; exact H.
Qed.

Lemma get_token_some_not_none d k tk : Db.get_token d k = Some tk -> Db.get_token d k <> None.
Proof. congruence. Qed.

Lemma created_confirmed_id py_int pid doc sl src prio env tk :
  _create_confirmed_token py_int pid doc sl src prio env = Ok tk ->
  Token.id tk = new_token_id env.
Proof.
  unfold _create_confirmed_token, Token.calculate_estimated_time.
  destruct (Token.parse_start_time _ _) as [[h m]|]; [|discriminate].
  destruct (in_date_range _); [|discriminate].
  now intros [= <-].
Qed.

Section RefsPreserved.
Variable py_int : string -> option Z.

Lemma refs_new_confirmed d sl tk :
  refs_ok d -> slot_refs d sl ->
  refs_ok (Db.add_token (Db.put_time_slot d (snd (TimeSlot.add_token sl (Token.id tk))))
                        tk).
Proof.
  intros H Hs. apply refs_put_add; [exact H|].
  apply slot_refs_add_token.
  - eapply slot_refs_same_tokens; [|exact Hs]. intros k. apply get_token_add_keeps.
  - rewrite get_token_after_add. discriminate.
Qed.

Lemma refs_new_waitlisted d sl tk :
  refs_ok d -> slot_refs d sl ->
  refs_ok (Db.add_token
             (Db.put_time_slot d (snd (TimeSlot.add_to_waitlist sl (Token.id tk)))) tk).
Proof.
  intros H Hs. apply refs_put_add; [exact H|].
  apply slot_refs_add_to_waitlist.
  - eapply slot_refs_same_tokens; [|exact Hs]. intros k. apply get_token_add_keeps.
  - rewrite get_token_after_add. discriminate.
Qed.

Lemma refs_promote qm d slot_id env :
  refs_ok d -> refs_ok (out_db (_promote_from_waitlist py_int qm d slot_id env)).
Proof.
  intros H. unfold _promote_from_waitlist, out_db.
  destruct (Queue.get_next_from_waitlist qm slot_id) as [next|]; [|exact H].
  destruct (String.eqb next ""); [exact H|].
  destruct (Db.get_token d next) as [tk|] eqn:Gt; [|exact H].
  destruct (Db.get_time_slot d slot_id) as [sl|] eqn:Gs; [|exact H].
  pose proof (dict_get_key _ _ _ Gt) as K.
  assert (Hs : slot_refs d
                 (snd (TimeSlot.add_token
                         (snd (TimeSlot.remove_from_waitlist sl (Token.id tk)))
                         (Token.id tk)))).
  { apply slot_refs_add_token.
    - apply slot_refs_remove_from_waitlist. eapply refs_get; eassumption.
    - rewrite K. congruence. }
  destruct (Token.calculate_estimated_time _ _ _ _ _); cbn [fst snd];
    apply refs_add_token, refs_put; assumption.
Qed.

Lemma refs_cancel qm d token_id env :
  refs_ok d -> refs_ok (out_db (cancel_token py_int qm d token_id env)).
Proof.
  intros H. unfold cancel_token, out_db.
  destruct (Db.get_token d token_id) as [tk|]; [|exact H].
  destruct (Token.status tk) eqn:S; try exact H;
    (destruct (Db.get_time_slot d (Token.slot_id tk)) as [sl|] eqn:G; [|exact H]).
  - match goal with
    | |- context [_promote_from_waitlist py_int ?q ?d0 ?s ?e] =>
        assert (R : refs_ok (out_db (_promote_from_waitlist py_int q d0 s e)));
        [apply refs_promote, refs_add_token, refs_put;
         [exact H | apply slot_refs_remove_token; eapply refs_get; eassumption]|];
        destruct (_promote_from_waitlist py_int q d0 s e) as [[[r|er] d3] q3]
    end; exact R.
  - cbn [fst snd]. apply refs_add_token, refs_put; [exact H|].
    apply slot_refs_remove_from_waitlist. eapply refs_get; eassumption.
Qed.

Lemma refs_no_show qm d token_id env :
  refs_ok d -> refs_ok (out_db (mark_no_show py_int qm d token_id env)).
Proof.
  intros H. unfold mark_no_show, out_db.
  destruct (Db.get_token d token_id) as [tk|]; [|exact H].
  destruct (negb (Status_eqb (Token.status tk) CONFIRMED)); [exact H|].
  destruct (Db.get_time_slot d (Token.slot_id tk)) as [sl|] eqn:G; [|exact H].
  match goal with
  | |- context [_promote_from_waitlist py_int ?q ?d0 ?s ?e] =>
      assert (R : refs_ok (out_db (_promote_from_waitlist py_int q d0 s e)));
      [apply refs_promote, refs_add_token, refs_put;
       [exact H | apply slot_refs_remove_token; eapply refs_get; eassumption]|];
      destruct (_promote_from_waitlist py_int q d0 s e) as [[[r|er] d3] q3]
  end; exact R.
Qed.

Lemma refs_demote qm d token_id env :
  refs_ok d -> refs_ok (out_db (demote_token qm d token_id env)).
Proof.
  intros H. unfold demote_token, out_db.
  destruct (Db.get_token d token_id) as [tk|] eqn:Gt; [|exact H].
  destruct (negb (Status_eqb (Token.status tk) CONFIRMED)); [exact H|].
  destruct (Db.get_time_slot d (Token.slot_id tk)) as [sl|] eqn:G; [|exact H].
  destruct (Queue.add_to_waitlist _ _ _ _ _). cbn [fst snd].
  apply refs_add_token, refs_put; [exact H|].
  apply slot_refs_add_to_waitlist; [|congruence].
  apply slot_refs_remove_token. eapply refs_get; eassumption.
Qed.

Lemma refs_complete qm d token_id env :
  refs_ok d -> refs_ok (out_db (complete_token qm d token_id env)).
Proof.
  intros H. unfold complete_token, out_db.
  destruct (Db.get_token d token_id) as [tk|]; [|exact H].
  destruct (negb (Status_eqb (Token.status tk) CONFIRMED)); cbn [fst snd];
    [exact H | now apply refs_add_token].
Qed.

Lemma refs_allocate qm d pd doctor_id date tm source env :
  refs_ok d ->
  refs_ok (out_db (allocate_token py_int qm d pd doctor_id date tm source env)).
Proof.
  intros H. unfold allocate_token, out_db.
  destruct (negb (PriorityManager.validate_source source)); [exact H|].
  destruct (Db.get_doctor d doctor_id); [|exact H].
  pose proof (@refs_patient d pd env H) as H1.
  destruct (get_or_create_patient d pd env) as [patient d1]. cbn [snd] in H1.
  destruct (Db.find_slot_by_time d1 doctor_id date tm) as [sl|] eqn:F; [|exact H1].
  pose proof (@refs_find _ _ _ _ _ H1 F) as Hs.
  destruct (negb (TimeSlot.is_full sl)).
  - destruct (_create_confirmed_token _ _ _ _ _ _ _) as [tk|]; cbn [fst snd];
      [now apply refs_new_confirmed | exact H1].
  - destruct (Queue.add_to_waitlist _ _ _ _ _). cbn [fst snd].
    now apply refs_new_waitlisted.
Qed.

Lemma refs_emergency qm d pd doctor_id date tm env :
  refs_ok d ->
  refs_ok (out_db (allocate_emergency_token py_int qm d pd doctor_id date tm env)).
Proof.
  intros H. unfold allocate_emergency_token, out_db.
  pose proof (@refs_patient d pd env H) as H1.
  destruct (get_or_create_patient d pd env) as [patient d1]. cbn [snd] in H1.
  destruct (Db.find_slot_by_time d1 doctor_id date tm) as [sl|] eqn:F; [|exact H1].
  pose proof (@refs_find _ _ _ _ _ H1 F) as Hs.
  destruct (negb (TimeSlot.is_full sl)).
  - destruct (_create_confirmed_token _ _ _ _ _ _ _) as [tk|]; cbn [fst snd];
      [now apply refs_new_confirmed | exact H1].
  - destruct (map (Db.get_token d1) (TimeSlot.tokens sl)) as [|o l]; [exact H1|].
    destruct (all_some (o :: l)) as [[|first rest]|]; try exact H1.
    destruct (PriorityManager.should_demote _ _).
    + match goal with
      | |- context [demote_token ?q ?d0 ?t ?e] =>
          pose proof (@refs_demote q d0 t e H1) as R;
          pose proof (@Q_demote (fun x => slot_refs x sl)
                        (fun x tk0 Hx =>
                           @slot_refs_same_tokens x (Db.add_token x tk0) sl
                             (fun k => @get_token_add_keeps x tk0 k) Hx)
                        (fun x s0 Hx => Hx) q d0 t e Hs) as S;
          destruct (demote_token q d0 t e) as [[[r|er] d2] q2]
      end; unfold out_db in R, S; cbn [fst snd] in R, S; [|exact R].
      assert (Hr : slot_refs d2 (reread_slot d2 sl)).
      { unfold reread_slot.
        destruct (Db.get_time_slot d2 (TimeSlot.id sl)) as [s2|] eqn:G2;
          [eapply refs_get; eassumption | exact S]. }
      destruct (_create_confirmed_token _ _ _ _ _ _ _) as [tk|]; cbn [fst snd];
        [now apply refs_new_confirmed | exact R].
    + destruct (Queue.add_to_waitlist _ _ _ _ _). cbn [fst snd].
      now apply refs_new_waitlisted.
Qed.

Lemma refs_handle e req env :
  refs_ok (db e) -> refs_ok (db (snd (handle py_int e req env))).
Proof.
  intros H.
  destruct req as [pd doc date tm src | pd doc date tm | tid | tid | tid | tid | sid];
    simpl; unfold on_allocation, on_reallocation.
  - pose proof (@refs_allocate (allocation_queue e) (db e) pd doc date tm src env H) as R.
    destruct (allocate_token _ _ _ _ _ _ _ _ _) as [[r d'] q']. exact R.
  - pose proof (@refs_emergency (allocation_queue e) (db e) pd doc date tm env H) as R.
    destruct (allocate_emergency_token _ _ _ _ _ _ _ _) as [[r d'] q']. exact R.
  - pose proof (@refs_cancel (reallocation_queue e) (db e) tid env H) as R.
    destruct (cancel_token _ _ _ _ _) as [[r d'] q']. exact R.
  - pose proof (@refs_no_show (reallocation_queue e) (db e) tid env H) as R.
    destruct (mark_no_show _ _ _ _ _) as [[r d'] q']. exact R.
  - pose proof (@refs_complete (reallocation_queue e) (db e) tid env H) as R.
    destruct (complete_token _ _ _ _) as [[r d'] q']. exact R.
  - pose proof (@refs_demote (reallocation_queue e) (db e) tid env H) as R.
    destruct (demote_token _ _ _ _) as [[r d'] q']. exact R.
  - pose proof (@refs_promote (reallocation_queue e) (db e) sid env H) as R.
    destruct (_promote_from_waitlist _ _ _ _ _) as [[r d'] q']. exact R.
Qed.

Lemma refs_run reqs e : refs_ok (db e) -> refs_ok (db (run py_int e reqs)).
Proof.
  revert e. induction reqs as [|[req env] reqs IH]; simpl; intros e H; [exact H|].
  apply IH, refs_handle, H.
Qed.
End RefsPreserved.

Lemma all_some_present d l :
  (forall k, In k l -> Db.get_token d k <> None) ->
  exists toks, all_some (map (Db.get_token d) l) = Some toks
               /\ List.length toks = List.length l.
Proof.
  induction l as [|k l IH]; intros H; [exists []; split; reflexivity|].
  destruct IH as (toks & E & L); [intros x Hx; apply H; now right|].
  cbn [map all_some].
  destruct (Db.get_token d k) as [tk|] eqn:G;
    [|exfalso; apply (H k (or_introl eq_refl)); exact G].
  rewrite E. exists (tk :: toks). split; [reflexivity | simpl; now rewrite L].
Qed.

(** X27.  The ids a slot lists always name stored tokens.  This holds in
    the empty store and for every new, empty slot, and every request
    keeps it: from a store where each id on a confirmed list or waitlist
    is the id of a stored token, after any sequence of requests that is
    still so.  In such a store [allocate_emergency_token] never fails on
    a missing token when it looks for the token to displace. *)
Theorem listed_ids_name_stored_tokens :
  refs_ok Db.empty
  /\ (forall d slot_id doctor_id start_time end_time date capacity t,
        refs_ok d ->
        refs_ok (Db.add_time_slot d
                   (TimeSlot.new slot_id doctor_id start_time end_time date
                                 capacity t)))
  /\ (forall (py_int : string -> option Z) (e : Engine) (reqs : list (Request * Env)),
        refs_ok (db e) -> refs_ok (db (run py_int e reqs)))
  /\ (forall (py_int : string -> option Z) (qm : QueueManager) (d : DataStore)
             (pd : PatientData) (doctor_id date slot_time : string) (env : Env),
        refs_ok d ->
        fst (fst (allocate_emergency_token py_int qm d pd doctor_id date slot_time env))
        <> Raise NoneAttribute).
Proof.
  split; [apply Forall_nil|]. split; [|split].
  - intros d sid doc st en date cap t H.
    assert (R : refs_ok (Db.put_time_slot d (TimeSlot.new sid doc st en date cap t))).
    { apply refs_put; [exact H|]. intros k [[]|[]]. }
    unfold Db.add_time_slot.
    destruct (Db.get_doctor _ _); exact R.
  - intros py_int e reqs H. now apply refs_run.
  - intros py_int qm d pd doctor_id date tm env H.
    pose proof (@refs_patient d pd env H) as H1.
    unfold allocate_emergency_token.
    destruct (get_or_create_patient d pd env) as [patient d1]. cbn [snd] in H1.
    destruct (Db.find_slot_by_time d1 doctor_id date tm) as [sl|] eqn:F;
      [|discriminate].
    pose proof (@refs_find _ _ _ _ _ H1 F) as Hs.
    destruct (negb (TimeSlot.is_full sl)).
    { destruct (_create_confirmed_token _ _ _ _ _ _ _) eqn:C; [discriminate|].
      destruct (create_confirmed_errors _ _ _ _ _ _ _ C) as [-> | ->];
        discriminate. }
    destruct (@all_some_present d1 (TimeSlot.tokens sl)) as (toks & E & L);
      [intros k Hk; apply Hs; now left|].
    destruct (map (Db.get_token d1) (TimeSlot.tokens sl)) as [|o l] eqn:M;
      [discriminate|].
    rewrite E.
    destruct toks as [|first rest].
    { exfalso. apply (f_equal (@List.length _)) in M. rewrite length_map in M.
      simpl in L, M. lia. }
    destruct (PriorityManager.should_demote _ _).
    + destruct (demote_token Queue.init d1 _ env) as [[[r|er] d2] q2] eqn:D.
      * destruct (_create_confirmed_token _ _ _ _ _ _ _) eqn:C; [discriminate|].
        destruct (create_confirmed_errors _ _ _ _ _ _ _ C) as [-> | ->];
          discriminate.
      * cbn [fst]. apply demote_token_errors in D.
        destruct D as [-> | [-> | ->]]; discriminate.
    + destruct (Queue.add_to_waitlist _ _ _ _ _). discriminate.
Qed.

Lemma listed_ids_name_stored_tokens_witness :
  let e := Scenario.start 1 in
  let reqs := [ (Scenario.walk_in "1", Scenario.env 1 "1");
                (Scenario.walk_in "2", Scenario.env 2 "2");
                (Scenario.emergency "3", Scenario.env 3 "3") ] in
  refs_ok (db (run decimal_int e reqs)).
Proof.
  intros e reqs.
  destruct listed_ids_name_stored_tokens as (H0 & Hs & Hr & _).
  apply Hr.
  apply (Hs (Db.add_doctor Db.empty Scenario.doc)
            "SLOT1" "DOC001" "09:00" "10:00" "2026-01-29" 1 0).
  exact H0.
Defined.

(** ** The queue listing *)

Lemma enumerate_from_entries idx l :
  map snd (Queue.enumerate_from idx l) = l.
Proof.
  revert idx. induction l as [|e l IH]; intros idx; cbn; [reflexivity|].
  now rewrite IH.
Qed.

Lemma enumerate_from_indices idx l :
  map fst (Queue.enumerate_from idx l)
  = map (fun i => idx + Z.of_nat i) (seq 0 (List.length l)).
Proof.
  revert idx. induction l as [|e l IH]; intros idx; [reflexivity|].
  cbn [Queue.enumerate_from map List.length seq fst].
  rewrite IH, <- seq_shift, map_map. f_equal; [lia|].
  apply map_ext. intros i. lia.
Qed.

Lemma enumerate_from_In idx b e a :
  In (idx + Z.of_nat (List.length b), e) (Queue.enumerate_from idx (b ++ e :: a)).
Proof.
  revert idx. induction b as [|x b IH]; intros idx; cbn [app Queue.enumerate_from
    List.length].
  - left. f_equal. simpl. lia.
  - right. replace (idx + Z.of_nat (S (List.length b)))
      with (idx + 1 + Z.of_nat (List.length b)) by lia. apply IH.
Qed.

(** X28.  [get_waitlist_info] lists the slot's queue in order and numbers
    it from 1: its token ids and priorities are those of the entries, in
    queue order, its positions are 1, 2, ..., [get_waitlist_size], and
    the position [get_waitlist_position] reports for a token is one of
    the rows listed for that token. *)
Theorem waitlist_info_numbers_the_queue :
  forall (qm : QueueManager) (slot_id : string),
    let info := Queue.get_waitlist_info qm slot_id in
    map (fun row => (fst (fst row), snd (fst row))) info
    = map (fun e => (e_token_id e, e_priority e)) (entries_of qm slot_id)
    /\ map snd info
       = map (fun i => Z.of_nat i + 1) (seq 0 (List.length (entries_of qm slot_id)))
    /\ Z.of_nat (List.length info) = Queue.get_waitlist_size qm slot_id
    /\ forall token_id pos,
        Queue.get_waitlist_position qm slot_id token_id = Some pos ->
        exists priority, In (token_id, priority, pos) info.
Proof.
  intros qm sid info. unfold info, Queue.get_waitlist_info, entries_of,
    Queue.get_waitlist_size, Queue.get_waitlist_position.
  destruct (Queue.waitlist_of qm sid) as [l|]; [|repeat split; discriminate].
  split; [|split; [|split]].
  - rewrite map_map. cbn [fst snd].
    rewrite <- (enumerate_from_entries 0 l) at 2. now rewrite map_map.
  - rewrite map_map. cbn [snd].
    rewrite <- (map_map fst (fun i => i + 1)), enumerate_from_indices, map_map.
    apply map_ext. intros i. lia.
  - now rewrite length_map, <- (length_map snd), enumerate_from_entries.
  - intros tid pos F. apply find_position_Some in F.
    destruct F as (b & e & a & -> & He & _ & ->).
    exists (e_priority e).
    apply in_map_iff. exists (0 + Z.of_nat (List.length b), e).
    split; [cbn; now rewrite He | apply enumerate_from_In].
Qed.

Lemma waitlist_info_numbers_the_queue_witness :
  let qm := fold_left apply_queue_op
              [Enqueue "SLOT1" "TKN1" 5 10; Enqueue "SLOT1" "TKN2" 3 20] Queue.init in
  exists priority, In ("TKN1", priority, 2) (Queue.get_waitlist_info qm "SLOT1").
Proof.
  intros qm.
  destruct (waitlist_info_numbers_the_queue qm "SLOT1") as (_ & _ & _ & H).
  apply (H "TKN1" 2). reflexivity.
Defined.

(** ** What an allocated token refers to *)

Lemma find_In_get (d : DataStore) doctor_id date tm s :
  Db.find_slot_by_time d doctor_id date tm = Some s ->
  Db.get_time_slot d (TimeSlot.id s) <> None.
Proof.
  unfold Db.find_slot_by_time, Db.get_time_slot. intros F.
  apply find_some in F. destruct F as [F _].
  induction (time_slots d) as [|x xs IH]; [destruct F|].
  cbn. destruct (String.eqb_spec (TimeSlot.id x) (TimeSlot.id s)); [discriminate|].
  destruct F as [->|F]; [contradiction | now apply IH].
Qed.

Lemma patient_of_request_stored d pd env :
  Db.get_patient (snd (get_or_create_patient d pd env))
                 (Patient.id (fst (get_or_create_patient d pd env))) <> None.
Proof.
  unfold get_or_create_patient.
  destruct (Db.find_patient_by_phone d (pd_phone pd)) as [p|] eqn:F; cbn [fst snd].
  - unfold Db.find_patient_by_phone in F. apply find_some in F. destruct F as [F _].
    unfold Db.get_patient.
    induction (patients d) as [|x xs IH]; [destruct F|].
    cbn. destruct (String.eqb_spec (Patient.id x) (Patient.id p)); [discriminate|].
    destruct F as [->|F]; [contradiction | now apply IH].
  - unfold Db.get_patient, Db.add_patient. cbn [patients].
    match goal with
    | |- dict_get _ _ (dict_set _ ?p _) <> None =>
        rewrite (dict_get_set_same Patient.id p)
    end. discriminate.
Qed.

(** X29.  A token [allocate_token] hands out refers to records that
    exist.  Whenever the call succeeds, the token is stored under its
    id, and its doctor, patient and slot are in the store; the slot lists
    the token's id on the confirmed list when the answer is Confirmed and
    on the waitlist when it is Waitlisted; and the token is among those
    [get_tokens_by_slot] and [get_tokens_by_patient] return for its slot
    and patient. *)
Theorem allocated_token_refers_to_stored_records :
  forall (py_int : string -> option Z) (qm : QueueManager) (d : DataStore)
         (pd : PatientData) (doctor_id date slot_time source : string) (env : Env)
         (tk : Token.t) (msg : AllocMsg) (d' : DataStore) (qm' : QueueManager),
    allocate_token py_int qm d pd doctor_id date slot_time source env
    = (Ok (tk, msg), d', qm') ->
    Db.get_token d' (Token.id tk) = Some tk
    /\ Db.get_doctor d' (Token.doctor_id tk) <> None
    /\ Db.get_patient d' (Token.patient_id tk) <> None
    /\ In tk (Db.get_tokens_by_slot d' (Token.slot_id tk))
    /\ In tk (Db.get_tokens_by_patient d' (Token.patient_id tk))
    /\ exists slot,
        Db.get_time_slot d' (Token.slot_id tk) = Some slot
        /\ ((msg = MsgConfirmed /\ Token.status tk = CONFIRMED
             /\ In (Token.id tk) (TimeSlot.tokens slot))
            \/ (exists position, msg = MsgWaitlisted position)
               /\ Token.status tk = WAITLISTED
               /\ In (Token.id tk) (TimeSlot.waitlist slot)).
Proof.
  intros py_int qm d pd doctor_id date tm source env tk msg d' qm' H.
  unfold allocate_token in H.
  destruct (negb (PriorityManager.validate_source source)); [discriminate|].
  destruct (Db.get_doctor d doctor_id) as [doc|] eqn:Gd; [|discriminate].
  pose proof (patient_of_request_stored d pd env) as Hpat.
  destruct (get_or_create_patient_frame d pd env) as (F1 & F2 & F3).
  destruct (get_or_create_patient d pd env) as [patient d1]. cbn [fst snd] in *.
  destruct (Db.find_slot_by_time d1 doctor_id date tm) as [sl|] eqn:F; [|discriminate].
  assert (Gd' : forall s t, Db.get_doctor (Db.add_token (Db.put_time_slot d1 s) t)
                              doctor_id <> None).
  { intros s t. unfold Db.get_doctor. cbn [Db.add_token Db.put_time_slot doctors].
    rewrite F1. unfold Db.get_doctor in Gd. congruence. }
  assert (Fin : forall t dd, Db.get_token dd (Token.id t) = Some t ->
                  In t (Db.get_tokens_by_slot dd (Token.slot_id t))
                  /\ In t (Db.get_tokens_by_patient dd (Token.patient_id t))).
  { intros t dd G. apply dict_get_In in G.
    split; apply filter_In; (split; [exact G | apply String.eqb_refl]). }
  destruct (TimeSlot.is_full sl) eqn:Full; cbn [negb] in H.
  - (* waitlisted *)
    destruct (Queue.add_to_waitlist _ _ _ _ _) as [pos qm1].
    injection H as <- <- <- _.
    set (t := _create_waitlisted_token _ _ _ _ _ _) in *.
    pose proof (get_token_after_add
                  (Db.put_time_slot d1 (snd (TimeSlot.add_to_waitlist sl (Token.id t))))
                  t) as G.
    split; [exact G|]. split; [apply Gd'|]. split; [exact Hpat|].
    destruct (Fin t _ G) as [A B]. split; [exact A|]. split; [exact B|].
    exists (snd (TimeSlot.add_to_waitlist sl (Token.id t))). split.
    + pose proof (get_slot_after_put d1
                    (snd (TimeSlot.add_to_waitlist sl (Token.id t)))) as Gs.
      assert (I : TimeSlot.id (snd (TimeSlot.add_to_waitlist sl (Token.id t)))
                  = TimeSlot.id sl).
      { unfold TimeSlot.add_to_waitlist. now destruct (TimeSlot.mem _ _). }
      rewrite I in Gs. exact Gs.
    + right. split; [now exists pos|]. split; [reflexivity|].
      unfold TimeSlot.add_to_waitlist.
      destruct (TimeSlot.mem (Token.id t) (TimeSlot.waitlist sl)) eqn:M; cbn.
      * now apply mem_In.
      * apply in_or_app. right. now left.
  - (* confirmed *)
    destruct (_create_confirmed_token _ _ _ _ _ _ _) as [t|] eqn:C; [|discriminate].
    injection H as <- <- <- _.
    assert (Ht : Token.status t = CONFIRMED /\ Token.slot_id t = TimeSlot.id sl
                 /\ Token.patient_id t = Patient.id patient
                 /\ Token.doctor_id t = doctor_id).
    { unfold _create_confirmed_token, Token.calculate_estimated_time in C.
      destruct (Token.parse_start_time _ _) as [[h m]|]; [|discriminate].
      destruct (in_date_range _); [|discriminate].
      injection C as <-. repeat split. }
    destruct Ht as (T1 & T2 & T3 & T4).
    pose proof (get_token_after_add
                  (Db.put_time_slot d1 (snd (TimeSlot.add_token sl (Token.id t)))) t)
      as G.
    split; [exact G|]. split; [rewrite T4; apply Gd'|].
    split; [rewrite T3; exact Hpat|].
    destruct (Fin t _ G) as [A B]. split; [exact A|]. split; [exact B|].
    unfold TimeSlot.is_full in Full. apply Z.leb_gt in Full.
    assert (E : snd (TimeSlot.add_token sl (Token.id t))
                = TimeSlot.with_tokens sl (TimeSlot.tokens sl ++ [Token.id t])
                                       (TimeSlot.allocated_count sl + 1)).
    { unfold TimeSlot.add_token.
      destruct (Z.ltb_spec (TimeSlot.allocated_count sl) (TimeSlot.max_capacity sl));
        [reflexivity | lia]. }
    exists (snd (TimeSlot.add_token sl (Token.id t))). split.
    + rewrite T2.
      pose proof (get_slot_after_put d1 (snd (TimeSlot.add_token sl (Token.id t))))
        as Gs.
      rewrite E in Gs |- *. exact Gs.
    + left. split; [reflexivity|]. split; [exact T1|].
      rewrite E. cbn. apply in_or_app. right. now left.
Qed.

Lemma allocated_token_refers_to_stored_records_witness :
  let e := Scenario.start 1 in
  let out := allocate_token decimal_int (allocation_queue e) (db e)
               (Scenario.patient "1") "DOC001" "2026-01-29" "09:00" "WALK_IN"
               (Scenario.env 1 "1") in
  Db.get_patient (out_db out) "PAT1" <> None
  /\ exists tk, Db.get_token (out_db out) "TKN1" = Some tk
                /\ In tk (Db.get_tokens_by_slot (out_db out) "SLOT1").
Proof.
  intros e out.
  destruct out as [[r d'] q'] eqn:O.
  assert (X : exists tk, r = Ok (tk, MsgConfirmed) /\ Token.id tk = "TKN1"
                         /\ Token.patient_id tk = "PAT1"
                         /\ Token.slot_id tk = "SLOT1").
  { unfold out in O. vm_compute in O. injection O as <- _ _.
    eexists. repeat split. }
  destruct X as (tk & -> & I1 & I2 & I3).
  destruct (@allocated_token_refers_to_stored_records decimal_int
              (allocation_queue e) (db e) (Scenario.patient "1") "DOC001"
              "2026-01-29" "09:00" "WALK_IN" (Scenario.env 1 "1") tk MsgConfirmed
              d' q' O) as (H1 & _ & H2 & H3 & _).
  unfold out_db. cbn [fst snd]. rewrite I1, I2, I3 in *.
  split; [exact H2|]. exists tk. split; assumption.
Defined.
